(** * Discrepancies between piecewise-linear paths (torchshapelets)

    A shallow embedding of [torchshapelets/discrepancies.py]: the classes
    [CppDiscrepancy], [L2Discrepancy] and [LogsignatureDiscrepancy].

    Tensors are objects in a store.  A Python variable holds a reference
    ([loc]) to a tensor object; out-of-place operations ([unsqueeze],
    [expand], [view], [cat], [-], [@], [*], [norm]) create a new object, the
    in-place [unsqueeze_] rewrites the object it is called on.  No operation
    used by this module writes into the elements of an existing tensor after
    construction, so an object carries its shape together with its elements
    in row-major order.  Elements are real numbers: rounding, infinities and
    NaN of the floating-point types are outside this model, and what is
    proved of a difference holds of the floating-point one where its
    operands are finite.  Strides are outside this model as well: [view] is
    as [torch] has it for a contiguous tensor.  The tensors [forward] views
    are the results of [torch.cat] and of [signatory], which are contiguous,
    and, without the time channel, the paths it is given; a path with at
    most one batch dimension can be viewed as [forward] does whatever its
    strides, one with more batch dimensions has to be contiguous. *)

From Stdlib Require Import ZArith Reals String Lia Lra.
From Stdlib Require Import Ascii DecimalString DecimalZ DecimalPos.
From stdpp Require Import base list.

Local Open Scope Z_scope.

(** ** Exceptions and the store monad *)

(** The Python exceptions this module and the tensor library raise. *)
Inductive exn : Type :=
  | AssertionError   (* a failed [assert] *)
  | ImportError      (* raised by [LogsignatureDiscrepancy.__init__] *)
  | RuntimeError     (* torch: shapes that do not fit *)
  | IndexError       (* torch: dimension out of range *)
  | TypeError.       (* an operand that is [None] *)

(** The error classes the specification speaks of. *)
Inductive error_class : Type :=
  | ConfigurationError
  | ShapeError
  | DependencyMissingError.

Definition classify (e : exn) : error_class :=
  match e with
  | AssertionError => ConfigurationError
  | ImportError => DependencyMissingError
  | RuntimeError | IndexError | TypeError => ShapeError
  end.

Definition result (A : Type) : Type := (exn + A)%type.

Record tensor : Type := Tensor { shape : list Z; data : list R }.

Definition loc : Type := nat.
Abbreviation heap := (list tensor).

(** A computation reads and extends the store and either returns or raises;
    the store is kept in both cases. *)
Definition M (A : Type) : Type := heap -> result A * heap.

#[export] Instance M_ret : MRet M := fun A (a : A) (h : heap) => (inr a, h).
#[export] Instance M_bind : MBind M := fun A B (f : A -> M B) (m : M A) (h : heap) =>
  match m h with
  | (inl e, h') => (inl e, h')
  | (inr a, h') => f a h'
  end.

Definition raise {A : Type} (e : exn) : M A := fun h => (inl e, h).

Definition lift {A : Type} (r : result A) : M A := fun h => (r, h).

(** A new object gets the next free reference. *)
Definition alloc (t : tensor) : M loc := fun h => (inr (length h), h ++ [t]).

Definition load (l : loc) : M tensor := fun h =>
  match h !! l with
  | Some t => (inr t, h)
  | None => (inl RuntimeError, h)
  end.

Definition store (l : loc) (t : tensor) : M unit := fun h => (inr tt, <[l := t]> h).

(** [for x in xs: acc = body(acc, x)] *)
Fixpoint foldM {A B : Type} (body : A -> B -> M A) (acc : A) (xs : list B) : M A :=
  match xs with
  | [] => mret acc
  | x :: xs' => acc' ← body acc x; foldM body acc' xs'
  end.

(** ** The tensor operations the module calls *)

Definition numel (s : list Z) : Z := fold_right Z.mul 1 s.

(** Python's indexing of [n] dimensions by [d] in [-n, n). *)
Definition wrap_dim (n d : Z) : option Z :=
  if (0 <=? d) && (d <? n) then Some d
  else if (- n <=? d) && (d <? 0) then Some (d + n)
  else None.

(** [t.size(d)] *)
Definition size (t : tensor) (d : Z) : result Z :=
  match wrap_dim (Z.of_nat (length (shape t))) d with
  | Some i => inr (nth (Z.to_nat i) (shape t) 0)
  | None => inl IndexError
  end.

(** [t.shape[:-2]] : a slice never raises. *)
Definition batch_dims (t : tensor) : list Z :=
  firstn (length (shape t) - 2)%nat (shape t).

(** The list [d] cut into [k] consecutive pieces of [n] elements. *)
Fixpoint chunks (k n : nat) (d : list R) : list (list R) :=
  match k with
  | O => []
  | S k' => firstn n d :: chunks k' n (skipn n d)
  end.

(** [t.unsqueeze(d)]: a dimension of size one at position [d]. *)
Definition unsqueeze (t : tensor) (d : Z) : result tensor :=
  match wrap_dim (Z.of_nat (length (shape t)) + 1) d with
  | Some i =>
      inr (Tensor (firstn (Z.to_nat i) (shape t) ++ 1 :: skipn (Z.to_nat i) (shape t))
                  (data t))
  | None => inl IndexError
  end.

(** The shape [t.expand(sizes...)] has: the shape of [t], padded on the left
    with [pad] ones, is compared with [sizes] position by position; [-1]
    keeps an existing dimension. *)
Fixpoint expand_shape (pad : nat) (from sizes : list Z) : option (list Z) :=
  match from, sizes with
  | [], [] => Some []
  | f :: from', s :: sizes' =>
      match expand_shape (pred pad) from' sizes' with
      | Some rest =>
          if s =? -1 then
            match pad with O => Some (f :: rest) | S _ => None end
          else if (s =? f) || ((f =? 1) && (0 <=? s)) then Some (s :: rest)
          else None
      | None => None
      end
  | _, _ => None
  end.

(** The elements of a tensor of shape [from] repeated along the dimensions
    of size one that [to] makes larger. *)
Fixpoint expand_data (from to : list Z) (d : list R) : list R :=
  match from, to with
  | f :: from', t :: to' =>
      let rows := map (expand_data from' to')
                      (chunks (Z.to_nat f) (Z.to_nat (numel from')) d) in
      if f =? t then concat rows
      else concat (repeat (concat rows) (Z.to_nat t))
  | _, _ => d
  end.

(** [t.expand(sizes...)] *)
Definition expand (t : tensor) (sizes : list Z) : result tensor :=
  let pad := (length sizes - length (shape t))%nat in
  let from := repeat 1 pad ++ shape t in
  match expand_shape pad from sizes with
  | Some to => inr (Tensor to (expand_data from to (data t)))
  | None => inl RuntimeError
  end.

Definition shape_eqb (a b : list Z) : bool := bool_decide (a = b).

(** [torch.cat([a, b], dim=-1)]: all dimensions but the last must agree;
    a one-dimensional empty tensor is skipped. *)
Definition cat (a b : tensor) : result tensor :=
  if shape_eqb (shape a) [0] then inr b
  else if shape_eqb (shape b) [0] then inr a
  else
    match shape a, shape b with
    | _ :: _, _ :: _ =>
        if shape_eqb (removelast (shape a)) (removelast (shape b)) then
          let lead := removelast (shape a) in
          let ca := List.last (shape a) 0 in
          let cb := List.last (shape b) 0 in
          let rows := Z.to_nat (numel lead) in
          inr (Tensor (lead ++ [ca + cb])
                 (concat (zip_with app (chunks rows (Z.to_nat ca) (data a))
                                       (chunks rows (Z.to_nat cb) (data b)))))
        else inl RuntimeError
    | _, _ => inl RuntimeError
    end.

(** [t.view(sizes...)]: at most one [-1], inferred from the number of
    elements.  This is [view] on a contiguous tensor; on another one [torch]
    also asks that the dimensions merged lie evenly in memory, and raises
    RuntimeError when they do not. *)
Definition view (t : tensor) (sizes : list Z) : result tensor :=
  let n := numel (shape t) in
  let known := numel (filter (fun s => s <> -1) sizes) in
  match length (filter (fun s => s = -1) sizes) with
  | O =>
      if forallb (Z.leb 0) sizes && (numel sizes =? n)
      then inr (Tensor sizes (data t)) else inl RuntimeError
  | 1%nat =>
      if forallb (Z.leb (-1)) sizes && (0 <? known) && (n mod known =? 0)
      then inr (Tensor (map (fun s => if s =? -1 then n / known else s) sizes) (data t))
      else inl RuntimeError
  | _ => inl RuntimeError
  end.

(** Shapes aligned on the right broadcast when, position by position, they
    are equal or one of them is one. *)
Fixpoint broadcast_aligned (a b : list Z) : option (list Z) :=
  match a, b with
  | [], [] => Some []
  | x :: a', y :: b' =>
      match broadcast_aligned a' b' with
      | Some rest =>
          if x =? y then Some (x :: rest)
          else if x =? 1 then Some (y :: rest)
          else if y =? 1 then Some (x :: rest)
          else None
      | None => None
      end
  | _, _ => None
  end.

Definition left_pad (n : nat) (s : list Z) : list Z :=
  repeat 1 (n - length s)%nat ++ s.

(** [a - b] and [a * b]: elementwise after broadcasting, on real numbers.
    The floating-point [a - b] is this one, rounded, for finite operands;
    [inf - inf] and every difference with a NaN are NaN. *)
Definition pointwise (op : R -> R -> R) (a b : tensor) : result tensor :=
  let n := Nat.max (length (shape a)) (length (shape b)) in
  match broadcast_aligned (left_pad n (shape a)) (left_pad n (shape b)) with
  | Some s =>
      inr (Tensor s (zip_with op (expand_data (left_pad n (shape a)) s (data a))
                                 (expand_data (left_pad n (shape b)) s (data b))))
  | None => inl RuntimeError
  end.

(** A row vector times a matrix given by its rows. *)
Definition vec_mat (cols : nat) (row : list R) (w : list (list R)) : list R :=
  fold_right (fun xw acc => zip_with Rplus (map (Rmult (fst xw)) (snd xw)) acc)
             (repeat 0%R cols) (zip row w).

(** [a @ w] for a matrix [w]: every row of [a] is multiplied by [w]. *)
Definition matmul (a w : tensor) : result tensor :=
  match shape a, shape w with
  | _ :: _, [d1; d2] =>
      if List.last (shape a) 0 =? d1 then
        let lead := removelast (shape a) in
        let w_rows := chunks (Z.to_nat d1) (Z.to_nat d2) (data w) in
        inr (Tensor (lead ++ [d2])
               (concat (map (fun row => vec_mat (Z.to_nat d2) row w_rows)
                            (chunks (Z.to_nat (numel lead)) (Z.to_nat d1) (data a)))))
      else inl RuntimeError
  | _, _ => inl RuntimeError
  end.

(** The parameter [p] of the distance, documented as a number in
    [[1, inf]]. *)
Inductive pnorm : Type :=
  | PInf
  | PFin (p : R).

(** [x ** y] for [0 <= x] and [0 < y]. *)
Definition rpow (x y : R) : R :=
  if Req_dec_T x 0 then 0%R else Rpower x y.

(** The largest absolute value for [p = inf], else the root of order [p] of
    the sum of the absolute values to the power [p]. *)
Definition vector_norm (p : pnorm) (v : list R) : R :=
  match p with
  | PInf => fold_right Rmax 0%R (map Rabs v)
  | PFin r => rpow (fold_right Rplus 0%R (map (fun x => rpow (Rabs x) r) v)) (/ r)
  end.

(** [t.norm(p=p, dim=-1)]; the maximum over an empty dimension is refused. *)
Definition norm (p : pnorm) (t : tensor) : result tensor :=
  let lead := removelast (shape t) in
  let d := List.last (shape t) 1 in
  match p with
  | PInf => if d =? 0 then inl RuntimeError
            else inr (Tensor lead (map (vector_norm p)
                                       (chunks (Z.to_nat (numel lead)) (Z.to_nat d) (data t))))
  | PFin _ => inr (Tensor lead (map (vector_norm p)
                                    (chunks (Z.to_nat (numel lead)) (Z.to_nat d) (data t))))
  end.

(** [torch.empty], [torch.randn]: a new tensor whose elements are whatever
    the allocator or the generator gives, here [noise]. *)
Definition fresh_tensor (noise : nat -> R) (sizes : list Z) : M loc :=
  if forallb (Z.leb 0) sizes
  then alloc (Tensor sizes (map noise (seq 0 (Z.to_nat (numel sizes)))))
  else raise RuntimeError.

(** [torch.nn.init.kaiming_uniform_], [torch.nn.init.uniform_]: the elements
    are drawn again, the shape stays. *)
Definition init_ (noise : nat -> R) (l : loc) : M unit := fun h =>
  match h !! l with
  | Some t => (inr tt, <[l := Tensor (shape t) (map noise (seq 0 (length (data t))))]> h)
  | None => (inl RuntimeError, h)
  end.

(** [torch.nn.Parameter(t)]: a new object with the shape and elements of [t]. *)
Definition nn_Parameter (l : loc) : M loc := t ← load l; alloc t.

(** Operations on references. *)
Definition call1 (f : tensor -> result tensor) (l : loc) : M loc :=
  t ← load l; t' ← lift (f t); alloc t'.

Definition call2 (f : tensor -> tensor -> result tensor) (a b : loc) : M loc :=
  ta ← load a; tb ← load b; t' ← lift (f ta tb); alloc t'.

Definition size_of (l : loc) (d : Z) : M Z := t ← load l; lift (size t d).

Definition shape_of (l : loc) : M (list Z) := t ← load l; mret (shape t).

(** [t.unsqueeze_(d)]: in place, the object [l] itself gets the new shape. *)
Definition unsqueeze_ (l : loc) (d : Z) : M unit :=
  t ← load l; t' ← lift (unsqueeze t d); store l t'.

(** ** The signature library *)

(** What the module uses of [signatory]: [logsignature_channels] and the
    logsignature of one path (its points, each a list of channels) to a
    depth.  The transform itself is not part of this repository; the checks
    it makes of its own arguments are not modelled, it is taken to return
    for every path and depth. *)
Record signatory_module : Type := Signatory {
  logsignature_channels : Z -> Z -> Z;
  logsignature_of : Z -> list (list R) -> list R
}.

(** [signatory.Logsignature(depth=depth)(path)] for [path] of shape
    [(N, L, C)]: the logsignature of each of the [N] paths. *)
Definition Logsignature (sg : signatory_module) (depth : Z) (path : tensor) : result tensor :=
  match shape path with
  | [n; l; c] =>
      let paths := chunks (Z.to_nat n) (Z.to_nat (l * c)) (data path) in
      inr (Tensor [n; logsignature_channels sg c depth]
             (concat (map (fun d => logsignature_of sg depth
                                       (chunks (Z.to_nat l) (Z.to_nat c) d)) paths)))
  | _ => inl RuntimeError
  end.

(** [assert c], with assertions on (the interpreter is not run with [-O]). *)
Definition assert_ (c : bool) : M unit :=
  if c then mret tt else raise AssertionError.

(** [metric_type in ('general', 'diagonal')] *)
Definition valid_metric_type (metric_type : string) : bool :=
  (metric_type =? "general")%string || (metric_type =? "diagonal")%string.

(** ** The native kernel *)

(** Modelled from the spec: the kernel's test that [times] is strictly
    increasing, [times[i] < times[i+1]] for all [i]. *)
Fixpoint strictly_increasing (ts : list R) : bool :=
  match ts with
  | a :: (b :: _) as rest => if Rlt_dec a b then strictly_increasing rest else false
  | _ => true
  end.

(** Modelled from the spec: the kernel's pseudometric [A] on one point of the
    difference, the identity for a zero-dimensional argument, a diagonal for
    a vector, else a matrix applied to the point as a row vector. *)
Definition apply_pseudometric (a : tensor) (point : list R) : list R :=
  match shape a with
  | [] => point
  | [_] => zip_with Rmult point (data a)
  | d1 :: d2 :: _ =>
      vec_mat (Z.to_nat d2) point (chunks (Z.to_nat d1) (Z.to_nat d2) (data a))
  end.

(** Modelled from the spec: the kernel's closed form for the integral, over
    one segment of length [dt], of the squared norm of the linear function
    that goes from the point [a] to the point [b]. *)
Definition segment_integral (dt : R) (a b : list R) : R :=
  (dt * fold_right Rplus 0 (zip_with (fun x y => x * x + x * y + y * y) a b) / 3)%R.

(** Modelled from the spec: the kernel's sum over the segments
    [[times[i], times[i+1]]]. *)
Fixpoint path_integral (ts : list R) (points : list (list R)) : R :=
  match ts, points with
  | t0 :: (t1 :: _) as ts', a :: (b :: _) as points' =>
      (segment_integral (t1 - t0) a b + path_integral ts' points')%R
  | _, _ => 0%R
  end.

(** Modelled from the spec: [_impl.l2_discrepancy], the native kernel behind
    [L2Discrepancy.fn], is not among the sources.  Following sections 4.2 and
    7 of the specification and the docstring of [L2Discrepancy.__init__]: the
    call is refused, before any tensor is computed, when [path2] carries a
    batch dimension, when [times] is not strictly increasing or when the
    channel counts differ; otherwise each batch element of [path1] minus
    [path2] is mapped by [A], the squared norm is integrated exactly segment
    by segment, and the root of the sum is returned in the batch shape of
    [path1]. *)
Definition l2_discrepancy (times path1 path2 arg : loc) : M loc :=
  t ← load times;
  p1 ← load path1;
  p2 ← load path2;
  a ← load arg;
  if negb (shape_eqb (batch_dims p2) []) then raise RuntimeError
  else if negb (strictly_increasing (data t)) then raise RuntimeError
  else if negb (List.last (shape p1) 0 =? List.last (shape p2) 0) then raise RuntimeError
  else
    let c := Z.to_nat (List.last (shape p1) 0) in
    let l := length (data t) in
    let one (d : list R) : R :=
      sqrt (path_integral (data t)
              (map (apply_pseudometric a) (chunks l c (zip_with Rminus d (data p2))))) in
    alloc (Tensor (batch_dims p1)
             (map one (chunks (Z.to_nat (numel (batch_dims p1))) (l * c) (data p1)))).

(** ** CppDiscrepancy *)

(** "Every instance of a subclass must have two attributes available": the
    function [fn] and the tensor [arg]. *)
Class CppDiscrepancy (S : Type) : Type := {
  fn : loc -> loc -> loc -> loc -> M loc;
  arg : S -> loc
}.

Definition CppDiscrepancy_forward {S : Type} `{CppDiscrepancy S}
    (self : S) (time path1 path2 : loc) : M loc :=
  fn time path1 path2 (arg self).

(** ** L2Discrepancy *)

(** [str] of a Python integer and of a truth value, as [format] writes
    them. *)
Definition str_int (n : Z) : string := NilZero.string_of_int (Z.to_int n).

Definition str_bool (b : bool) : string := if b then "True"%string else "False"%string.

(** A text without a comma. *)
Fixpoint no_comma (s : string) : Prop :=
  match s with
  | EmptyString => True
  | String c s' => c <> ","%char /\ no_comma s'
  end.

Module L2Discrepancy.

Record t : Type := Build {
  in_channels : Z;
  pseudometric : bool;
  metric_type : string;
  self_arg : loc
}.

(** [super().__init__()] creates no tensor.  [noise 0] stands for the
    elements [torch.empty] leaves in a new tensor, [noise 1] for those the
    initialiser draws. *)
Definition __init__ (noise : nat -> nat -> R)
    (in_channels : Z) (pseudometric : bool) (metric_type : string) : M t :=
  assert_ (valid_metric_type metric_type);;
  a ← (if pseudometric then
         if (metric_type =? "general")%string then
           linear ← fresh_tensor (noise 0%nat) [in_channels; in_channels];
           init_ (noise 1%nat) linear;;
           nn_Parameter linear
         else
           linear ← fresh_tensor (noise 0%nat) [in_channels];
           init_ (noise 1%nat) linear;;
           nn_Parameter linear
       else
         e ← fresh_tensor (noise 0%nat) [];
         nn_Parameter e);
  mret (Build in_channels pseudometric metric_type a).

#[global] Instance cpp : CppDiscrepancy t := {
  fn := l2_discrepancy;
  arg := self_arg
}.

Definition forward (self : t) (time path1 path2 : loc) : M loc :=
  CppDiscrepancy_forward self time path1 path2.

Definition extra_repr (self : t) : string :=
  ("in_channels=" ++ str_int (in_channels self)
   ++ ", pseudometric=" ++ str_bool (pseudometric self))%string.

End L2Discrepancy.

(** ** LogsignatureDiscrepancy *)

Module LogsignatureDiscrepancy.

Record t : Type := Build {
  in_channels : Z;
  depth : Z;
  p : pnorm;
  include_time : bool;
  pseudometric : bool;
  metric_type : string;
  linear : option loc;
  logsignature : tensor -> result tensor
}.

(** [signatory] is the module-level name of lines 2-5: [None] when the
    import failed.  [self.register_parameter('linear', None)] leaves
    [self.linear] at [None]. *)
Definition __init__ (signatory : option signatory_module) (noise : nat -> nat -> R)
    (in_channels depth : Z) (p : pnorm) (include_time pseudometric : bool)
    (metric_type : string) : M t :=
  assert_ (valid_metric_type metric_type);;
  match signatory with
  | None => raise ImportError
  | Some sg =>
      lin ← (if pseudometric then
               let channels := if include_time then in_channels + 1 else in_channels in
               let lc := logsignature_channels sg channels depth in
               if (metric_type =? "general")%string then
                 linear ← fresh_tensor (noise 0%nat) [lc; lc];
                 init_ (noise 1%nat) linear;;
                 q ← nn_Parameter linear;
                 mret (Some q)
               else
                 linear ← fresh_tensor (noise 0%nat) [lc];
                 init_ (noise 1%nat) linear;;
                 q ← nn_Parameter linear;
                 mret (Some q)
             else mret None);
      mret (Build in_channels depth p include_time pseudometric metric_type lin
              (Logsignature sg depth))
  end.

(** One round of [for dim in dims: tc = tc.unsqueeze(0).expand(dim, tc.shape...)]. *)
Definition expand_time_channel (tc : loc) (dim : Z) : M loc :=
  u ← call1 (fun x => unsqueeze x 0) tc;
  s ← shape_of tc;
  call1 (fun x => expand x (dim :: s)) u.

(** Lines 181-189: the time channel in front of both paths. *)
Definition append_time (times path1 path2 : loc)
    (path1_batch_dims path2_batch_dims : list Z) : M (loc * loc) :=
  time_channel ← call1 (fun x => unsqueeze x (-1)) times;
  time_channel1 ← foldM expand_time_channel time_channel path1_batch_dims;
  time_channel2 ← foldM expand_time_channel time_channel path2_batch_dims;
  path1' ← call2 cat time_channel1 path1;
  path2' ← call2 cat time_channel2 path2;
  mret (path1', path2').

(** [path.view(-1, path.size(-2), path.size(-1))] *)
Definition single_batch (path : loc) : M loc :=
  l ← size_of path (-2);
  c ← size_of path (-1);
  call1 (fun x => view x [-1; l; c]) path.

(** [logsig.view(batch_dims..., logsig.size(-1))] *)
Definition restore_batch (logsig : loc) (dims : list Z) : M loc :=
  d ← size_of logsig (-1);
  call1 (fun x => view x (dims ++ [d])) logsig.

(** Lines 191-215: the logsignatures of the two paths, each brought to the
    shape of all pairs, their difference and its norm. *)
Definition logsignature_distance (self : t)
    (path1_batch_dims path2_batch_dims : list Z) (path1 path2 : loc) : M loc :=
  path1 ← single_batch path1;
  path2 ← single_batch path2;
  logsignature1 ← call1 (logsignature self) path1;
  logsignature2 ← call1 (logsignature self) path2;
  logsignature1 ← restore_batch logsignature1 path1_batch_dims;
  logsignature2 ← restore_batch logsignature2 path2_batch_dims;
  foldM (fun _ _ => unsqueeze_ logsignature2 0) tt path1_batch_dims;;
  foldM (fun _ _ => unsqueeze_ logsignature1 (-2)) tt path2_batch_dims;;
  d ← size_of logsignature1 (-1);
  logsignature1 ← call1 (fun x => expand x (path1_batch_dims ++ path2_batch_dims ++ [d]))
                        logsignature1;
  d' ← size_of logsignature1 (-1);
  logsignature2 ← call1 (fun x => expand x (path1_batch_dims ++ path2_batch_dims ++ [d']))
                        logsignature2;
  logsignature_diff ← call2 (pointwise Rminus) logsignature1 logsignature2;
  logsignature_diff ←
    (if pseudometric self then
       match linear self with
       | Some w =>
           if (metric_type self =? "general")%string
           then call2 matmul logsignature_diff w
           else call2 (pointwise Rmult) logsignature_diff w
       | None => raise TypeError
       end
     else mret logsignature_diff);
  call1 (norm (p self)) logsignature_diff.

Definition forward (self : t) (times path1 path2 : loc) : M loc :=
  p1 ← load path1;
  p2 ← load path2;
  let path1_batch_dims := batch_dims p1 in
  let path2_batch_dims := batch_dims p2 in
  '(path1, path2) ← (if include_time self
                      then append_time times path1 path2 path1_batch_dims path2_batch_dims
                      else mret (path1, path2));
  logsignature_distance self path1_batch_dims path2_batch_dims path1 path2.

End LogsignatureDiscrepancy.

(** ** Reasoning about the store *)

(** [h] is [h0] followed by the objects created since. *)
Definition extends (h0 h : heap) : Prop := exists fresh, h = h0 ++ fresh.

(** Run from any store that extends [h0], the computation [m] leaves the
    objects of [h0] as they are, and what it returns satisfies [Q]. *)
Definition hoare {A : Type} (h0 : heap) (m : M A) (Q : A -> Prop) : Prop :=
  forall h, extends h0 h ->
    extends h0 (snd (m h)) /\ forall a, fst (m h) = inr a -> Q a.

(** A reference to an object created after [h0]. *)
Definition fresh_for (h0 : heap) (l : loc) : Prop := (length h0 <= l)%nat.

(** The parameter of the pseudometric has the dimension of the logsignature. *)
Definition parameter_fits (self : LogsignatureDiscrepancy.t) (h : heap) (c : Z) : Prop :=
  LogsignatureDiscrepancy.pseudometric self = true ->
  exists w wd,
    LogsignatureDiscrepancy.linear self = Some w /\
    h !! w = Some (Tensor (if (LogsignatureDiscrepancy.metric_type self =? "general")%string
                           then [c; c] else [c]) wd).

(** ** Concrete inputs *)

(** At depth one the logsignature of a path is its increment, the last point
    minus the first, and has as many channels as the path. *)
Definition depth_one_signatory : signatory_module :=
  Signatory (fun channels _ => channels)
            (fun _ path => zip_with Rminus (List.last path []) (hd [] path)).

Definition zeros (sizes : list Z) : tensor :=
  Tensor sizes (repeat 0%R (Z.to_nat (numel sizes))).

Definition constant_noise : nat -> nat -> R := fun _ _ => 1%R.

(** [LogsignatureDiscrepancy(in_channels=1, depth=1)] with every default,
    then [forward] on the first three objects of the store. *)
Definition default_call : M loc :=
  self ← LogsignatureDiscrepancy.__init__ (Some depth_one_signatory) constant_noise
           1 1 (PFin 2) true true "general";
  LogsignatureDiscrepancy.forward self 0%nat 1%nat 2%nat.

(** [times] of shape (2,), [path1] of shape (2, 3, 2, 1) and [path2] of
    shape (2, 1). *)
Definition two_batch_dims_store : heap :=
  [Tensor [2] [0%R; 1%R]; zeros [2; 3; 2; 1]; zeros [2; 1]].

(** The scenario of section 8: [times = [0, 1, 2]], [path1 = [[0], [1], [2]]],
    [path2 = [[0], [0], [0]]]. *)
Definition ramp_store : heap :=
  [Tensor [3] [0%R; 1%R; 2%R]; Tensor [3; 1] [0%R; 1%R; 2%R]; zeros [3; 1]].

(** [L2Discrepancy(1, pseudometric=False)], then [forward] on the first three
    objects of the store. *)
Definition identity_L2_call (noise : nat -> nat -> R) : M loc :=
  self ← L2Discrepancy.__init__ noise 1 false "general";
  L2Discrepancy.forward self 0%nat 1%nat 2%nat.

(** The linear function that is [a] at [t0] and [b] at [t1]. *)
Definition interpolant (t0 t1 a b t : R) : R :=
  (a + (b - a) * ((t - t0) / (t1 - t0)))%R.

(** The squared norm at time [t] of the linear function from the point [a]
    to the point [b]. *)
Fixpoint squared_norm_at (t0 t1 : R) (a b : list R) (t : R) : R :=
  match a, b with
  | x :: a', y :: b' =>
      (interpolant t0 t1 x y t * interpolant t0 t1 x y t
       + squared_norm_at t0 t1 a' b' t)%R
  | _, _ => 0%R
  end.

(** A primitive of [squared_norm_at] that vanishes at [t0]. *)
Fixpoint squared_norm_primitive (t0 t1 : R) (a b : list R) (t : R) : R :=
  match a, b with
  | x :: a', y :: b' =>
      ((t1 - t0) * (x * x * ((t - t0) / (t1 - t0))
                    + x * (y - x) * ((t - t0) / (t1 - t0)) ^ 2
                    + (y - x) * (y - x) / 3 * ((t - t0) / (t1 - t0)) ^ 3)
       + squared_norm_primitive t0 t1 a' b' t)%R
  | _, _ => 0%R
  end.

(** [times] of shape (2,) and a batch of two paths, from 0 to 1 and from 0
    to 2, of shape (2, 2, 1). *)
Definition two_paths_store : heap :=
  [Tensor [2] [0%R; 1%R]; Tensor [2; 2; 1] [0%R; 1%R; 0%R; 2%R]].

(** [LogsignatureDiscrepancy(1, 1, pseudometric=False)], then [forward] with
    the second object of the store as both paths. *)
Definition pairwise_call : M loc :=
  self ← LogsignatureDiscrepancy.__init__ (Some depth_one_signatory) constant_noise
           1 1 (PFin 2) true false "general";
  LogsignatureDiscrepancy.forward self 0%nat 1%nat 1%nat.

(** ** The integral the kernel is to compute *)

(** The point at time [t] of the linear function that is the point [a] at
    [t0] and the point [b] at [t1]. *)
Definition point_at (t0 t1 : R) (a b : list R) (t : R) : list R :=
  zip_with (fun x y => interpolant t0 t1 x y t) a b.

(** The squared Euclidean norm of a point. *)
Definition squared_norm (v : list R) : R :=
  fold_right Rplus 0%R (map (fun x => x * x)%R v).

(** The integrand of section 4.2 on the segment from [t0] to [t1]: the
    squared norm of [A (f t - g t)], for [f] linear from [f0] to [f1] and
    [g] linear from [g0] to [g1]. *)
Definition squared_distance_at (A : tensor) (t0 t1 : R) (f0 f1 g0 g1 : list R) (t : R) : R :=
  squared_norm
    (apply_pseudometric A
       (zip_with Rminus (point_at t0 t1 f0 f1 t) (point_at t0 t1 g0 g1 t))).

(** [integral_over_segments A ts f g v]: [v] is the sum, over the segments
    of the time grid [ts], of the Riemann integral of the squared norm of
    [A (f - g)], for the piecewise linear [f] and [g] with the knots [f]
    and [g]. *)
Inductive integral_over_segments (A : tensor) :
    list R -> list (list R) -> list (list R) -> R -> Prop :=
  | integral_no_knot : integral_over_segments A [] [] [] 0%R
  | integral_one_knot (t : R) (f0 g0 : list R) :
      integral_over_segments A [t] [f0] [g0] 0%R
  | integral_segment (t0 t1 : R) (ts : list R) (f0 f1 g0 g1 : list R)
        (f g : list (list R)) (v : R)
        (pr : Riemann_integrable (squared_distance_at A t0 t1 f0 f1 g0 g1) t0 t1) :
      integral_over_segments A (t1 :: ts) (f1 :: f) (g1 :: g) v ->
      integral_over_segments A (t0 :: t1 :: ts) (f0 :: f1 :: f) (g0 :: g1 :: g)
        (RiemannInt pr + v)%R.

(** The scenario of section 8 with the parameter of
    [L2Discrepancy(1, pseudometric=False)] as fourth object. *)
Definition ramp_store_with_arg : heap := ramp_store ++ [zeros []].

(** ** Finite floating-point numbers *)

(** The largest finite number of [float32], the narrower of the two types
    [signatory] takes. *)
Definition float32_max : R := ((2 - / 2 ^ 23) * 2 ^ 127)%R.

(** A real number that is within the range of the finite floating-point
    numbers.  The elements of a tensor of this model are real numbers; what
    is proved of an arithmetic operation holds of the floating-point
    operation where its operands and its result are finite. *)
Definition finite_float (x : R) : Prop := (Rabs x <= float32_max)%R.

(** The elements of the time channel after the loop of lines 184-187 over
    [dims], from a tensor of shape [s] with the elements [d]. *)
Fixpoint time_channel_data (dims s : list Z) (d : list R) : list R :=
  match dims with
  | [] => d
  | dim :: dims' =>
      time_channel_data dims' (dim :: s) (expand_data (1 :: s) (dim :: s) d)
  end.

(** The elements of the tensor [forward] hands to [signatory] for a path of
    shape [B ++ [l; c]] with the elements [d]: with the time channel, the
    result of [torch.cat] at line 188. *)
Definition points_for_signatory (include_time : bool) (B : list Z) (l c : Z)
    (dt d : list R) : list R :=
  if include_time then
    concat (zip_with app
              (chunks (Z.to_nat (numel (B ++ [l]))) (Z.to_nat 1)
                      (time_channel_data B [l; 1] dt))
              (chunks (Z.to_nat (numel (B ++ [l]))) (Z.to_nat c) d))
  else d.

(** The elements [signatory.Logsignature] returns for [n] paths of [l]
    points and [c] channels with the elements [d]. *)
Definition logsignatures_of (sg : signatory_module) (depth n l c : Z) (d : list R) : list R :=
  concat (map (fun e => logsignature_of sg depth (chunks (Z.to_nat l) (Z.to_nat c) e))
              (chunks (Z.to_nat n) (Z.to_nat (l * c)) d)).

(** ** What a call guarantees *)

(** What a computation guarantees of its result when it returns. *)
Definition ensures {A : Type} (m : M A) (Q : A -> heap -> Prop) : Prop :=
  forall h a h', m h = (inr a, h') -> Q a h'.

(** ** The value for unbatched paths *)

(** The number [forward] returns for two unbatched paths with the points
    [d1] and [d2], [c] channels each, under the identity pseudometric: the
    norm of the difference of the two logsignatures. *)
Definition unbatched_distance (sg : signatory_module) (depth : Z) (p : pnorm)
    (l c : Z) (d1 d2 : list R) : R :=
  let D := logsignature_channels sg c depth in
  let logsig (d : list R) :=
    concat (map (fun e => logsignature_of sg depth (chunks (Z.to_nat l) (Z.to_nat c) e))
                (chunks 1 (Z.to_nat (l * c)) d)) in
  let expanded (d : list R) := expand_data [D] [D] (expand_data [D] [D] (logsig d)) in
  vector_norm p (take (Z.to_nat D) (zip_with Rminus (expanded d1) (expanded d2))).

(** The points of an unbatched path of [l] points and [c] channels with the
    time in front of each point, as line 188 puts it. *)
Definition points_with_time (l c : Z) (dt d : list R) : list R :=
  concat (zip_with app (chunks (Z.to_nat (numel [l])) (Z.to_nat 1) dt)
                       (chunks (Z.to_nat (numel [l])) (Z.to_nat c) d)).

(** * Reading the folder of an experiment (jamesshapelets)

    [experiments/extractors.py]: the class [ExperimentToFrame].  What
    [json] loads is a Python object: [None], a truth value, a number, a
    string, a list or a dict.  A dict is the list of its items in insertion
    order, with keys that differ from one another. *)

Module Extractors.

#[warnings="-register-all"] Inductive value : Type :=
  | VNone
  | VBool (b : bool)
  | VInt (n : Z)
  | VFloat (x : R)
  | VStr (s : string)
  | VList (l : list value)
  | VDict (d : list (string * value))
  | VKeys (ks : list string).   (* what [dict.keys()] returns *)

Abbreviation dict := (list (string * value)).

(** The exceptions met here; the last two are for [load_json]. *)
Inductive error : Type :=
  | KeyError
  | AttributeError
  | TypeError
  | OSError
  | ValueError.

(** [d.get(k)] *)
Fixpoint dict_get (k : string) (d : dict) : option value :=
  match d with
  | [] => None
  | (k', v) :: d' => if (k =? k')%string then Some v else dict_get k d'
  end.

(** [d[k] = v]: the value of an existing key is replaced where it stands, a
    new key goes to the end. *)
Fixpoint dict_set (k : string) (v : value) (d : dict) : dict :=
  match d with
  | [] => [(k, v)]
  | (k', v') :: d' =>
      if (k =? k')%string then (k, v) :: d' else (k', v') :: dict_set k v d'
  end.

(** [del d[k]] on a dict; [None] when the key is missing. *)
Fixpoint dict_del (k : string) (d : dict) : option dict :=
  match d with
  | [] => None
  | (k', v') :: d' =>
      if (k =? k')%string then Some d' else cons (k', v') <$> dict_del k d'
  end.

(** [del x[k]] with a string [k]: only a dict has string keys to delete. *)
Definition delitem (x : value) (k : string) : error + dict :=
  match x with
  | VDict d => match dict_del k d with Some d' => inr d' | None => inl KeyError end
  | _ => inl TypeError
  end.

(** [x[k]] with a string [k]. *)
Definition getitem (x : value) (k : string) : error + value :=
  match x with
  | VDict d => match dict_get k d with Some v => inr v | None => inl KeyError end
  | _ => inl TypeError
  end.

(** [x.keys()] *)
Definition keys (x : value) : error + value :=
  match x with
  | VDict d => inr (VKeys (map fst d))
  | _ => inl AttributeError
  end.

(** [x.items()] *)
Definition items (x : value) : error + dict :=
  match x with
  | VDict d => inr d
  | _ => inl AttributeError
  end.

Record t : Type := Build { ex_dir : string }.

Definition __init__ (ex_dir : string) : t := Build ex_dir.

(** [{key: value['values'] for key, value in items}], entry after entry
    into the dict built so far. *)
Fixpoint values_of (items : dict) (built : dict) : error + dict :=
  match items with
  | [] => inr built
  | (key, value) :: rest =>
      match getitem value "values" with
      | inr x => values_of rest (dict_set key x built)
      | inl e => inl e
      end
  end.

Section ExperimentToFrame.

(** [load_json] and [os] reach this file through
    [from jamesshapelets.definitions import *]; they are left open. *)
Variable load_json : string -> error + value.
Variable os_path_join : list string -> string.

Definition get_config (self : t) (run_num : string) : error + value :=
  match load_json (os_path_join [ex_dir self; run_num; "config.json"%string]) with
  | inr config =>
      match delitem config "seed" with
      | inr config =>
          match dict_get "metrics" config with
          | Some metrics =>
              match keys metrics with
              | inr ks => inr (VDict (dict_set "metrics" ks config))
              | inl e => inl e
              end
          | None => inr (VDict config)
          end
      | inl e => inl e
      end
  | inl e => inl e
  end.

Definition get_metrics (self : t) (run_num : string) : error + value :=
  match load_json (os_path_join [ex_dir self; run_num; "metrics.json"%string]) with
  | inr metrics =>
      match items metrics with
      | inr its =>
          match values_of its [] with
          | inr metrics => inr (VDict metrics)
          | inl e => inl e
          end
      | inl e => inl e
      end
  | inl e => inl e
  end.

End ExperimentToFrame.

(** A run folder whose two files hold the given objects, and the objects of
    a small run. *)
Definition folder_with (config metrics : value) (path : string) : error + value :=
  if (path =? "runs/1/config.json")%string then inr config
  else if (path =? "runs/1/metrics.json")%string then inr metrics
  else inl OSError.

Definition run_config : dict :=
  [("lr"%string, VFloat 1); ("seed"%string, VInt 7);
   ("metrics"%string, VDict [("acc"%string, VNone)])].

Definition run_metrics : dict :=
  [("loss"%string, VDict [("steps"%string, VList [VInt 0; VInt 1]);
                          ("values"%string, VList [VFloat 2; VFloat 1])]);
   ("acc"%string, VDict [("values"%string, VList [VFloat 0])])].

End Extractors.

(** * Properties of the discrepancies *)

(** ** The store only grows *)

Section store_logic.
Context {A B : Type}.
Implicit Types (h : heap) (l : loc) (t : tensor).

Lemma extends_refl h : extends h h.
Proof. exists []. by rewrite app_nil_r. Qed.

Lemma extends_alloc (h0 : heap) h t : extends h0 h -> extends h0 (h ++ [t]).
Proof. intros [fr ->]. exists (fr ++ [t]). by rewrite app_assoc. Qed.

Lemma extends_store (h0 : heap) h l t :
  extends h0 h -> fresh_for h0 l -> extends h0 (<[l := t]> h).
Proof.
  intros [fr ->] Hl. exists (<[(l - length h0)%nat := t]> fr).
  by apply insert_app_r_alt.
Qed.

Lemma extends_length (h0 : heap) h : extends h0 h -> (length h0 <= length h)%nat.
Proof. intros [fr ->]. rewrite length_app. lia. Qed.

Lemma hoare_ret h0 (a : A) (Q : A -> Prop) : Q a -> hoare h0 (mret a) Q.
Proof. intros Ha h Hh. split; [done|]. cbn. by intros ? [= <-]. Qed.

Lemma hoare_raise h0 (e : exn) (Q : A -> Prop) : hoare h0 (raise e) Q.
Proof. intros h Hh. split; [done|]. cbn. by intros ? [=]. Qed.

Lemma hoare_lift h0 (r : result A) : hoare h0 (lift r) (fun _ => True).
Proof. intros h Hh. by split. Qed.

Lemma hoare_bind h0 (m : M A) (f : A -> M B) (Q : A -> Prop) (Q' : B -> Prop) :
  hoare h0 m Q -> (forall a, Q a -> hoare h0 (f a) Q') -> hoare h0 (m ≫= f) Q'.
Proof.
  intros Hm Hf h Hh. destruct (Hm h Hh) as [Hext HQ].
  unfold mbind, M_bind. destruct (m h) as [[e|a] h'] eqn:E; cbn in *.
  - split; [done|]. by intros ? [=].
  - by apply (Hf a (HQ a eq_refl) h').
Qed.

Lemma hoare_weaken h0 (m : M A) (Q Q' : A -> Prop) :
  hoare h0 m Q -> (forall a, Q a -> Q' a) -> hoare h0 m Q'.
Proof. intros Hm HQ h Hh. destruct (Hm h Hh). split; auto. Qed.

End store_logic.

Lemma hoare_foldM {A B : Type} h0 (body : A -> B -> M A) (Inv : A -> Prop) (xs : list B) :
  (forall acc x, Inv acc -> hoare h0 (body acc x) Inv) ->
  forall acc, Inv acc -> hoare h0 (foldM body acc xs) Inv.
Proof.
  intros Hbody. induction xs as [|x xs IH]; intros acc Hacc; cbn [foldM].
  - by apply hoare_ret.
  - eapply hoare_bind; [by apply Hbody|]. intros acc' Hacc'. by apply IH.
Qed.

Lemma hoare_load h0 l : hoare h0 (load l) (fun _ => True).
Proof. intros h Hh. unfold load. by destruct (h !! l). Qed.

Lemma hoare_alloc h0 t : hoare h0 (alloc t) (fresh_for h0).
Proof.
  intros h Hh. split; cbn.
  - by apply extends_alloc.
  - intros ? [= <-]. by apply extends_length.
Qed.

Lemma hoare_store h0 l t : fresh_for h0 l -> hoare h0 (store l t) (fun _ => True).
Proof. intros Hl h Hh. split; [|done]. by apply extends_store. Qed.

Lemma hoare_call1 h0 f l : hoare h0 (call1 f l) (fresh_for h0).
Proof.
  unfold call1.
  eapply hoare_bind; [apply hoare_load|]; intros t _.
  eapply hoare_bind; [apply hoare_lift|]; intros t' _.
  apply hoare_alloc.
Qed.

Lemma hoare_call2 h0 f a b : hoare h0 (call2 f a b) (fresh_for h0).
Proof.
  unfold call2.
  eapply hoare_bind; [apply hoare_load|]; intros ta _.
  eapply hoare_bind; [apply hoare_load|]; intros tb _.
  eapply hoare_bind; [apply hoare_lift|]; intros t' _.
  apply hoare_alloc.
Qed.

Lemma hoare_size_of h0 l d : hoare h0 (size_of l d) (fun _ => True).
Proof.
  unfold size_of. eapply hoare_bind; [apply hoare_load|]; intros t _.
  apply hoare_lift.
Qed.

Lemma hoare_shape_of h0 l : hoare h0 (shape_of l) (fun _ => True).
Proof.
  unfold shape_of. eapply hoare_bind; [apply hoare_load|]; intros t _.
  by apply hoare_ret.
Qed.

Lemma hoare_unsqueeze_ h0 l d :
  fresh_for h0 l -> hoare h0 (unsqueeze_ l d) (fun _ => True).
Proof.
  intros Hl. unfold unsqueeze_.
  eapply hoare_bind; [apply hoare_load|]; intros t _.
  eapply hoare_bind; [apply hoare_lift|]; intros t' _.
  by apply hoare_store.
Qed.

Lemma hoare_true {A : Type} h0 (m : M A) (Q : A -> Prop) :
  hoare h0 m Q -> hoare h0 m (fun _ => True).
Proof. intros Hm. eapply hoare_weaken; [exact Hm|done]. Qed.

Module LogsignatureFrame.
Import LogsignatureDiscrepancy.

Lemma hoare_expand_time_channel h0 tc dim :
  hoare h0 (expand_time_channel tc dim) (fun _ => True).
Proof.
  unfold expand_time_channel.
  eapply hoare_bind; [apply hoare_call1|]; intros u _.
  eapply hoare_bind; [apply hoare_shape_of|]; intros s _.
  eapply hoare_true, hoare_call1.
Qed.

Lemma hoare_append_time h0 times path1 path2 dims1 dims2 :
  hoare h0 (append_time times path1 path2 dims1 dims2) (fun _ => True).
Proof.
  unfold append_time.
  eapply hoare_bind; [apply hoare_call1|]; intros tc _.
  eapply hoare_bind;
    [apply (hoare_foldM h0 _ (fun _ => True));
     [intros; apply hoare_expand_time_channel|done]|]; intros tc1 _.
  eapply hoare_bind;
    [apply (hoare_foldM h0 _ (fun _ => True));
     [intros; apply hoare_expand_time_channel|done]|]; intros tc2 _.
  eapply hoare_bind; [apply hoare_call2|]; intros p1 _.
  eapply hoare_bind; [apply hoare_call2|]; intros p2 _.
  by apply hoare_ret.
Qed.

Lemma hoare_single_batch h0 path : hoare h0 (single_batch path) (fresh_for h0).
Proof.
  unfold single_batch.
  eapply hoare_bind; [apply hoare_size_of|]; intros l _.
  eapply hoare_bind; [apply hoare_size_of|]; intros c _.
  apply hoare_call1.
Qed.

Lemma hoare_restore_batch h0 logsig dims :
  hoare h0 (restore_batch logsig dims) (fresh_for h0).
Proof.
  unfold restore_batch.
  eapply hoare_bind; [apply hoare_size_of|]; intros d _.
  apply hoare_call1.
Qed.

(** Every in-place operation is on a tensor that the [view] of lines 198-199
    has just created. *)
Lemma hoare_logsignature_distance h0 self dims1 dims2 path1 path2 :
  hoare h0 (logsignature_distance self dims1 dims2 path1 path2) (fun _ => True).
Proof.
  unfold logsignature_distance.
  eapply hoare_bind; [apply hoare_single_batch|]; intros v1 _.
  eapply hoare_bind; [apply hoare_single_batch|]; intros v2 _.
  eapply hoare_bind; [apply hoare_call1|]; intros s1 _.
  eapply hoare_bind; [apply hoare_call1|]; intros s2 _.
  eapply hoare_bind; [apply hoare_restore_batch|]; intros logsignature1 Hf1.
  eapply hoare_bind; [apply hoare_restore_batch|]; intros logsignature2 Hf2.
  eapply hoare_bind;
    [apply (hoare_foldM h0 _ (fun _ => True));
     [intros; by apply hoare_unsqueeze_|done]|]; intros _ _.
  eapply hoare_bind;
    [apply (hoare_foldM h0 _ (fun _ => True));
     [intros; by apply hoare_unsqueeze_|done]|]; intros _ _.
  eapply hoare_bind; [apply hoare_size_of|]; intros d _.
  eapply hoare_bind; [apply hoare_call1|]; intros e1 _.
  eapply hoare_bind; [apply hoare_size_of|]; intros d' _.
  eapply hoare_bind; [apply hoare_call1|]; intros e2 _.
  eapply hoare_bind; [apply hoare_call2|]; intros diff _.
  eapply hoare_bind with (Q := fun _ => True).
  - destruct (pseudometric self); [|by apply hoare_ret].
    destruct (linear self) as [w|]; [|apply hoare_raise].
    destruct (metric_type self =? "general")%string;
      eapply hoare_true, hoare_call2.
  - intros diff' _. eapply hoare_true, hoare_call1.
Qed.

Lemma hoare_forward h0 self times path1 path2 :
  hoare h0 (forward self times path1 path2) (fun _ => True).
Proof.
  unfold forward.
  eapply hoare_bind; [apply hoare_load|]; intros p1 _.
  eapply hoare_bind; [apply hoare_load|]; intros p2 _.
  eapply hoare_bind;
    [destruct (include_time self);
     [apply hoare_append_time|by apply (hoare_ret h0 _ (fun _ => True))]|].
  intros [path1' path2'] _. apply hoare_logsignature_distance.
Qed.
End LogsignatureFrame.

(** ** C10 *)

(** C10.  Whatever the arguments, and whether [forward] returns or raises,
    the store after the call is the store before it followed by the tensors
    the call created: [times], [path1], [path2], the parameter [self.linear]
    and every other tensor that existed before have the shape and the
    elements they had.  The two [unsqueeze_] loops act on the tensors that
    the [view] calls of lines 198-199 return. *)
Theorem forward_leaves_inputs_unchanged
    (self : LogsignatureDiscrepancy.t) (times path1 path2 : loc) (h : heap) :
  exists created,
    snd (LogsignatureDiscrepancy.forward self times path1 path2 h) = h ++ created.
Proof.
  destruct (LogsignatureFrame.hoare_forward h self times path1 path2 h
              (extends_refl h)) as [Hext _].
  exact Hext.
Qed.

(** ** Construction *)

Lemma bind_run {A B : Type} (m : M A) (f : A -> M B) (h h' : heap) (a : A) :
  m h = (inr a, h') -> (m ≫= f) h = f a h'.
Proof. intros E. unfold mbind, M_bind. by rewrite E. Qed.

Lemma bind_raise {A B : Type} (m : M A) (f : A -> M B) (h h' : heap) (e : exn) :
  m h = (inl e, h') -> (m ≫= f) h = (inl e, h').
Proof. intros E. unfold mbind, M_bind. by rewrite E. Qed.

Lemma assert_false_raises {B : Type} (c : bool) (k : unit -> M B) (h : heap) :
  c = false -> (assert_ c ≫= k) h = (inl AssertionError, h).
Proof. intros ->. reflexivity. Qed.

Lemma assert_true_runs {B : Type} (c : bool) (k : unit -> M B) (h : heap) :
  c = true -> (assert_ c ≫= k) h = k tt h.
Proof. intros ->. reflexivity. Qed.

Lemma lookup_last (h : heap) (t : tensor) : (h ++ [t]) !! length h = Some t.
Proof. by rewrite list_lookup_middle. Qed.

Lemma fresh_tensor_run (noise : nat -> R) (sizes : list Z) (h : heap) :
  forallb (Z.leb 0) sizes = true ->
  fresh_tensor noise sizes h =
    (inr (length h), h ++ [Tensor sizes (map noise (seq 0 (Z.to_nat (numel sizes))))]).
Proof. intros E. unfold fresh_tensor. by rewrite E. Qed.

Lemma init_run (noise : nat -> R) (h : heap) (t : tensor) :
  init_ noise (length h) (h ++ [t]) =
    (inr tt, h ++ [Tensor (shape t) (map noise (seq 0 (length (data t))))]).
Proof.
  unfold init_. rewrite lookup_last. f_equal.
  rewrite insert_app_r_alt by lia. by rewrite Nat.sub_diag.
Qed.

Lemma nn_Parameter_run (h : heap) (t : tensor) :
  nn_Parameter (length h) (h ++ [t]) = (inr (S (length h)), h ++ [t; t]).
Proof.
  unfold nn_Parameter. erewrite bind_run by (unfold load; by rewrite lookup_last).
  unfold alloc. rewrite length_app, <- app_assoc. cbn. do 2 f_equal. lia.
Qed.

(** A parameter of shape [sizes]: created, initialised in place, wrapped. *)
Lemma parameter_run {B : Type} (noise : nat -> nat -> R) (sizes : list Z)
    (k : loc -> M B) (h : heap) :
  forallb (Z.leb 0) sizes = true ->
  exists a, shape a = sizes /\
    (linear ← fresh_tensor (noise 0%nat) sizes;
     init_ (noise 1%nat) linear;; q ← nn_Parameter linear; k q) h =
    k (S (length h)) (h ++ [a; a]).
Proof.
  intros E. eexists (Tensor sizes _). split; [reflexivity|].
  erewrite bind_run by (by apply fresh_tensor_run).
  erewrite bind_run by apply init_run.
  erewrite bind_run by apply nn_Parameter_run.
  reflexivity.
Qed.

Lemma parameter_cases {B : Type} (noise : nat -> nat -> R) (sizes : list Z)
    (k : loc -> M B) (h : heap) :
  (exists a, shape a = sizes /\
     (linear ← fresh_tensor (noise 0%nat) sizes;
      init_ (noise 1%nat) linear;; q ← nn_Parameter linear; k q) h =
     k (S (length h)) (h ++ [a; a])) \/
  (linear ← fresh_tensor (noise 0%nat) sizes;
   init_ (noise 1%nat) linear;; q ← nn_Parameter linear; k q) h =
  (inl RuntimeError, h).
Proof.
  destruct (forallb (Z.leb 0) sizes) eqn:E.
  - left. by apply parameter_run.
  - right. apply bind_raise. unfold fresh_tensor. by rewrite E.
Qed.

(** The zero-dimensional parameter of the identity mode. *)
Lemma empty_parameter_run (noise : nat -> R) (h : heap) :
  (e ← fresh_tensor noise []; nn_Parameter e) h =
    (inr (S (length h)), h ++ [Tensor [] [noise 0%nat]; Tensor [] [noise 0%nat]]).
Proof.
  erewrite bind_run by (by apply fresh_tensor_run).
  apply nn_Parameter_run.
Qed.

(** ** C5 *)

(** C5.  A [metric_type] that is neither ['general'] nor ['diagonal'] makes
    the constructor of [L2Discrepancy] and of [LogsignatureDiscrepancy] fail
    on its [assert], the specification's ConfigurationError, whatever the
    other arguments are and whether or not [signatory] was imported; the
    store is as it was, so no parameter has been created. *)
Theorem unrecognised_metric_type_is_refused
    (signatory : option signatory_module) (noise : nat -> nat -> R)
    (in_channels depth : Z) (p : pnorm) (include_time pseudometric : bool)
    (metric_type : string) (h : heap) :
  valid_metric_type metric_type = false ->
  L2Discrepancy.__init__ noise in_channels pseudometric metric_type h
    = (inl AssertionError, h) /\
  LogsignatureDiscrepancy.__init__ signatory noise in_channels depth p include_time
      pseudometric metric_type h
    = (inl AssertionError, h) /\
  classify AssertionError = ConfigurationError.
Proof.
  intros E. repeat split.
  - unfold L2Discrepancy.__init__. by apply assert_false_raises.
  - unfold LogsignatureDiscrepancy.__init__. by apply assert_false_raises.
Qed.

Lemma bogus_is_refused :
  valid_metric_type "bogus" = false /\
  L2Discrepancy.__init__ constant_noise 1 true "bogus" []
    = (inl AssertionError, []) /\
  LogsignatureDiscrepancy.__init__ (Some depth_one_signatory) constant_noise 1 1 (PFin 2)
      true true "bogus" []
    = (inl AssertionError, []) /\
  classify AssertionError = ConfigurationError.
Proof.
  split; [reflexivity|].
  apply (unrecognised_metric_type_is_refused (Some depth_one_signatory) constant_noise
           1 1 (PFin 2) true true "bogus" []).
  reflexivity.
Defined.

(** ** C8 *)

(** C8.  The [assert] on [metric_type] is the first statement after the call
    to the parent constructor, ahead of the test of [pseudometric]: with
    [pseudometric=False] an unrecognised [metric_type] still makes both
    constructors fail on the assertion, without anything created.  And with
    [pseudometric=False] the value is not used afterwards: the
    [L2Discrepancy] constructor creates the same tensors for ['general'] and
    for ['diagonal'], and [LogsignatureDiscrepancy.forward] does the same
    for any two values of the attribute. *)
Theorem metric_type_is_checked_before_pseudometric
    (signatory : option signatory_module) (noise : nat -> nat -> R)
    (in_channels depth : Z) (p : pnorm) (include_time : bool)
    (metric_type : string) (h : heap) :
  valid_metric_type metric_type = false ->
  L2Discrepancy.__init__ noise in_channels false metric_type h
    = (inl AssertionError, h) /\
  LogsignatureDiscrepancy.__init__ signatory noise in_channels depth p include_time
      false metric_type h
    = (inl AssertionError, h) /\
  snd (L2Discrepancy.__init__ noise in_channels false "general" h)
    = snd (L2Discrepancy.__init__ noise in_channels false "diagonal" h) /\
  forall (m m' : string) (lin : option loc) (ls : tensor -> result tensor)
         (times path1 path2 : loc),
    LogsignatureDiscrepancy.forward
      (LogsignatureDiscrepancy.Build in_channels depth p include_time false m lin ls)
      times path1 path2 h
    = LogsignatureDiscrepancy.forward
      (LogsignatureDiscrepancy.Build in_channels depth p include_time false m' lin ls)
      times path1 path2 h.
Proof.
  intros E. split; [|split; [|split]].
  - unfold L2Discrepancy.__init__. by apply assert_false_raises.
  - unfold LogsignatureDiscrepancy.__init__. by apply assert_false_raises.
  - unfold L2Discrepancy.__init__.
    rewrite !assert_true_runs by reflexivity.
    by erewrite !bind_run by apply empty_parameter_run.
  - intros m m' lin ls times path1 path2. reflexivity.
Qed.

Lemma bogus_is_refused_without_pseudometric :
  valid_metric_type "bogus" = false /\
  L2Discrepancy.__init__ constant_noise 1 false "bogus" []
    = (inl AssertionError, []) /\
  LogsignatureDiscrepancy.__init__ None constant_noise 1 1 (PFin 2) true
      false "bogus" []
    = (inl AssertionError, []).
Proof.
  split; [reflexivity|].
  destruct (metric_type_is_checked_before_pseudometric None constant_noise
              1 1 (PFin 2) true "bogus" [] eq_refl) as (H1 & H2 & _).
  split; [exact H1|exact H2].
Defined.

(** ** C6 *)

(** C6 as stated fails: without [signatory], a constructor call with an
    unrecognised [metric_type] stops at the assertion of line 133, which is
    the specification's ConfigurationError, and never reaches the test of
    line 134. *)
Lemma missing_signatory_is_not_always_a_dependency_error :
  ~ (forall (noise : nat -> nat -> R) (in_channels depth : Z) (p : pnorm)
            (include_time pseudometric : bool) (metric_type : string) (h : heap),
       exists e,
         fst (LogsignatureDiscrepancy.__init__ None noise in_channels depth p
                include_time pseudometric metric_type h) = inl e /\
         classify e = DependencyMissingError).
Proof.
  intros H.
  destruct (H constant_noise 1 1 (PFin 2) true true "bogus"%string []) as (e & He & Hc).
  cbn in He. injection He as <-. discriminate Hc.
Qed.

(** C6, amended.  With a recognised [metric_type]: when [signatory] could
    not be imported the constructor raises ImportError, the specification's
    DependencyMissingError, before it creates anything, so no instance exists
    on which [forward] could be called; when [signatory] is there the
    constructor does not raise ImportError. *)
Theorem missing_signatory_fails_at_construction
    (noise : nat -> nat -> R) (in_channels depth : Z) (p : pnorm)
    (include_time pseudometric : bool) (metric_type : string) (h : heap) :
  valid_metric_type metric_type = true ->
  LogsignatureDiscrepancy.__init__ None noise in_channels depth p include_time
      pseudometric metric_type h
    = (inl ImportError, h) /\
  classify ImportError = DependencyMissingError /\
  forall sg : signatory_module,
    fst (LogsignatureDiscrepancy.__init__ (Some sg) noise in_channels depth p
           include_time pseudometric metric_type h) <> inl ImportError.
Proof.
  intros E. repeat split.
  - unfold LogsignatureDiscrepancy.__init__. by rewrite assert_true_runs.
  - intros sg. unfold LogsignatureDiscrepancy.__init__.
    rewrite assert_true_runs by done.
    destruct pseudometric; [|cbn; discriminate].
    set (lc := logsignature_channels sg _ depth).
    destruct (metric_type =? "general")%string.
    + destruct (parameter_cases noise [lc; lc] (fun q => mret (Some q)) h)
        as [(a & _ & Hrun)|Hrun].
      * erewrite bind_run by (rewrite Hrun; reflexivity). cbn. discriminate.
      * erewrite bind_raise by exact Hrun. cbn. discriminate.
    + destruct (parameter_cases noise [lc] (fun q => mret (Some q)) h)
        as [(a & _ & Hrun)|Hrun].
      * erewrite bind_run by (rewrite Hrun; reflexivity). cbn. discriminate.
      * erewrite bind_raise by exact Hrun. cbn. discriminate.
Qed.

Lemma missing_signatory_fails_at_construction_general :
  valid_metric_type "general" = true /\
  LogsignatureDiscrepancy.__init__ None constant_noise 1 1 (PFin 2) true true "general" []
    = (inl ImportError, []).
Proof.
  split; [reflexivity|].
  apply (missing_signatory_fails_at_construction constant_noise 1 1 (PFin 2)
           true true "general" []).
  reflexivity.
Defined.

(** ** C9 *)

Lemma wrapped_parameter_run (noise : nat -> nat -> R) (sizes : list Z) (h : heap) :
  forallb (Z.leb 0) sizes = true ->
  exists a, shape a = sizes /\
    (linear ← fresh_tensor (noise 0%nat) sizes;
     init_ (noise 1%nat) linear;; nn_Parameter linear) h =
    (inr (S (length h)), h ++ [a; a]).
Proof.
  intros E. eexists (Tensor sizes _). split; [reflexivity|].
  erewrite bind_run by (by apply fresh_tensor_run).
  erewrite bind_run by apply init_run.
  apply nn_Parameter_run.
Qed.

Lemma lookup_second_new (h : heap) (a b : tensor) :
  (h ++ [a; b]) !! S (length h) = Some b.
Proof.
  rewrite lookup_app_r by lia. by replace (S (length h) - length h)%nat with 1%nat by lia.
Qed.

(** The modelled kernel creates its result and touches nothing else. *)
Lemma hoare_l2_discrepancy (h0 : heap) (times path1 path2 a : loc) :
  hoare h0 (l2_discrepancy times path1 path2 a) (fresh_for h0).
Proof.
  unfold l2_discrepancy.
  eapply hoare_bind; [apply hoare_load|]; intros t _.
  eapply hoare_bind; [apply hoare_load|]; intros p1 _.
  eapply hoare_bind; [apply hoare_load|]; intros p2 _.
  eapply hoare_bind; [apply hoare_load|]; intros ta _.
  repeat (case_match; [apply hoare_raise|]).
  apply hoare_alloc.
Qed.

(** C9.  For a positive [in_channels] and a recognised [metric_type] the
    constructor of [L2Discrepancy] returns an instance whose [arg] is a
    tensor of shape (in_channels, in_channels) for [pseudometric=True] with
    ['general'], of shape (in_channels,) for [pseudometric=True] with
    ['diagonal'], and of shape () for [pseudometric=False].  [forward] hands
    exactly this [arg] to the kernel as its fourth argument, and after a
    call of [forward], from any store that holds it, [arg] is the tensor it
    was. *)
Theorem L2_arg_is_fixed_by_configuration
    (noise : nat -> nat -> R) (in_channels : Z) (pseudometric : bool)
    (metric_type : string) (h : heap) :
  0 < in_channels ->
  valid_metric_type metric_type = true ->
  exists (self : L2Discrepancy.t) (created : list tensor) (a : tensor),
    L2Discrepancy.__init__ noise in_channels pseudometric metric_type h
      = (inr self, h ++ created) /\
    (h ++ created) !! arg self = Some a /\
    shape a = (if pseudometric
               then if (metric_type =? "general")%string
                    then [in_channels; in_channels] else [in_channels]
               else []) /\
    (forall time path1 path2 : loc,
       L2Discrepancy.forward self time path1 path2
         = l2_discrepancy time path1 path2 (arg self)) /\
    (forall (time path1 path2 : loc) (h' : heap),
       h' !! arg self = Some a ->
       snd (L2Discrepancy.forward self time path1 path2 h') !! arg self = Some a).
Proof.
  intros Hc Hm.
  assert (Hframe : forall (self : L2Discrepancy.t) a time path1 path2 (h' : heap),
             h' !! arg self = Some a ->
             snd (L2Discrepancy.forward self time path1 path2 h') !! arg self = Some a).
  { intros self a time path1 path2 h' Ha.
    destruct (hoare_l2_discrepancy h' time path1 path2 (arg self) h' (extends_refl h'))
      as [[fr Hfr] _].
    unfold L2Discrepancy.forward, CppDiscrepancy_forward. cbn [fn L2Discrepancy.cpp].
    rewrite Hfr. by apply lookup_app_l_Some. }
  assert (H1 : forallb (Z.leb 0) [in_channels] = true).
  { cbn. rewrite andb_true_r. apply Z.leb_le. lia. }
  assert (H2 : forallb (Z.leb 0) [in_channels; in_channels] = true).
  { cbn. rewrite andb_true_r. apply andb_true_iff. split; apply Z.leb_le; lia. }
  unfold L2Discrepancy.__init__. rewrite assert_true_runs by done.
  destruct pseudometric; [destruct (metric_type =? "general")%string|].
  - destruct (wrapped_parameter_run noise _ h H2) as (a & Hs & Hrun).
    erewrite bind_run by exact Hrun.
    eexists _, [a; a], a. split; [reflexivity|].
    split; [apply lookup_second_new|]. split; [done|]. split; [done|].
    intros time path1 path2 h' Ha. by apply Hframe.
  - destruct (wrapped_parameter_run noise _ h H1) as (a & Hs & Hrun).
    erewrite bind_run by exact Hrun.
    eexists _, [a; a], a. split; [reflexivity|].
    split; [apply lookup_second_new|]. split; [done|]. split; [done|].
    intros time path1 path2 h' Ha. by apply Hframe.
  - erewrite bind_run by apply empty_parameter_run.
    eexists _, [_; _], _. split; [reflexivity|].
    split; [apply lookup_second_new|]. split; [done|]. split; [done|].
    intros time path1 path2 h' Ha. by apply Hframe.
Qed.

Lemma L2_arg_of_three_diagonal_channels :
  0 < 3 /\ valid_metric_type "diagonal" = true /\
  exists (self : L2Discrepancy.t) (created : list tensor) (a : tensor),
    L2Discrepancy.__init__ constant_noise 3 true "diagonal" [] = (inr self, [] ++ created) /\
    ([] ++ created) !! arg self = Some a /\
    shape a = [3].
Proof.
  split; [lia|]. split; [reflexivity|].
  destruct (L2_arg_is_fixed_by_configuration constant_noise 3 true "diagonal" [])
    as (self & created & a & H1 & H2 & H3 & _); [lia|reflexivity|].
  exists self, created, a. split; [exact H1|]. split; [exact H2|exact H3].
Defined.

(** ** C4 *)

Lemma load_run (h : heap) (l : loc) (t : tensor) :
  h !! l = Some t -> load l h = (inr t, h).
Proof. intros E. unfold load. by rewrite E. Qed.

(** C4, against the kernel as the specification describes it.
    [L2Discrepancy.forward] does nothing but call the kernel, so its checks
    are the first thing that happens.  When [path2] has a batch dimension,
    or [times] is not strictly increasing, or the last dimensions of [path1]
    and [path2] differ, the call raises an error of the class ShapeError and
    the store is as before: no tensor has been computed.  When none of the
    three holds, the call returns a new tensor. *)
Theorem L2_forward_checks_shapes_first
    (self : L2Discrepancy.t) (time path1 path2 : loc) (h : heap) (t p1 p2 a : tensor) :
  h !! time = Some t -> h !! path1 = Some p1 -> h !! path2 = Some p2 ->
  h !! arg self = Some a ->
  (batch_dims p2 <> [] \/ strictly_increasing (data t) = false \/
   List.last (shape p1) 0 <> List.last (shape p2) 0 ->
   L2Discrepancy.forward self time path1 path2 h = (inl RuntimeError, h) /\
   classify RuntimeError = ShapeError) /\
  (batch_dims p2 = [] -> strictly_increasing (data t) = true ->
   List.last (shape p1) 0 = List.last (shape p2) 0 ->
   exists r, shape r = batch_dims p1 /\
     L2Discrepancy.forward self time path1 path2 h = (inr (length h), h ++ [r])).
Proof.
  intros Ht H1 H2 Ha.
  unfold L2Discrepancy.forward, CppDiscrepancy_forward. cbn [fn L2Discrepancy.cpp].
  unfold l2_discrepancy.
  erewrite bind_run by (by apply load_run).
  erewrite bind_run by (by apply load_run).
  erewrite bind_run by (by apply load_run).
  erewrite bind_run by (by apply load_run).
  unfold shape_eqb. split.
  - intros Hbad. split; [|reflexivity].
    case_bool_decide as Hb; cbn [negb]; [|reflexivity].
    destruct (strictly_increasing (data t)) eqn:Hs; cbn [negb]; [|reflexivity].
    destruct (Z.eqb_spec (List.last (shape p1) 0) (List.last (shape p2) 0)) as [Hc|Hc];
      cbn [negb]; [|reflexivity].
    destruct Hbad as [?|[?|?]]; done.
  - intros Hb Hs Hc. rewrite bool_decide_eq_true_2 by done.
    rewrite Hs, Hc, Z.eqb_refl. cbn [negb].
    eexists (Tensor (batch_dims p1) _). split; reflexivity.
Qed.

Lemma ramp_times_increase : strictly_increasing [0%R; 1%R; 2%R] = true.
Proof.
  cbn. destruct (Rlt_dec 0 1) as [_|N]; [|exfalso; apply N; lra].
  destruct (Rlt_dec 1 2) as [_|N]; [|exfalso; apply N; lra].
  reflexivity.
Qed.

Lemma L2_forward_accepts_the_ramp :
  exists r, shape r = [] /\
    L2Discrepancy.forward (L2Discrepancy.Build 1 false "general" 3%nat) 0%nat 1%nat 2%nat
      (ramp_store ++ [Tensor [] [1%R]])
    = (inr 4%nat, (ramp_store ++ [Tensor [] [1%R]]) ++ [r]).
Proof.
  destruct (L2_forward_checks_shapes_first
              (L2Discrepancy.Build 1 false "general" 3%nat) 0%nat 1%nat 2%nat
              (ramp_store ++ [Tensor [] [1%R]])
              (Tensor [3] [0%R; 1%R; 2%R]) (Tensor [3; 1] [0%R; 1%R; 2%R])
              (zeros [3; 1]) (Tensor [] [1%R])
              eq_refl eq_refl eq_refl eq_refl) as [_ Hok].
  apply Hok; [reflexivity|exact ramp_times_increase|reflexivity].
Defined.

(** ** The integral over one segment *)

Lemma derivable_pt_lim_eq (f g : R -> R) (x l l' : R) :
  (forall y, f y = g y) -> l = l' -> derivable_pt_lim f x l -> derivable_pt_lim g x l'.
Proof.
  intros Hfg <- Hf eps Heps. destruct (Hf eps Heps) as [delta Hd].
  exists delta. intros k Hk Hlt. rewrite <- !Hfg. by apply Hd.
Qed.

Lemma derivable_affine (t0 k t : R) :
  derivable_pt_lim (fun s => (s - t0) * k)%R t k.
Proof.
  apply (derivable_pt_lim_eq ((id - fct_cte t0) * fct_cte k)%F _ t
           ((1 - 0) * fct_cte k t + (id - fct_cte t0)%F t * 0)%R).
  - intros y. reflexivity.
  - unfold fct_cte. ring.
  - apply derivable_pt_lim_mult.
    + apply derivable_pt_lim_minus; [apply derivable_pt_lim_id|apply derivable_pt_lim_const].
    + apply derivable_pt_lim_const.
Qed.

Lemma derivable_pow_affine (n : nat) (t0 k t : R) :
  derivable_pt_lim (fun s => ((s - t0) * k) ^ n)%R t
    (INR n * ((t - t0) * k) ^ pred n * k)%R.
Proof.
  apply (derivable_pt_lim_eq (comp (fun y => y ^ n)%R (fun s => (s - t0) * k)%R) _ t
           (INR n * ((t - t0) * k) ^ pred n * k)%R).
  - intros y. reflexivity.
  - reflexivity.
  - apply derivable_pt_lim_comp; [apply derivable_affine|apply derivable_pt_lim_pow].
Qed.

(** One channel: the cubic is a primitive of the squared interpolant. *)
Lemma derivable_channel_primitive (t0 t1 x y t : R) :
  (t0 < t1)%R ->
  derivable_pt_lim
    (fun s => (t1 - t0) * (x * x * ((s - t0) / (t1 - t0))
                           + x * (y - x) * ((s - t0) / (t1 - t0)) ^ 2
                           + (y - x) * (y - x) / 3 * ((s - t0) / (t1 - t0)) ^ 3))%R
    t (interpolant t0 t1 x y t * interpolant t0 t1 x y t)%R.
Proof.
  intros Hlt.
  pose (k := (/ (t1 - t0))%R).
  apply (derivable_pt_lim_eq
           (mult_real_fct (t1 - t0)
              (mult_real_fct (x * x) (fun s => (s - t0) * k)%R
               + mult_real_fct (x * (y - x)) (fun s => ((s - t0) * k) ^ 2)%R
               + mult_real_fct ((y - x) * (y - x) / 3) (fun s => ((s - t0) * k) ^ 3)%R)%F)
           _ t
           ((t1 - t0) * (x * x * k
                         + x * (y - x) * (INR 2 * ((t - t0) * k) ^ pred 2 * k)
                         + (y - x) * (y - x) / 3 * (INR 3 * ((t - t0) * k) ^ pred 3 * k)))%R).
  - intros s. reflexivity.
  - unfold interpolant, k. simpl. field. lra.
  - apply derivable_pt_lim_scal.
    repeat apply derivable_pt_lim_plus; apply derivable_pt_lim_scal.
    + apply derivable_affine.
    + apply derivable_pow_affine.
    + apply derivable_pow_affine.
Qed.

Lemma derivable_squared_norm_primitive (t0 t1 : R) (a b : list R) (t : R) :
  (t0 < t1)%R ->
  derivable_pt_lim (squared_norm_primitive t0 t1 a b) t (squared_norm_at t0 t1 a b t).
Proof.
  intros Hlt. revert b. induction a as [|x a IH]; intros b.
  - apply derivable_pt_lim_const.
  - destruct b as [|y b]; [apply derivable_pt_lim_const|].
    cbn [squared_norm_primitive squared_norm_at].
    apply (derivable_pt_lim_plus _ (squared_norm_primitive t0 t1 a b));
      [by apply derivable_channel_primitive|apply IH].
Qed.

Lemma squared_norm_primitive_ends (t0 t1 : R) (a b : list R) :
  (t0 < t1)%R ->
  squared_norm_primitive t0 t1 a b t0 = 0%R /\
  squared_norm_primitive t0 t1 a b t1 = segment_integral (t1 - t0) a b.
Proof.
  intros Hlt. unfold segment_integral. revert b.
  induction a as [|x a IH]; intros b.
  - split; cbn; lra.
  - destruct b as [|y b]; [split; cbn; lra|].
    destruct (IH b) as [IH0 IH1].
    cbn [squared_norm_primitive zip_with fold_right]. rewrite IH0, IH1. split; field; lra.
Qed.

(** ** Evaluating [forward] *)

Lemma numel_app (a b : list Z) : numel (a ++ b) = numel a * numel b.
Proof.
  unfold numel. induction a as [|x a IH]; cbn [app fold_right]; [lia|].
  rewrite IH. lia.
Qed.

Lemma unsqueeze_last (s : list Z) (d : list R) :
  unsqueeze (Tensor s d) (-1) = inr (Tensor (s ++ [1]) d).
Proof.
  unfold unsqueeze, wrap_dim. cbn [shape data].
  replace (0 <=? -1) with false by reflexivity. cbn [andb].
  replace (- (Z.of_nat (length s) + 1) <=? -1) with true by (symmetry; apply Z.leb_le; lia).
  cbn. replace (Z.to_nat (-1 + (Z.of_nat (length s) + 1))) with (length s) by lia.
  by rewrite firstn_all, skipn_all.
Qed.

Lemma cat_channels (lead : list Z) (ca cb : Z) (da db : list R) :
  lead <> [] ->
  cat (Tensor (lead ++ [ca]) da) (Tensor (lead ++ [cb]) db)
    = inr (Tensor (lead ++ [ca + cb])
             (concat (zip_with app (chunks (Z.to_nat (numel lead)) (Z.to_nat ca) da)
                                   (chunks (Z.to_nat (numel lead)) (Z.to_nat cb) db)))).
Proof.
  intros Hl. unfold cat, shape_eqb. cbn [shape data].
  rewrite bool_decide_eq_false_2 by (destruct lead as [|? [|? ?]]; done).
  rewrite bool_decide_eq_false_2 by (destruct lead as [|? [|? ?]]; done).
  destruct (lead ++ [ca]) eqn:Ea; [by destruct lead|].
  destruct (lead ++ [cb]) eqn:Eb; [by destruct lead|].
  rewrite <- Ea, <- Eb. rewrite !removelast_last, !last_last.
  by rewrite bool_decide_eq_true_2.
Qed.

Lemma size_last (s : list Z) (c : Z) (d : list R) :
  size (Tensor (s ++ [c]) d) (-1) = inr c.
Proof.
  unfold size, wrap_dim. cbn [shape]. rewrite length_app. cbn [length].
  replace (0 <=? -1) with false by reflexivity. cbn [andb].
  replace (- Z.of_nat (length s + 1) <=? -1) with true by (symmetry; apply Z.leb_le; lia).
  cbn [andb]. replace (-1 <? 0) with true by reflexivity.
  replace (Z.to_nat (-1 + Z.of_nat (length s + 1))) with (length s) by lia.
  by rewrite app_nth2, Nat.sub_diag by lia.
Qed.

Lemma size_before_last (s : list Z) (l c : Z) (d : list R) :
  size (Tensor (s ++ [l; c]) d) (-2) = inr l.
Proof.
  unfold size, wrap_dim. cbn [shape]. rewrite length_app. cbn [length].
  replace (0 <=? -2) with false by reflexivity. cbn [andb].
  replace (- Z.of_nat (length s + 2) <=? -2) with true by (symmetry; apply Z.leb_le; lia).
  cbn [andb]. replace (-2 <? 0) with true by reflexivity.
  replace (Z.to_nat (-2 + Z.of_nat (length s + 2))) with (length s) by lia.
  by rewrite app_nth2, Nat.sub_diag by lia.
Qed.

Lemma view_single_batch (B : list Z) (l c : Z) (d : list R) :
  0 < l -> 0 < c ->
  view (Tensor (B ++ [l; c]) d) [-1; l; c] = inr (Tensor [numel B; l; c] d).
Proof.
  intros Hl Hc. unfold view. cbn [shape data].
  assert (Hf1 : filter (fun s => s = -1) [-1; l; c] = [-1]).
  { cbn. repeat case_decide; (done || lia). }
  assert (Hf2 : filter (fun s => s <> -1) [-1; l; c] = [l; c]).
  { cbn. repeat case_decide; (done || lia). }
  rewrite Hf1, Hf2. cbn [length].
  rewrite numel_app.
  assert (Hk : 0 < numel [l; c]) by (cbn; nia).
  replace (forallb (Z.leb (-1)) [-1; l; c]) with true
    by (symmetry; cbn; rewrite !andb_true_r; apply andb_true_iff; split; apply Z.leb_le; lia).
  replace (0 <? numel [l; c]) with true by (symmetry; by apply Z.ltb_lt).
  rewrite Z_mod_mult, Z.eqb_refl. cbn [andb map].
  rewrite Z_div_mult by lia.
  replace (-1 =? -1) with true by reflexivity.
  replace (l =? -1) with false by (symmetry; apply Z.eqb_neq; lia).
  replace (c =? -1) with false by (symmetry; apply Z.eqb_neq; lia).
  done.
Qed.

Lemma filter_minus_one_nonneg (s : list Z) :
  Forall (Z.le 0) s -> filter (fun x => x = -1) s = [].
Proof.
  induction 1 as [|x s Hx _ IH]; [done|].
  rewrite filter_cons, decide_False by lia. exact IH.
Qed.

Lemma forallb_nonneg (s : list Z) : Forall (Z.le 0) s -> forallb (Z.leb 0) s = true.
Proof.
  induction 1 as [|x s Hx _ IH]; [done|].
  cbn. rewrite IH. by apply andb_true_iff, conj; [apply Z.leb_le|].
Qed.

Lemma view_restore_batch (B : list Z) (c : Z) (d : list R) :
  Forall (Z.le 0) B -> 0 <= c ->
  view (Tensor [numel B; c] d) (B ++ [c]) = inr (Tensor (B ++ [c]) d).
Proof.
  intros HB Hc. unfold view. cbn [shape data].
  assert (HBc : Forall (Z.le 0) (B ++ [c])) by (apply Forall_app; split; [done|by constructor]).
  rewrite filter_minus_one_nonneg by done. cbn [length].
  rewrite forallb_nonneg by done.
  replace (numel (B ++ [c]) =? numel [numel B; c]) with true; [done|].
  symmetry. apply Z.eqb_eq. rewrite numel_app. cbn. lia.
Qed.

Lemma expand_shape_same (s : list Z) :
  Forall (Z.le 0) s -> expand_shape 0 s s = Some s.
Proof.
  induction 1 as [|x s Hx _ IH]; [done|].
  cbn. rewrite IH. replace (x =? -1) with false by (symmetry; apply Z.eqb_neq; lia).
  by rewrite Z.eqb_refl.
Qed.

Lemma expand_same (s : list Z) (d : list R) :
  Forall (Z.le 0) s -> expand (Tensor s d) s = inr (Tensor s (expand_data s s d)).
Proof.
  intros Hs. unfold expand. cbn [shape data]. rewrite Nat.sub_diag. cbn [repeat app].
  by rewrite expand_shape_same.
Qed.

Lemma broadcast_aligned_same (s : list Z) : broadcast_aligned s s = Some s.
Proof. induction s as [|x s IH]; [done|]. cbn. by rewrite IH, Z.eqb_refl. Qed.

Lemma pointwise_same (op : R -> R -> R) (s : list Z) (x y : list R) :
  pointwise op (Tensor s x) (Tensor s y)
    = inr (Tensor s (zip_with op (expand_data s s x) (expand_data s s y))).
Proof.
  unfold pointwise, left_pad. cbn [shape data].
  rewrite Nat.max_id, Nat.sub_diag. cbn [repeat app].
  by rewrite broadcast_aligned_same.
Qed.

(** The norm of a vector of zeros. *)
Lemma vector_norm_zero (p : pnorm) (v : list R) :
  Forall (eq 0%R) v -> vector_norm p v = 0%R.
Proof.
  intros Hv. destruct p as [|r]; cbn.
  - induction Hv as [|x v <- _ IH]; [done|].
    cbn. rewrite IH, Rabs_R0. apply Rmax_left. lra.
  - assert (Hsum : fold_right Rplus 0%R (map (fun x => rpow (Rabs x) r) v) = 0%R).
    { induction Hv as [|x v <- _ IH]; [done|].
      cbn. rewrite IH, Rabs_R0. unfold rpow. destruct (Req_dec_T 0 0); [lra|done]. }
    rewrite Hsum. unfold rpow. by destruct (Req_dec_T 0 0).
Qed.

Lemma zip_with_minus_diag (x : list R) : Forall (eq 0%R) (zip_with Rminus x x).
Proof. induction x as [|a x IH]; constructor; [lra|done]. Qed.

Lemma norm_of_zero_vector (p : pnorm) (c : Z) (x : list R) :
  0 < c ->
  norm p (Tensor [c] (zip_with Rminus x x)) = inr (Tensor [] [0%R]).
Proof.
  intros Hc. unfold norm. cbn [shape removelast List.last data].
  replace (c =? 0) with false by (symmetry; apply Z.eqb_neq; lia).
  change (Z.to_nat (numel [])) with 1%nat. cbn [chunks map].
  rewrite vector_norm_zero by (apply Forall_take, zip_with_minus_diag).
  by destruct p.
Qed.

(** Running the operations on references. *)
Lemma call1_run (f : tensor -> result tensor) (l : loc) (h : heap) (t t' : tensor) :
  h !! l = Some t -> f t = inr t' -> call1 f l h = (inr (length h), h ++ [t']).
Proof.
  intros Hl Hf. unfold call1. erewrite bind_run by (by apply load_run).
  erewrite bind_run by (unfold lift; by rewrite Hf). reflexivity.
Qed.

Lemma call2_run (f : tensor -> tensor -> result tensor) (a b : loc) (h : heap)
    (ta tb t' : tensor) :
  h !! a = Some ta -> h !! b = Some tb -> f ta tb = inr t' ->
  call2 f a b h = (inr (length h), h ++ [t']).
Proof.
  intros Ha Hb Hf. unfold call2. erewrite bind_run by (by apply load_run).
  erewrite bind_run by (by apply load_run).
  erewrite bind_run by (unfold lift; by rewrite Hf). reflexivity.
Qed.

Lemma size_of_run (l : loc) (d : Z) (h : heap) (t : tensor) (z : Z) :
  h !! l = Some t -> size t d = inr z -> size_of l d h = (inr z, h).
Proof.
  intros Hl Hs. unfold size_of. erewrite bind_run by (by apply load_run).
  unfold lift. by rewrite Hs.
Qed.

Lemma lookup_created (h created : heap) (i : nat) (t : tensor) :
  created !! i = Some t -> (h ++ created) !! (length h + i)%nat = Some t.
Proof. intros Hi. rewrite lookup_app_r by lia. by rewrite Nat.add_comm, Nat.add_sub. Qed.

Ltac tidy_store :=
  repeat rewrite <- app_assoc; repeat rewrite length_app; cbn [app length].

Ltac find_object :=
  first [ eassumption
        | apply lookup_app_l_Some; eassumption
        | apply list_lookup_middle; reflexivity
        | apply lookup_created; reflexivity ].

Ltac run_step lem :=
  erewrite bind_run by lem; tidy_store.

Lemma single_batch_run (path : loc) (h : heap) (B : list Z) (l c : Z) (d : list R) :
  h !! path = Some (Tensor (B ++ [l; c]) d) -> 0 < l -> 0 < c ->
  LogsignatureDiscrepancy.single_batch path h
    = (inr (length h), h ++ [Tensor [numel B; l; c] d]).
Proof.
  intros Hp Hl Hc. unfold LogsignatureDiscrepancy.single_batch.
  assert (Hsz : size (Tensor (B ++ [l; c]) d) (-1) = inr c).
  { replace (B ++ [l; c]) with ((B ++ [l]) ++ [c]) by (by rewrite <- app_assoc).
    apply size_last. }
  erewrite bind_run by (eapply size_of_run; [exact Hp|apply size_before_last]).
  erewrite bind_run by (eapply size_of_run; [exact Hp|exact Hsz]).
  eapply call1_run; [exact Hp|by apply view_single_batch].
Qed.

Lemma restore_batch_run (logsig : loc) (h : heap) (B : list Z) (c : Z) (d : list R) :
  h !! logsig = Some (Tensor [numel B; c] d) -> Forall (Z.le 0) B -> 0 <= c ->
  LogsignatureDiscrepancy.restore_batch logsig B h
    = (inr (length h), h ++ [Tensor (B ++ [c]) d]).
Proof.
  intros Hp HB Hc. unfold LogsignatureDiscrepancy.restore_batch.
  erewrite bind_run by (eapply size_of_run; [exact Hp|apply (size_last [numel B])]).
  eapply call1_run; [exact Hp|by apply view_restore_batch].
Qed.

(** Two unbatched paths with the same points are at distance zero. *)
Lemma distance_of_equal_unbatched_paths
    (sg : signatory_module) (self : LogsignatureDiscrepancy.t) (path1 path2 : loc)
    (h : heap) (l c : Z) (d : list R) :
  LogsignatureDiscrepancy.logsignature self
    = Logsignature sg (LogsignatureDiscrepancy.depth self) ->
  LogsignatureDiscrepancy.pseudometric self = false ->
  h !! path1 = Some (Tensor [l; c] d) -> h !! path2 = Some (Tensor [l; c] d) ->
  0 < l -> 0 < c ->
  0 < logsignature_channels sg c (LogsignatureDiscrepancy.depth self) ->
  exists created,
    LogsignatureDiscrepancy.logsignature_distance self [] [] path1 path2 h
      = (inr (length h + length created)%nat, h ++ created ++ [Tensor [] [0%R]]).
Proof.
  destruct self as [ic depth p it pm mt lin ls]. cbn. intros -> -> H1 H2 Hl Hc HD.
  unfold LogsignatureDiscrepancy.logsignature_distance.
  cbn [LogsignatureDiscrepancy.pseudometric
       LogsignatureDiscrepancy.logsignature LogsignatureDiscrepancy.p].
  run_step ltac:(eapply (single_batch_run _ _ []); [find_object|done..]).
  run_step ltac:(eapply (single_batch_run _ _ []); [find_object|done..]).
  run_step ltac:(eapply call1_run; [find_object|reflexivity]).
  run_step ltac:(eapply call1_run; [find_object|reflexivity]).
  cbn [data]. set (x := concat _). set (D := logsignature_channels sg c depth) in *.
  run_step ltac:(eapply (restore_batch_run _ _ []); [find_object|done|lia]).
  run_step ltac:(eapply (restore_batch_run _ _ []); [find_object|done|lia]).
  cbn [foldM app].
  run_step ltac:(reflexivity).
  run_step ltac:(reflexivity).
  run_step ltac:(eapply size_of_run; [find_object|apply (size_last [])]).
  run_step ltac:(eapply call1_run;
                 [find_object|apply (expand_same [D]); repeat constructor; lia]).
  run_step ltac:(eapply size_of_run; [find_object|apply (size_last [])]).
  run_step ltac:(eapply call1_run;
                 [find_object|apply (expand_same [D]); repeat constructor; lia]).
  run_step ltac:(eapply call2_run; [find_object|find_object|apply pointwise_same]).
  run_step ltac:(reflexivity).
  erewrite call1_run; [|find_object|by apply norm_of_zero_vector].
  tidy_store. by eexists [_; _; _; _; _; _; _; _; _].
Qed.

(** ** A batch is not at distance zero from itself *)

Lemma rpow_nonneg (x y : R) : (0 <= rpow x y)%R.
Proof.
  unfold rpow. destruct (Req_dec_T x 0); [lra|].
  left. apply exp_pos.
Qed.

Lemma rpow_pos (x y : R) : x <> 0%R -> (0 < rpow x y)%R.
Proof.
  intros Hx. unfold rpow. destruct (Req_dec_T x 0); [done|]. apply exp_pos.
Qed.

(** A vector with a non-zero element has a non-zero norm. *)
Lemma vector_norm_nonzero (r : R) (v : list R) :
  Exists (fun x => x <> 0%R) v -> vector_norm (PFin r) v <> 0%R.
Proof.
  intros Hv. cbn.
  assert (Hsum : (0 < fold_right Rplus 0 (map (fun x => rpow (Rabs x) r) v))%R).
  { assert (Hnn : forall w, (0 <= fold_right Rplus 0 (map (fun x => rpow (Rabs x) r) w))%R).
    { induction w as [|x w IH]; cbn; [lra|]. pose proof (rpow_nonneg (Rabs x) r). lra. }
    induction Hv as [x v Hx|x v _ IH]; cbn.
    - pose proof (rpow_pos (Rabs x) r (Rabs_no_R0 x Hx)). pose proof (Hnn v). lra.
    - pose proof (rpow_nonneg (Rabs x) r). lra. }
  pose proof (rpow_pos _ (/ r) (Rgt_not_eq _ _ Hsum)). lra.
Qed.


(** C2 as stated fails for a path with batch dimensions: the result holds
    the distance of every batch element of the first argument to every batch
    element of the second, and two different elements of the same batch are
    not at distance zero.  Here the batch has the paths from 0 to 1 and from
    0 to 2, and the result, of shape (2, 2), is not the zero tensor. *)
Lemma forward_of_a_batch_with_itself_is_not_zero :
  exists r,
    fst (pairwise_call two_paths_store) = inr 18%nat /\
    snd (pairwise_call two_paths_store) !! 18%nat = Some r /\
    shape r = [2; 2] /\ data r <> [0%R; 0%R; 0%R; 0%R].
Proof.
  eexists. split; [vm_compute; reflexivity|].
  split.
  { cbv -[Rminus Rplus Rmult Rdiv IZR Rinv Ropp vector_norm]. reflexivity. }
  split; [reflexivity|]. cbn [data].
  intros H. apply (f_equal (fun v => nth 1 v 0%R)) in H. cbn [nth] in H.
  revert H. apply vector_norm_nonzero.
  apply Exists_cons_tl, Exists_cons_hd. lra.
Qed.

(** ** The shape of all pairs *)

Lemma unsqueeze_front (s : list Z) (d : list R) :
  unsqueeze (Tensor s d) 0 = inr (Tensor (1 :: s) d).
Proof.
  unfold unsqueeze, wrap_dim. cbn [shape data].
  replace (0 <? Z.of_nat (length s) + 1) with true by (symmetry; apply Z.ltb_lt; lia).
  reflexivity.
Qed.

Lemma unsqueeze_before_last (s : list Z) (c : Z) (d : list R) :
  unsqueeze (Tensor (s ++ [c]) d) (-2) = inr (Tensor (s ++ [1; c]) d).
Proof.
  unfold unsqueeze, wrap_dim. cbn [shape data]. rewrite length_app. cbn [length].
  replace (0 <=? -2) with false by reflexivity. cbn [andb].
  replace (- (Z.of_nat (length s + 1) + 1) <=? -2) with true
    by (symmetry; apply Z.leb_le; lia).
  cbn [andb]. replace (-2 <? 0) with true by reflexivity.
  replace (Z.to_nat (-2 + (Z.of_nat (length s + 1) + 1))) with (length s) by lia.
  by rewrite take_app_length, drop_app_length.
Qed.

Lemma unsqueeze_front_loop (q : loc) (dims : list Z) (h : heap) (s : list Z) (d : list R) :
  h !! q = Some (Tensor s d) ->
  foldM (fun _ _ => unsqueeze_ q 0) tt dims h
    = (inr tt, <[q := Tensor (repeat 1 (length dims) ++ s) d]> h).
Proof.
  revert h s. induction dims as [|x dims IH]; intros h s Hq; cbn [foldM length repeat app].
  - by rewrite list_insert_id.
  - erewrite bind_run; cycle 1.
    { unfold unsqueeze_. erewrite bind_run by (by apply load_run).
      erewrite bind_run by (unfold lift; by rewrite unsqueeze_front). reflexivity. }
    rewrite (IH _ (1 :: s)).
    + rewrite list_insert_insert_eq. do 3 f_equal.
      replace (repeat 1 (length dims) ++ 1 :: s)
        with ((repeat 1 (length dims) ++ [1]) ++ s) by (by rewrite <- app_assoc).
      by rewrite <- repeat_cons.
    + apply list_lookup_insert_eq. by eapply lookup_lt_Some.
Qed.

Lemma unsqueeze_before_last_loop (q : loc) (dims : list Z) (h : heap)
    (s : list Z) (c : Z) (d : list R) :
  h !! q = Some (Tensor (s ++ [c]) d) ->
  foldM (fun _ _ => unsqueeze_ q (-2)) tt dims h
    = (inr tt, <[q := Tensor (s ++ repeat 1 (length dims) ++ [c]) d]> h).
Proof.
  revert h s. induction dims as [|x dims IH]; intros h s Hq; cbn [foldM length repeat app].
  - by rewrite list_insert_id.
  - erewrite bind_run; cycle 1.
    { unfold unsqueeze_. erewrite bind_run by (by apply load_run).
      erewrite bind_run by (unfold lift; by rewrite unsqueeze_before_last). reflexivity. }
    rewrite (IH _ (s ++ [1])).
    + rewrite list_insert_insert_eq. do 3 f_equal. by rewrite <- app_assoc.
    + rewrite <- app_assoc. apply list_lookup_insert_eq. by eapply lookup_lt_Some.
Qed.

(** Every dimension is kept or is a one that is made larger. *)
Lemma expand_shape_fits (from to : list Z) :
  Forall2 (fun f s => 0 <= s /\ (s = f \/ f = 1)) from to ->
  expand_shape 0 from to = Some to.
Proof.
  induction 1 as [|f s from to [Hs Hf] _ IH]; [done|].
  cbn. rewrite IH.
  replace (s =? -1) with false by (symmetry; apply Z.eqb_neq; lia).
  destruct Hf as [->| ->].
  - by rewrite Z.eqb_refl.
  - replace (0 <=? s) with true by (symmetry; apply Z.leb_le; lia).
    by rewrite Z.eqb_refl, orb_true_r.
Qed.

Lemma expand_fits (from to : list Z) (d : list R) :
  Forall2 (fun f s => 0 <= s /\ (s = f \/ f = 1)) from to ->
  expand (Tensor from d) to = inr (Tensor to (expand_data from to d)).
Proof.
  intros Hft. unfold expand. cbn [shape data].
  rewrite (Forall2_length _ _ _ Hft), Nat.sub_diag. cbn [repeat app].
  by rewrite expand_shape_fits.
Qed.

Lemma fits_same (s : list Z) :
  Forall (Z.le 0) s -> Forall2 (fun f s => 0 <= s /\ (s = f \/ f = 1)) s s.
Proof. induction 1; constructor; auto. Qed.

Lemma fits_ones (s : list Z) :
  Forall (Z.le 0) s ->
  Forall2 (fun f s => 0 <= s /\ (s = f \/ f = 1)) (repeat 1 (length s)) s.
Proof. induction 1; constructor; auto. Qed.

Lemma size_last_of_three (a b : list Z) (c : Z) (d : list R) :
  size (Tensor (a ++ b ++ [c]) d) (-1) = inr c.
Proof. rewrite app_assoc. apply size_last. Qed.

Lemma norm_last (p : pnorm) (s : list Z) (c : Z) (d : list R) :
  0 < c ->
  norm p (Tensor (s ++ [c]) d)
    = inr (Tensor s (map (vector_norm p) (chunks (Z.to_nat (numel s)) (Z.to_nat c) d))).
Proof.
  intros Hc. unfold norm. cbn [shape data].
  rewrite removelast_last, last_last.
  replace (c =? 0) with false by (symmetry; apply Z.eqb_neq; lia).
  by destruct p.
Qed.

Lemma batch_dims_of_path (B : list Z) (l c : Z) (d : list R) :
  batch_dims (Tensor (B ++ [l; c]) d) = B.
Proof.
  unfold batch_dims. cbn [shape]. rewrite length_app. cbn [length].
  replace (length B + 2 - 2)%nat with (length B) by lia. apply take_app_length.
Qed.
Lemma matmul_fits (s : list Z) (c : Z) (x w : list R) :
  matmul (Tensor (s ++ [c]) x) (Tensor [c; c] w)
    = inr (Tensor (s ++ [c])
             (concat (map (fun row => vec_mat (Z.to_nat c) row
                                        (chunks (Z.to_nat c) (Z.to_nat c) w))
                          (chunks (Z.to_nat (numel s)) (Z.to_nat c) x)))).
Proof.
  unfold matmul. cbn [shape data].
  destruct (s ++ [c]) eqn:E; [by destruct s|]. rewrite <- E.
  by rewrite last_last, removelast_last, Z.eqb_refl.
Qed.

Lemma broadcast_aligned_vector (s : list Z) (c : Z) :
  broadcast_aligned (s ++ [c]) (repeat 1 (length s) ++ [c]) = Some (s ++ [c]).
Proof.
  induction s as [|x s IH]; cbn.
  - by rewrite Z.eqb_refl.
  - rewrite IH. by destruct (Z.eqb_spec x 1) as [->|].
Qed.

Lemma multiply_fits (s : list Z) (c : Z) (x w : list R) :
  pointwise Rmult (Tensor (s ++ [c]) x) (Tensor [c] w)
    = inr (Tensor (s ++ [c])
             (zip_with Rmult (expand_data (s ++ [c]) (s ++ [c]) x)
                             (expand_data (repeat 1 (length s) ++ [c]) (s ++ [c]) w))).
Proof.
  unfold pointwise, left_pad. cbn [shape data].
  rewrite length_app. cbn [length].
  replace (Nat.max (length s + 1) 1) with (length s + 1)%nat by lia.
  rewrite Nat.sub_diag. replace (length s + 1 - 1)%nat with (length s) by lia.
  cbn [repeat app]. by rewrite broadcast_aligned_vector.
Qed.

(** Lines 210-214 keep the shape of the difference. *)
Lemma pseudometric_run (self : LogsignatureDiscrepancy.t) (diff : loc) (h : heap)
    (s : list Z) (c : Z) (x : list R) :
  h !! diff = Some (Tensor (s ++ [c]) x) ->
  parameter_fits self h c ->
  exists created q x',
    (if LogsignatureDiscrepancy.pseudometric self then
       match LogsignatureDiscrepancy.linear self with
       | Some w =>
           if (LogsignatureDiscrepancy.metric_type self =? "general")%string
           then call2 matmul diff w
           else call2 (pointwise Rmult) diff w
       | None => raise TypeError
       end
     else mret diff) h = (inr q, h ++ created) /\
    (h ++ created) !! q = Some (Tensor (s ++ [c]) x').
Proof.
  intros Hd Hfit. unfold parameter_fits in Hfit.
  destruct (LogsignatureDiscrepancy.pseudometric self).
  - destruct Hfit as (w & wd & -> & Hw); [done|].
    destruct (LogsignatureDiscrepancy.metric_type self =? "general")%string.
    + eexists [_], (length h), _. split.
      * eapply call2_run; [exact Hd|exact Hw|apply matmul_fits].
      * apply lookup_last.
    + eexists [_], (length h), _. split.
      * eapply call2_run; [exact Hd|exact Hw|apply multiply_fits].
      * apply lookup_last.
  - exists [], diff, x. rewrite app_nil_r. by split.
Qed.
Ltac tidy_insert := rewrite insert_app_r; cbn [insert list_insert].

Lemma parameter_fits_later (self : LogsignatureDiscrepancy.t) (h created : heap) (c : Z) :
  parameter_fits self h c -> parameter_fits self (h ++ created) c.
Proof.
  intros Hfit Hpm. destruct (Hfit Hpm) as (w & wd & Hw & Hlook).
  exists w, wd. split; [done|]. by apply lookup_app_l_Some.
Qed.

(** Lines 191-215 accept every pair of batch shapes. *)
Lemma distance_shape
    (sg : signatory_module) (self : LogsignatureDiscrepancy.t) (path1 path2 : loc)
    (h : heap) (B1 B2 : list Z) (l c : Z) (d1 d2 : list R) :
  LogsignatureDiscrepancy.logsignature self
    = Logsignature sg (LogsignatureDiscrepancy.depth self) ->
  h !! path1 = Some (Tensor (B1 ++ [l; c]) d1) ->
  h !! path2 = Some (Tensor (B2 ++ [l; c]) d2) ->
  Forall (Z.le 0) B1 -> Forall (Z.le 0) B2 -> 0 < l -> 0 < c ->
  0 < logsignature_channels sg c (LogsignatureDiscrepancy.depth self) ->
  parameter_fits self h (logsignature_channels sg c (LogsignatureDiscrepancy.depth self)) ->
  exists created r,
    shape r = B1 ++ B2 /\
    LogsignatureDiscrepancy.logsignature_distance self B1 B2 path1 path2 h
      = (inr (length h + length created)%nat, h ++ created ++ [r]).
Proof.
  intros Hls H1 H2 HB1 HB2 Hl Hc HD Hfit.
  unfold LogsignatureDiscrepancy.logsignature_distance. rewrite Hls.
  set (depth := LogsignatureDiscrepancy.depth self) in *.
  run_step ltac:(eapply (single_batch_run _ _ B1); [find_object|done..]).
  run_step ltac:(eapply (single_batch_run _ _ B2); [find_object|done..]).
  run_step ltac:(eapply call1_run; [find_object|reflexivity]).
  run_step ltac:(eapply call1_run; [find_object|reflexivity]).
  cbn [data]. set (x1 := concat _). set (x2 := concat _).
  set (D := logsignature_channels sg c depth) in *.
  run_step ltac:(eapply (restore_batch_run _ _ B1); [find_object|done|lia]).
  run_step ltac:(eapply (restore_batch_run _ _ B2); [find_object|done|lia]).
  run_step ltac:(eapply unsqueeze_front_loop; find_object). tidy_insert.
  run_step ltac:(eapply unsqueeze_before_last_loop; find_object). tidy_insert.
  run_step ltac:(eapply size_of_run; [find_object|apply size_last_of_three]).
  assert (HfD : Forall (Z.le 0) [D]) by (repeat constructor; lia).
  run_step ltac:(eapply call1_run;
    [find_object
    |apply expand_fits, Forall2_app;
       [by apply fits_same|apply Forall2_app; [by apply fits_ones|by apply fits_same]]]).
  run_step ltac:(eapply size_of_run; [find_object|apply size_last_of_three]).
  run_step ltac:(eapply call1_run;
    [find_object
    |apply expand_fits, Forall2_app;
       [by apply fits_ones|apply Forall2_app; by apply fits_same]]).
  run_step ltac:(eapply call2_run; [find_object|find_object|apply pointwise_same]).
  match goal with
  | |- context [mbind _ _ (h ++ ?objects)] =>
      set (created := objects);
      assert (Hdiff : exists x, (h ++ created) !! (length h + 8)%nat
                                = Some (Tensor ((B1 ++ B2) ++ [D]) x))
        by (eexists; rewrite <- app_assoc; apply lookup_created; reflexivity)
  end.
  destruct Hdiff as [x Hdiff].
  destruct (pseudometric_run self _ _ _ _ _ Hdiff (parameter_fits_later _ _ created _ Hfit))
    as (cr & q & x' & Hrun & Hq).
  erewrite bind_run by exact Hrun.
  erewrite call1_run; [|exact Hq|by apply norm_last].
  exists (created ++ cr), (Tensor (B1 ++ B2) (map (vector_norm (LogsignatureDiscrepancy.p self))
            (chunks (Z.to_nat (numel (B1 ++ B2))) (Z.to_nat D) x'))).
  split; [reflexivity|].
  f_equal; [f_equal; rewrite !length_app; lia|by rewrite <- !app_assoc].
Qed.
(** The loop of lines 184-187 puts the batch dimensions in front of the time
    channel one after the other, so they end up in the opposite order. *)
Lemma time_channel_loop (dims : list Z) :
  forall (tc : loc) (h : heap) (s : list Z) (d : list R),
    h !! tc = Some (Tensor s d) -> Forall (Z.le 0) dims -> Forall (Z.le 0) s ->
    exists created tc' d',
      foldM LogsignatureDiscrepancy.expand_time_channel tc dims h = (inr tc', h ++ created) /\
      (h ++ created) !! tc' = Some (Tensor (rev dims ++ s) d').
Proof.
  induction dims as [|dim dims IH]; intros tc h s d Htc Hdims Hs.
  - exists [], tc, d. rewrite app_nil_r. by split.
  - apply Forall_cons in Hdims as [Hdim Hdims].
    set (u := Tensor (1 :: s) d).
    set (e := Tensor (dim :: s) (expand_data (1 :: s) (dim :: s) d)).
    destruct (IH (length (h ++ [u])) ((h ++ [u]) ++ [e]) (dim :: s)
                 (expand_data (1 :: s) (dim :: s) d))
      as (created & tc' & d' & Hrun & Hlook);
      [apply lookup_last|done|by constructor|].
    exists (u :: e :: created), tc', d'.
    replace (h ++ u :: e :: created) with (((h ++ [u]) ++ [e]) ++ created)
      by (by rewrite <- !app_assoc).
    split.
    + cbn [foldM]. erewrite bind_run; [exact Hrun|].
      unfold LogsignatureDiscrepancy.expand_time_channel.
      erewrite bind_run by (eapply call1_run; [exact Htc|apply unsqueeze_front]).
      erewrite bind_run
        by (unfold shape_of; erewrite bind_run
              by (apply load_run, lookup_app_l_Some, Htc); reflexivity).
      eapply call1_run; [apply lookup_last|].
      apply expand_fits. constructor; [lia|by apply fits_same].
    + cbn [rev].
      replace ((rev dims ++ [dim]) ++ s) with (rev dims ++ dim :: s)
        by (by rewrite <- app_assoc).
      exact Hlook.
Qed.

Lemma cat_time_channel (B : list Z) (l c : Z) (dt dp : list R) :
  cat (Tensor (B ++ [l; 1]) dt) (Tensor (B ++ [l; c]) dp)
    = inr (Tensor (B ++ [l; 1 + c])
             (concat (zip_with app (chunks (Z.to_nat (numel (B ++ [l]))) (Z.to_nat 1) dt)
                                   (chunks (Z.to_nat (numel (B ++ [l]))) (Z.to_nat c) dp)))).
Proof.
  replace (B ++ [l; 1]) with ((B ++ [l]) ++ [1]) by (by rewrite <- app_assoc).
  replace (B ++ [l; c]) with ((B ++ [l]) ++ [c]) by (by rewrite <- app_assoc).
  replace (B ++ [l; 1 + c]) with ((B ++ [l]) ++ [1 + c]) by (by rewrite <- app_assoc).
  apply cat_channels. by destruct B.
Qed.

(** When each batch shape reads the same in both directions, the time
    channel fits and both paths get one more channel. *)
Lemma append_time_run (times path1 path2 : loc) (h : heap)
    (B1 B2 : list Z) (l c : Z) (dt d1 d2 : list R) :
  h !! times = Some (Tensor [l] dt) ->
  h !! path1 = Some (Tensor (B1 ++ [l; c]) d1) ->
  h !! path2 = Some (Tensor (B2 ++ [l; c]) d2) ->
  Forall (Z.le 0) B1 -> Forall (Z.le 0) B2 -> 0 < l ->
  rev B1 = B1 -> rev B2 = B2 ->
  exists created q1 q2 e1 e2,
    LogsignatureDiscrepancy.append_time times path1 path2 B1 B2 h
      = (inr (q1, q2), h ++ created) /\
    (h ++ created) !! q1 = Some (Tensor (B1 ++ [l; 1 + c]) e1) /\
    (h ++ created) !! q2 = Some (Tensor (B2 ++ [l; 1 + c]) e2).
Proof.
  intros Ht H1 H2 HB1 HB2 Hl Hr1 Hr2.
  set (tc := Tensor ([l] ++ [1]) dt).
  assert (Hs : Forall (Z.le 0) ([l] ++ [1])) by (repeat constructor; lia).
  destruct (time_channel_loop B1 (length h) (h ++ [tc]) _ dt (lookup_last h tc) HB1 Hs)
    as (cr1 & tc1 & dt1 & Hrun1 & Hl1).
  assert (Htc : ((h ++ [tc]) ++ cr1) !! length h = Some tc)
    by apply lookup_app_l_Some, lookup_last.
  destruct (time_channel_loop B2 (length h) ((h ++ [tc]) ++ cr1) _ dt Htc HB2 Hs)
    as (cr2 & tc2 & dt2 & Hrun2 & Hl2).
  rewrite Hr1 in Hl1. rewrite Hr2 in Hl2. cbn [app] in Hl1, Hl2.
  set (h2 := ((h ++ [tc]) ++ cr1) ++ cr2) in *.
  assert (Hold : forall q x, h !! q = Some x -> h2 !! q = Some x).
  { intros q x Hq. unfold h2. by do 3 apply lookup_app_l_Some. }
  pose (e1 := concat (zip_with app
                        (chunks (Z.to_nat (numel (B1 ++ [l]))) (Z.to_nat 1) dt1)
                        (chunks (Z.to_nat (numel (B1 ++ [l]))) (Z.to_nat c) d1))).
  pose (e2 := concat (zip_with app
                        (chunks (Z.to_nat (numel (B2 ++ [l]))) (Z.to_nat 1) dt2)
                        (chunks (Z.to_nat (numel (B2 ++ [l]))) (Z.to_nat c) d2))).
  pose (p1 := Tensor (B1 ++ [l; 1 + c]) e1).
  pose (p2 := Tensor (B2 ++ [l; 1 + c]) e2).
  exists (([tc] ++ cr1 ++ cr2) ++ [p1; p2]), (length h2), (length (h2 ++ [p1])), e1, e2.
  replace (h ++ ([tc] ++ cr1 ++ cr2) ++ [p1; p2]) with ((h2 ++ [p1]) ++ [p2])
    by (unfold h2; by rewrite <- !app_assoc).
  split; [|split].
  - unfold LogsignatureDiscrepancy.append_time.
    erewrite bind_run by (eapply call1_run; [exact Ht|apply unsqueeze_last]).
    erewrite bind_run by exact Hrun1.
    erewrite bind_run by exact Hrun2.
    erewrite bind_run
      by (eapply call2_run; [apply lookup_app_l_Some, Hl1|by apply Hold|apply cat_time_channel]).
    erewrite bind_run
      by (eapply call2_run;
          [apply lookup_app_l_Some, Hl2|by apply lookup_app_l_Some, Hold
          |apply cat_time_channel]).
    reflexivity.
  - apply lookup_app_l_Some, lookup_last.
  - apply lookup_last.
Qed.
Lemma cat_misfit (B B' : list Z) (l c : Z) (dt dp : list R) :
  B' <> B ->
  cat (Tensor (B' ++ [l; 1]) dt) (Tensor (B ++ [l; c]) dp) = inl RuntimeError.
Proof.
  intros Hne. unfold cat, shape_eqb. cbn [shape data].
  rewrite bool_decide_eq_false_2 by (destruct B' as [|? [|? ?]]; done).
  rewrite bool_decide_eq_false_2 by (destruct B as [|? [|? ?]]; done).
  destruct (B' ++ [l; 1]) eqn:Ea; [by destruct B'|].
  destruct (B ++ [l; c]) eqn:Eb; [by destruct B|].
  rewrite <- Ea, <- Eb.
  replace (B' ++ [l; 1]) with ((B' ++ [l]) ++ [1]) by (by rewrite <- app_assoc).
  replace (B ++ [l; c]) with ((B ++ [l]) ++ [c]) by (by rewrite <- app_assoc).
  rewrite !removelast_last.
  rewrite bool_decide_eq_false_2; [done|].
  intros Heq. by apply app_inj_tail in Heq as [? _].
Qed.

(** When a batch shape does not read the same in both directions, the time
    channel does not fit the path and [torch.cat] raises. *)
Lemma append_time_raises (times path1 path2 : loc) (h : heap)
    (B1 B2 : list Z) (l c : Z) (dt d1 d2 : list R) :
  h !! times = Some (Tensor [l] dt) ->
  h !! path1 = Some (Tensor (B1 ++ [l; c]) d1) ->
  h !! path2 = Some (Tensor (B2 ++ [l; c]) d2) ->
  Forall (Z.le 0) B1 -> Forall (Z.le 0) B2 -> 0 < l ->
  rev B1 <> B1 \/ rev B2 <> B2 ->
  exists h',
    LogsignatureDiscrepancy.append_time times path1 path2 B1 B2 h = (inl RuntimeError, h').
Proof.
  intros Ht H1 H2 HB1 HB2 Hl Hrev.
  set (tc := Tensor ([l] ++ [1]) dt).
  assert (Hs : Forall (Z.le 0) ([l] ++ [1])) by (repeat constructor; lia).
  destruct (time_channel_loop B1 (length h) (h ++ [tc]) _ dt (lookup_last h tc) HB1 Hs)
    as (cr1 & tc1 & dt1 & Hrun1 & Hl1).
  assert (Htc : ((h ++ [tc]) ++ cr1) !! length h = Some tc)
    by apply lookup_app_l_Some, lookup_last.
  destruct (time_channel_loop B2 (length h) ((h ++ [tc]) ++ cr1) _ dt Htc HB2 Hs)
    as (cr2 & tc2 & dt2 & Hrun2 & Hl2).
  cbn [app] in Hl1, Hl2.
  set (h2 := ((h ++ [tc]) ++ cr1) ++ cr2) in *.
  assert (Hold : forall q x, h !! q = Some x -> h2 !! q = Some x).
  { intros q x Hq. unfold h2. by do 3 apply lookup_app_l_Some. }
  unfold LogsignatureDiscrepancy.append_time.
  erewrite bind_run by (eapply call1_run; [exact Ht|apply unsqueeze_last]).
  erewrite bind_run by exact Hrun1.
  erewrite bind_run by exact Hrun2.
  destruct (decide (rev B1 = B1)) as [E1|N1].
  - destruct Hrev as [?|N2]; [done|]. rewrite E1 in Hl1.
    erewrite bind_run
      by (eapply call2_run; [apply lookup_app_l_Some, Hl1|by apply Hold|apply cat_time_channel]).
    eexists. apply bind_raise. unfold call2.
    erewrite bind_run by (apply load_run, lookup_app_l_Some, Hl2).
    erewrite bind_run by (by apply load_run, lookup_app_l_Some, Hold).
    apply bind_raise. unfold lift. by rewrite cat_misfit.
  - eexists. apply bind_raise. unfold call2.
    erewrite bind_run by (apply load_run; unfold h2; apply lookup_app_l_Some, Hl1).
    erewrite bind_run by (by apply load_run, Hold).
    apply bind_raise. unfold lift. by rewrite cat_misfit.
Qed.

(** What [forward] does with the batch shapes [B1] of [path1] and [B2] of
    [path2].  Without the time channel, or when [B1] and [B2] each read the
    same in both directions (so for batch shapes of at most one dimension),
    the result has the shape [B1 ++ B2]; with the time channel and a batch
    shape that does not, [forward] raises. *)
Lemma forward_shape_of_all_pairs
    (sg : signatory_module) (self : LogsignatureDiscrepancy.t) (times path1 path2 : loc)
    (h : heap) (B1 B2 : list Z) (l c : Z) (dt d1 d2 : list R) :
  LogsignatureDiscrepancy.logsignature self
    = Logsignature sg (LogsignatureDiscrepancy.depth self) ->
  h !! times = Some (Tensor [l] dt) ->
  h !! path1 = Some (Tensor (B1 ++ [l; c]) d1) ->
  h !! path2 = Some (Tensor (B2 ++ [l; c]) d2) ->
  Forall (Z.le 0) B1 -> Forall (Z.le 0) B2 -> 0 < l -> 0 < c ->
  0 < logsignature_channels sg
        (if LogsignatureDiscrepancy.include_time self then 1 + c else c)
        (LogsignatureDiscrepancy.depth self) ->
  parameter_fits self h
    (logsignature_channels sg
       (if LogsignatureDiscrepancy.include_time self then 1 + c else c)
       (LogsignatureDiscrepancy.depth self)) ->
  (LogsignatureDiscrepancy.include_time self = false \/ (rev B1 = B1 /\ rev B2 = B2) ->
   exists created r,
     shape r = B1 ++ B2 /\
     LogsignatureDiscrepancy.forward self times path1 path2 h
       = (inr (length h + length created)%nat, h ++ created ++ [r])) /\
  (LogsignatureDiscrepancy.include_time self = true /\ (rev B1 <> B1 \/ rev B2 <> B2) ->
   exists h',
     LogsignatureDiscrepancy.forward self times path1 path2 h = (inl RuntimeError, h')).
Proof.
  intros Hls Ht H1 H2 HB1 HB2 Hl Hc HD Hfit.
  unfold LogsignatureDiscrepancy.forward.
  run_step ltac:(apply load_run; find_object).
  run_step ltac:(apply load_run; find_object).
  rewrite !batch_dims_of_path.
  destruct (LogsignatureDiscrepancy.include_time self); split.
  - intros [?|[Hr1 Hr2]]; [done|].
    destruct (append_time_run times path1 path2 h B1 B2 l c dt d1 d2)
      as (cr & q1 & q2 & e1 & e2 & Hrun & Hq1 & Hq2); try done.
    erewrite bind_run by exact Hrun.
    destruct (distance_shape sg self q1 q2 (h ++ cr) B1 B2 l (1 + c) e1 e2)
      as (created & r & Hr & Hdist); try done; [lia|by apply parameter_fits_later|].
    exists (cr ++ created), r. split; [done|].
    rewrite Hdist. f_equal; [f_equal; rewrite !length_app; lia|by rewrite <- !app_assoc].
  - intros [_ Hrev].
    destruct (append_time_raises times path1 path2 h B1 B2 l c dt d1 d2)
      as [h' Hrun]; try done.
    exists h'. by apply bind_raise.
  - intros _. run_step ltac:(reflexivity). by eapply distance_shape.
  - by intros [? _].
Qed.
(** The constructor gives the parameter the dimension of the logsignature of
    a path with [in_channels] channels, or one more with the time channel. *)
Lemma linear_has_the_logsignature_dimension
    (sg : signatory_module) (noise : nat -> nat -> R) (in_channels depth : Z) (p : pnorm)
    (include_time pseudometric : bool) (metric_type : string) (h : heap) :
  valid_metric_type metric_type = true ->
  0 <= logsignature_channels sg (if include_time then in_channels + 1 else in_channels) depth ->
  exists self created,
    LogsignatureDiscrepancy.__init__ (Some sg) noise in_channels depth p include_time
        pseudometric metric_type h
      = (inr self, h ++ created) /\
    self = LogsignatureDiscrepancy.Build in_channels depth p include_time pseudometric
             metric_type (LogsignatureDiscrepancy.linear self) (Logsignature sg depth) /\
    parameter_fits self (h ++ created)
      (logsignature_channels sg (if include_time then in_channels + 1 else in_channels) depth).
Proof.
  intros Hm HD. unfold LogsignatureDiscrepancy.__init__.
  rewrite assert_true_runs by done.
  set (D := logsignature_channels sg _ depth) in *.
  assert (H1 : forallb (Z.leb 0) [D] = true).
  { cbn. rewrite andb_true_r. by apply Z.leb_le. }
  assert (H2 : forallb (Z.leb 0) [D; D] = true).
  { cbn. rewrite andb_true_r. apply andb_true_iff. split; by apply Z.leb_le. }
  destruct pseudometric; [destruct (metric_type =? "general")%string eqn:Eg|].
  - destruct (parameter_run noise [D; D] (fun q => mret (Some q)) h H2) as (a & Ha & Hrun).
    erewrite bind_run by (rewrite Hrun; reflexivity).
    eexists _, [a; a]. split; [reflexivity|]. split; [reflexivity|].
    intros _. exists (S (length h)), (data a). split; [reflexivity|].
    cbn [LogsignatureDiscrepancy.metric_type]. rewrite Eg, <- Ha.
    destruct a. apply lookup_second_new.
  - destruct (parameter_run noise [D] (fun q => mret (Some q)) h H1) as (a & Ha & Hrun).
    erewrite bind_run by (rewrite Hrun; reflexivity).
    eexists _, [a; a]. split; [reflexivity|]. split; [reflexivity|].
    intros _. exists (S (length h)), (data a). split; [reflexivity|].
    cbn [LogsignatureDiscrepancy.metric_type]. rewrite Eg, <- Ha.
    destruct a. apply lookup_second_new.
  - eexists _, []. rewrite app_nil_r. split; [reflexivity|]. split; [reflexivity|].
    intros Hpm. discriminate Hpm.
Qed.
(** Construction followed by a call: with [in_channels] the channel count of
    the paths, and without the time channel or with batch shapes that read
    the same in both directions, the call returns a tensor of shape
    [B1 ++ B2], for the identity and for both learnt pseudometrics. *)
Lemma construct_then_forward_shape
    (sg : signatory_module) (noise : nat -> nat -> R) (depth : Z) (p : pnorm)
    (include_time pseudometric : bool) (metric_type : string)
    (times path1 path2 : loc) (h : heap) (B1 B2 : list Z) (l c : Z) (dt d1 d2 : list R) :
  valid_metric_type metric_type = true ->
  h !! times = Some (Tensor [l] dt) ->
  h !! path1 = Some (Tensor (B1 ++ [l; c]) d1) ->
  h !! path2 = Some (Tensor (B2 ++ [l; c]) d2) ->
  Forall (Z.le 0) B1 -> Forall (Z.le 0) B2 -> 0 < l -> 0 < c ->
  0 < logsignature_channels sg (if include_time then c + 1 else c) depth ->
  include_time = false \/ (rev B1 = B1 /\ rev B2 = B2) ->
  exists created r,
    shape r = B1 ++ B2 /\
    (self ← LogsignatureDiscrepancy.__init__ (Some sg) noise c depth p include_time
              pseudometric metric_type;
     LogsignatureDiscrepancy.forward self times path1 path2) h
      = (inr (length h + length created)%nat, h ++ created ++ [r]).
Proof.
  intros Hm Ht H1 H2 HB1 HB2 Hl Hc HD Hok.
  destruct (linear_has_the_logsignature_dimension sg noise c depth p include_time
              pseudometric metric_type h Hm) as (self & cr & Hrun & Hself & Hfit); [lia|].
  erewrite bind_run by exact Hrun.
  assert (Hit : LogsignatureDiscrepancy.include_time self = include_time) by (by rewrite Hself).
  assert (Hdp : LogsignatureDiscrepancy.depth self = depth) by (by rewrite Hself).
  assert (Hls : LogsignatureDiscrepancy.logsignature self = Logsignature sg depth)
    by (by rewrite Hself).
  assert (Hcc : (if include_time then c + 1 else c) = (if include_time then 1 + c else c))
    by (destruct include_time; lia).
  rewrite Hcc in HD, Hfit.
  destruct (forward_shape_of_all_pairs sg self times path1 path2 (h ++ cr) B1 B2 l c dt d1 d2)
    as [Hgood _]; try (by apply lookup_app_l_Some); try done.
  - by rewrite Hdp.
  - by rewrite Hit, Hdp.
  - by rewrite Hit, Hdp.
  - destruct Hgood as (created & r & Hr & Hfw); [by rewrite Hit|].
    exists (cr ++ created), r. split; [done|]. rewrite Hfw.
    f_equal; [f_equal; rewrite !length_app; lia|by rewrite <- !app_assoc].
Qed.

(** ** C1 *)

(** C1, at a failing input.  The docstring promises a result whose shape is
    made of the batch dimensions of [path1] followed by those of [path2],
    whatever they are; for [path1] of batch shape (2, 3) and an unbatched
    [path2] that is (2, 3).  With the default [include_time=True] the call
    raises instead: the loop of lines 184-185 puts each batch dimension in
    front of the ones before it, the time channel comes out with shape
    (3, 2, 2, 1) (the last object created, after the two of the constructor
    and the steps of the loop), and [torch.cat] refuses it next to [path1]
    of shape (2, 3, 2, 1).  [forward_shape_of_all_pairs] has the general
    statement. *)
Theorem forward_two_batch_dims_raises :
  fst (default_call two_batch_dims_store) = inl RuntimeError /\
  map shape (drop 3 (snd (default_call two_batch_dims_store))) =
    [[2; 2]; [2; 2]; [2; 1]; [1; 2; 1]; [2; 2; 1]; [1; 2; 2; 1]; [3; 2; 2; 1]].
Proof. vm_compute. split; reflexivity. Qed.

(** ** C7 *)

(** C7, at a failing input.  For [path1] of shape (2, 3, 2, 1) and
    [include_time=True] the time channel that lines 183-185 build for it has
    shape (3, 2, 2, 1), its batch dimensions in the opposite order, and the
    [torch.cat] of line 188 raises: no path with one more channel comes out.
    With [include_time=False] the same arguments give a result of shape
    (2, 3). *)
Theorem time_channel_has_reversed_batch_shape :
  fst (LogsignatureDiscrepancy.append_time 0%nat 1%nat 2%nat [2; 3] [] two_batch_dims_store)
    = inl RuntimeError /\
  map shape (drop 3 (snd (LogsignatureDiscrepancy.append_time 0%nat 1%nat 2%nat [2; 3] []
                            two_batch_dims_store)))
    = [[2; 1]; [1; 2; 1]; [2; 2; 1]; [1; 2; 2; 1]; [3; 2; 2; 1]] /\
  option_map shape
    (last (snd (LogsignatureDiscrepancy.forward
                  (LogsignatureDiscrepancy.Build 1 1 (PFin 2) false false "general" None
                     (Logsignature depth_one_signatory 1))
                  0%nat 1%nat 2%nat two_batch_dims_store)))
    = Some [2; 3].
Proof. vm_compute. repeat split. Qed.

(** * Further properties of the module *)

(** ** What [forward] returns *)

Lemma positive_dims (B : list Z) : Forall (Z.lt 0) B -> Forall (Z.le 0) B.
Proof. intros HB. eapply Forall_impl; [exact HB|]. intros x Hx. cbn in Hx. lia. Qed.

Lemma ensures_bind {A B : Type} (m : M A) (f : A -> M B) (Q : B -> heap -> Prop) :
  (forall a, ensures (f a) Q) -> ensures (m ≫= f) Q.
Proof.
  intros Hf h b h'. unfold mbind, M_bind.
  destruct (m h) as [[e|a] h1]; [done|]. apply Hf.
Qed.

Lemma chunks_length (k n : nat) (d : list R) : length (chunks k n d) = k.
Proof. revert d. induction k as [|k IH]; intros d; cbn; [done|]. by rewrite IH. Qed.

Lemma vector_norm_nonneg (p : pnorm) (v : list R) : (0 <= vector_norm p v)%R.
Proof.
  destruct p as [|r]; cbn.
  - induction v as [|x v IH]; cbn; [lra|].
    eapply Rle_trans; [exact IH|apply Rmax_r].
  - apply rpow_nonneg.
Qed.

(** The norm over the last dimension has one non-negative element for every
    index of the dimensions before it. *)
Lemma norm_result (p : pnorm) (t r : tensor) :
  norm p t = inr r ->
  shape r = removelast (shape t) /\
  Forall (Rle 0) (data r) /\
  length (data r) = Z.to_nat (numel (shape r)).
Proof.
  unfold norm. intros Hn.
  assert (Hr : r = Tensor (removelast (shape t))
                 (map (vector_norm p)
                      (chunks (Z.to_nat (numel (removelast (shape t))))
                              (Z.to_nat (List.last (shape t) 1)) (data t)))).
  { destruct p; [destruct (List.last (shape t) 1 =? 0); [done|]|]; by injection Hn. }
  subst r. cbn [shape data]. split; [done|]. split.
  - apply Forall_map, Forall_forall. intros v _. apply vector_norm_nonneg.
  - by rewrite length_map, chunks_length.
Qed.

Lemma ensures_norm (p : pnorm) (l : loc) :
  ensures (call1 (norm p) l)
    (fun a h' => exists t r, norm p t = inr r /\ h' !! a = Some r).
Proof.
  intros h a h'. unfold call1, mbind, M_bind, load, lift, alloc.
  destruct (h !! l) as [t|]; [|done].
  destruct (norm p t) as [e|r] eqn:En; [done|].
  intros [= <- <-]. exists t, r. split; [done|apply lookup_last].
Qed.

(** Whenever [forward] returns, it returns the tensor that the [norm] of
    line 215 has just made. *)
Lemma forward_returns_a_norm (self : LogsignatureDiscrepancy.t) (times path1 path2 : loc) :
  ensures (LogsignatureDiscrepancy.forward self times path1 path2)
    (fun a h' => exists t r, norm (LogsignatureDiscrepancy.p self) t = inr r /\
                             h' !! a = Some r).
Proof.
  unfold LogsignatureDiscrepancy.forward.
  do 2 (apply ensures_bind; intros ?). apply ensures_bind. intros [q1 q2].
  unfold LogsignatureDiscrepancy.logsignature_distance.
  do 14 (apply ensures_bind; intros ?). apply ensures_norm.
Qed.

Lemma call1_raises (f : tensor -> result tensor) (l : loc) (h : heap) (t : tensor) (e : exn) :
  h !! l = Some t -> f t = inl e -> call1 f l h = (inl e, h).
Proof.
  intros Hl Hf. unfold call1. erewrite bind_run by (by apply load_run).
  apply bind_raise. unfold lift. by rewrite Hf.
Qed.

Lemma size_of_raises (l : loc) (d : Z) (h : heap) (t : tensor) (e : exn) :
  h !! l = Some t -> size t d = inl e -> size_of l d h = (inl e, h).
Proof.
  intros Hl Hs. unfold size_of. erewrite bind_run by (by apply load_run).
  unfold lift. by rewrite Hs.
Qed.

(** A last dimension that is neither the requested size nor one cannot be
    expanded. *)
Lemma expand_shape_misfit (a b : list Z) (f s : Z) :
  length a = length b -> 0 < s -> s <> f -> f <> 1 ->
  expand_shape 0 (a ++ [f]) (b ++ [s]) = None.
Proof.
  intros Hlen Hs Hsf Hf. revert b Hlen.
  induction a as [|x a IH]; intros [|y b] Hlen; try done.
  - cbn. replace (s =? -1) with false by (symmetry; apply Z.eqb_neq; lia).
    replace (s =? f) with false by (symmetry; by apply Z.eqb_neq).
    replace (f =? 1) with false by (symmetry; by apply Z.eqb_neq). done.
  - cbn. rewrite IH; [done|]. by injection Hlen.
Qed.

Lemma expand_misfit (a b : list Z) (f s : Z) (d : list R) :
  length a = length b -> 0 < s -> s <> f -> f <> 1 ->
  expand (Tensor (a ++ [f]) d) (b ++ [s]) = inl RuntimeError.
Proof.
  intros Hlen Hs Hsf Hf. unfold expand. cbn [shape data].
  rewrite !length_app, Hlen, Nat.sub_diag. cbn [repeat app].
  by rewrite expand_shape_misfit.
Qed.

(** Lines 191-215 for two paths of any lengths and channel counts: the
    logsignatures are taken separately, and the second is expanded to the
    dimension of the first, which works when it has that dimension or
    dimension one. *)
Lemma distance_of_any_paths
    (sg : signatory_module) (self : LogsignatureDiscrepancy.t) (path1 path2 : loc)
    (h : heap) (B1 B2 : list Z) (l1 c1 l2 c2 : Z) (d1 d2 : list R) :
  LogsignatureDiscrepancy.logsignature self
    = Logsignature sg (LogsignatureDiscrepancy.depth self) ->
  h !! path1 = Some (Tensor (B1 ++ [l1; c1]) d1) ->
  h !! path2 = Some (Tensor (B2 ++ [l2; c2]) d2) ->
  Forall (Z.le 0) B1 -> Forall (Z.le 0) B2 ->
  0 < l1 -> 0 < c1 -> 0 < l2 -> 0 < c2 ->
  0 < logsignature_channels sg c1 (LogsignatureDiscrepancy.depth self) ->
  0 <= logsignature_channels sg c2 (LogsignatureDiscrepancy.depth self) ->
  (logsignature_channels sg c2 (LogsignatureDiscrepancy.depth self)
     = logsignature_channels sg c1 (LogsignatureDiscrepancy.depth self) \/
   logsignature_channels sg c2 (LogsignatureDiscrepancy.depth self) = 1 ->
   parameter_fits self h
     (logsignature_channels sg c1 (LogsignatureDiscrepancy.depth self)) ->
   exists created r,
     shape r = B1 ++ B2 /\
     LogsignatureDiscrepancy.logsignature_distance self B1 B2 path1 path2 h
       = (inr (length h + length created)%nat, h ++ created ++ [r])) /\
  (logsignature_channels sg c2 (LogsignatureDiscrepancy.depth self)
     <> logsignature_channels sg c1 (LogsignatureDiscrepancy.depth self) /\
   logsignature_channels sg c2 (LogsignatureDiscrepancy.depth self) <> 1 ->
   exists h',
     LogsignatureDiscrepancy.logsignature_distance self B1 B2 path1 path2 h
       = (inl RuntimeError, h')).
Proof.
  intros Hls H1 H2 HB1 HB2 Hl1 Hc1 Hl2 Hc2 HD1 HD2.
  unfold LogsignatureDiscrepancy.logsignature_distance. rewrite Hls.
  set (depth := LogsignatureDiscrepancy.depth self) in *.
  run_step ltac:(eapply (single_batch_run _ _ B1); [find_object|done..]).
  run_step ltac:(eapply (single_batch_run _ _ B2); [find_object|done..]).
  run_step ltac:(eapply call1_run; [find_object|reflexivity]).
  run_step ltac:(eapply call1_run; [find_object|reflexivity]).
  cbn [data]. set (x1 := concat _). set (x2 := concat _).
  set (D1 := logsignature_channels sg c1 depth) in *.
  set (D2 := logsignature_channels sg c2 depth) in *.
  run_step ltac:(eapply (restore_batch_run _ _ B1); [find_object|done|lia]).
  run_step ltac:(eapply (restore_batch_run _ _ B2); [find_object|done|lia]).
  run_step ltac:(eapply unsqueeze_front_loop; find_object). tidy_insert.
  run_step ltac:(eapply unsqueeze_before_last_loop; find_object). tidy_insert.
  run_step ltac:(eapply size_of_run; [find_object|apply size_last_of_three]).
  assert (HfD : Forall (Z.le 0) [D1]) by (repeat constructor; lia).
  run_step ltac:(eapply call1_run;
    [find_object
    |apply expand_fits, Forall2_app;
       [by apply fits_same|apply Forall2_app; [by apply fits_ones|by apply fits_same]]]).
  run_step ltac:(eapply size_of_run; [find_object|apply size_last_of_three]).
  split.
  - intros HD Hfit.
    run_step ltac:(eapply call1_run;
      [find_object
      |apply expand_fits, Forall2_app;
         [by apply fits_ones
         |apply Forall2_app;
            [by apply fits_same
            |constructor; [split; [lia|destruct HD; auto]|constructor]]]]).
    run_step ltac:(eapply call2_run; [find_object|find_object|apply pointwise_same]).
    match goal with
    | |- context [mbind _ _ (h ++ ?objects)] =>
        set (created := objects);
        assert (Hdiff : exists x, (h ++ created) !! (length h + 8)%nat
                                  = Some (Tensor ((B1 ++ B2) ++ [D1]) x))
          by (eexists; rewrite <- app_assoc; apply lookup_created; reflexivity)
    end.
    destruct Hdiff as [x Hdiff].
    destruct (pseudometric_run self _ _ _ _ _ Hdiff (parameter_fits_later _ _ created _ Hfit))
      as (cr & q & x' & Hrun & Hq).
    erewrite bind_run by exact Hrun.
    erewrite call1_run; [|exact Hq|by apply norm_last].
    exists (created ++ cr),
      (Tensor (B1 ++ B2) (map (vector_norm (LogsignatureDiscrepancy.p self))
         (chunks (Z.to_nat (numel (B1 ++ B2))) (Z.to_nat D1) x'))).
    split; [reflexivity|].
    f_equal; [f_equal; rewrite !length_app; lia|by rewrite <- !app_assoc].
  - intros [Hne Hn1]. eexists. apply bind_raise.
    eapply call1_raises; [find_object|].
    rewrite !app_assoc. apply expand_misfit; [|lia|done..].
    rewrite !length_app, repeat_length. lia.
Qed.

Lemma cat_leading_misfit (lead1 lead2 : list Z) (ca cb : Z) (da db : list R) :
  lead1 <> [] -> lead2 <> [] -> lead1 <> lead2 ->
  cat (Tensor (lead1 ++ [ca]) da) (Tensor (lead2 ++ [cb]) db) = inl RuntimeError.
Proof.
  intros Hn1 Hn2 Hne. unfold cat, shape_eqb. cbn [shape data].
  rewrite bool_decide_eq_false_2 by (destruct lead1 as [|? [|? ?]]; done).
  rewrite bool_decide_eq_false_2 by (destruct lead2 as [|? [|? ?]]; done).
  destruct (lead1 ++ [ca]) eqn:Ea; [by destruct lead1|].
  destruct (lead2 ++ [cb]) eqn:Eb; [by destruct lead2|].
  rewrite <- Ea, <- Eb, !removelast_last.
  by rewrite bool_decide_eq_false_2.
Qed.

(** The time channel of a path has the shape of the time grid behind the
    batch dimensions in reverse; when that is not the shape of the path
    without its channels, [torch.cat] raises. *)
Lemma append_time_misfit (times path1 path2 : loc) (h : heap)
    (B1 B2 : list Z) (lt l1 c1 l2 c2 : Z) (dt d1 d2 : list R) :
  h !! times = Some (Tensor [lt] dt) ->
  h !! path1 = Some (Tensor (B1 ++ [l1; c1]) d1) ->
  h !! path2 = Some (Tensor (B2 ++ [l2; c2]) d2) ->
  Forall (Z.le 0) B1 -> Forall (Z.le 0) B2 -> 0 <= lt ->
  rev B1 ++ [lt] <> B1 ++ [l1] \/ rev B2 ++ [lt] <> B2 ++ [l2] ->
  exists h',
    LogsignatureDiscrepancy.append_time times path1 path2 B1 B2 h = (inl RuntimeError, h').
Proof.
  intros Ht H1 H2 HB1 HB2 Hl Hbad.
  set (tc := Tensor ([lt] ++ [1]) dt).
  assert (Hs : Forall (Z.le 0) ([lt] ++ [1])) by (repeat constructor; lia).
  destruct (time_channel_loop B1 (length h) (h ++ [tc]) _ dt (lookup_last h tc) HB1 Hs)
    as (cr1 & tc1 & dt1 & Hrun1 & Hl1).
  assert (Htc : ((h ++ [tc]) ++ cr1) !! length h = Some tc)
    by apply lookup_app_l_Some, lookup_last.
  destruct (time_channel_loop B2 (length h) ((h ++ [tc]) ++ cr1) _ dt Htc HB2 Hs)
    as (cr2 & tc2 & dt2 & Hrun2 & Hl2).
  cbn [app] in Hl1, Hl2.
  replace (rev B1 ++ [lt; 1]) with ((rev B1 ++ [lt]) ++ [1]) in Hl1
    by (by rewrite <- app_assoc).
  replace (rev B2 ++ [lt; 1]) with ((rev B2 ++ [lt]) ++ [1]) in Hl2
    by (by rewrite <- app_assoc).
  replace (B1 ++ [l1; c1]) with ((B1 ++ [l1]) ++ [c1]) in H1 by (by rewrite <- app_assoc).
  replace (B2 ++ [l2; c2]) with ((B2 ++ [l2]) ++ [c2]) in H2 by (by rewrite <- app_assoc).
  set (h2 := ((h ++ [tc]) ++ cr1) ++ cr2) in *.
  assert (Hold : forall q x, h !! q = Some x -> h2 !! q = Some x).
  { intros q x Hq. unfold h2. by do 3 apply lookup_app_l_Some. }
  assert (Hne : forall (B : list Z) (x : Z), B ++ [x] <> []) by (by intros [|? ?] ?).
  unfold LogsignatureDiscrepancy.append_time.
  erewrite bind_run by (eapply call1_run; [exact Ht|apply unsqueeze_last]).
  erewrite bind_run by exact Hrun1.
  erewrite bind_run by exact Hrun2.
  destruct (decide (rev B1 ++ [lt] = B1 ++ [l1])) as [E1|N1].
  - destruct Hbad as [?|N2]; [done|]. rewrite E1 in Hl1.
    erewrite bind_run
      by (eapply call2_run;
          [unfold h2; apply lookup_app_l_Some, Hl1|by apply Hold
          |apply cat_channels, Hne]).
    eexists. apply bind_raise. unfold call2.
    erewrite bind_run by (apply load_run, lookup_app_l_Some, Hl2).
    erewrite bind_run by (by apply load_run, lookup_app_l_Some, Hold).
    apply bind_raise. unfold lift. by rewrite cat_leading_misfit.
  - eexists. apply bind_raise. unfold call2.
    erewrite bind_run by (apply load_run; unfold h2; apply lookup_app_l_Some, Hl1).
    erewrite bind_run by (by apply load_run, Hold).
    apply bind_raise. unfold lift. by rewrite cat_leading_misfit.
Qed.

(** For two paths on one time grid, [forward] returns one non-negative
    number for every pair of batch elements: the result has the shape
    [B1 ++ B2], as many elements as that shape asks for, and none of them is
    negative.  With the time channel the batch shapes are to read the same
    in both directions; without it the paths themselves are viewed, and
    each has at most one batch dimension, which [view] merges whatever the
    strides of the path.  The paths have two points or more, batches are
    not empty and the depth is positive, as [signatory] asks. *)
Theorem forward_returns_a_distance_for_every_pair
    (sg : signatory_module) (self : LogsignatureDiscrepancy.t) (times path1 path2 : loc)
    (h : heap) (B1 B2 : list Z) (l c : Z) (dt d1 d2 : list R) :
  LogsignatureDiscrepancy.logsignature self
    = Logsignature sg (LogsignatureDiscrepancy.depth self) ->
  h !! times = Some (Tensor [l] dt) ->
  h !! path1 = Some (Tensor (B1 ++ [l; c]) d1) ->
  h !! path2 = Some (Tensor (B2 ++ [l; c]) d2) ->
  Forall (Z.lt 0) B1 -> Forall (Z.lt 0) B2 -> 1 < l -> 0 < c ->
  0 < LogsignatureDiscrepancy.depth self ->
  0 < logsignature_channels sg
        (if LogsignatureDiscrepancy.include_time self then 1 + c else c)
        (LogsignatureDiscrepancy.depth self) ->
  parameter_fits self h
    (logsignature_channels sg
       (if LogsignatureDiscrepancy.include_time self then 1 + c else c)
       (LogsignatureDiscrepancy.depth self)) ->
  (LogsignatureDiscrepancy.include_time self = false /\
   (length B1 <= 1)%nat /\ (length B2 <= 1)%nat) \/
  (LogsignatureDiscrepancy.include_time self = true /\ rev B1 = B1 /\ rev B2 = B2) ->
  exists created r,
    LogsignatureDiscrepancy.forward self times path1 path2 h
      = (inr (length h + length created)%nat, h ++ created ++ [r]) /\
    shape r = B1 ++ B2 /\
    Forall (Rle 0) (data r) /\
    length (data r) = Z.to_nat (numel (B1 ++ B2)).
Proof.
  intros Hls Ht H1 H2 HB1 HB2 Hl Hc _ HD Hfit Hdom.
  assert (Hok : LogsignatureDiscrepancy.include_time self = false
                \/ (rev B1 = B1 /\ rev B2 = B2))
    by (destruct Hdom as [[? _]|[_ ?]]; [by left|by right]).
  apply positive_dims in HB1, HB2.
  destruct (forward_shape_of_all_pairs sg self times path1 path2 h B1 B2 l c dt d1 d2)
    as [Hgood _]; try done; [lia|].
  destruct (Hgood Hok) as (created & r & Hr & Hfw).
  exists created, r. split; [done|]. split; [done|].
  destruct (forward_returns_a_norm self times path1 path2 _ _ _ Hfw)
    as (t & r' & Hn & Hlook).
  rewrite app_assoc, lookup_app_r in Hlook by (rewrite length_app; lia).
  rewrite length_app, Nat.sub_diag in Hlook. injection Hlook as <-.
  destruct (norm_result _ _ _ Hn) as (_ & Hpos & Hlen).
  split; [done|]. by rewrite <- Hr.
Qed.

Lemma forward_of_three_paths_and_four :
  exists created r,
    LogsignatureDiscrepancy.forward
      (LogsignatureDiscrepancy.Build 1 1 (PFin 2) true false "general" None
         (Logsignature depth_one_signatory 1))
      0%nat 1%nat 2%nat [Tensor [2] [0%R; 1%R]; zeros [3; 2; 1]; zeros [4; 2; 1]]
      = (inr (3 + length created)%nat,
         [Tensor [2] [0%R; 1%R]; zeros [3; 2; 1]; zeros [4; 2; 1]] ++ created ++ [r]) /\
    shape r = [3; 4] /\
    Forall (Rle 0) (data r) /\
    length (data r) = 12%nat.
Proof.
  apply (forward_returns_a_distance_for_every_pair depth_one_signatory
           (LogsignatureDiscrepancy.Build 1 1 (PFin 2) true false "general" None
              (Logsignature depth_one_signatory 1))
           0%nat 1%nat 2%nat
           [Tensor [2] [0%R; 1%R]; zeros [3; 2; 1]; zeros [4; 2; 1]]
           [3] [4] 2 1 [0%R; 1%R] (data (zeros [3; 2; 1])) (data (zeros [4; 2; 1])));
    try reflexivity; try (repeat constructor; lia); try lia.
  intros Hpm. discriminate Hpm.
Defined.

(** With the time channel, a path whose batch shape does not read the same
    in both directions makes [forward] raise: the time channel is built with
    the batch dimensions in reverse and [torch.cat] refuses it. *)
Theorem forward_raises_on_a_batch_shape_that_is_not_its_reverse
    (self : LogsignatureDiscrepancy.t) (times path1 path2 : loc)
    (h : heap) (B1 B2 : list Z) (l c : Z) (dt d1 d2 : list R) :
  LogsignatureDiscrepancy.include_time self = true ->
  h !! times = Some (Tensor [l] dt) ->
  h !! path1 = Some (Tensor (B1 ++ [l; c]) d1) ->
  h !! path2 = Some (Tensor (B2 ++ [l; c]) d2) ->
  Forall (Z.le 0) B1 -> Forall (Z.le 0) B2 -> 0 <= l ->
  rev B1 <> B1 \/ rev B2 <> B2 ->
  exists h',
    LogsignatureDiscrepancy.forward self times path1 path2 h = (inl RuntimeError, h').
Proof.
  intros Hit Ht H1 H2 HB1 HB2 Hl Hrev.
  unfold LogsignatureDiscrepancy.forward.
  erewrite bind_run by (by apply load_run).
  erewrite bind_run by (by apply load_run).
  rewrite !batch_dims_of_path, Hit.
  destruct (append_time_misfit times path1 path2 h B1 B2 l l c l c dt d1 d2)
    as [h' Hrun]; try done.
  - destruct Hrev as [N|N]; [left|right]; intros E; by apply app_inj_tail in E as [? _].
  - exists h'. by apply bind_raise.
Qed.

Lemma forward_raises_on_batch_shape_two_three :
  exists h',
    LogsignatureDiscrepancy.forward
      (LogsignatureDiscrepancy.Build 1 1 (PFin 2) true false "general" None
         (Logsignature depth_one_signatory 1))
      0%nat 1%nat 2%nat two_batch_dims_store = (inl RuntimeError, h').
Proof.
  apply (forward_raises_on_a_batch_shape_that_is_not_its_reverse
           (LogsignatureDiscrepancy.Build 1 1 (PFin 2) true false "general" None
              (Logsignature depth_one_signatory 1))
           0%nat 1%nat 2%nat two_batch_dims_store [2; 3] [] 2 1
           [0%R; 1%R] (data (zeros [2; 3; 2; 1])) (data (zeros [2; 1])));
    try reflexivity; try (repeat constructor; lia); try lia.
  left. discriminate.
Defined.

(** With the time channel, a time grid whose length is not the length of
    the paths makes [forward] raise. *)
Theorem forward_raises_on_a_time_grid_of_another_length
    (self : LogsignatureDiscrepancy.t) (times path1 path2 : loc)
    (h : heap) (B1 B2 : list Z) (lt l1 c1 l2 c2 : Z) (dt d1 d2 : list R) :
  LogsignatureDiscrepancy.include_time self = true ->
  h !! times = Some (Tensor [lt] dt) ->
  h !! path1 = Some (Tensor (B1 ++ [l1; c1]) d1) ->
  h !! path2 = Some (Tensor (B2 ++ [l2; c2]) d2) ->
  Forall (Z.le 0) B1 -> Forall (Z.le 0) B2 -> 0 <= lt ->
  lt <> l1 \/ lt <> l2 ->
  exists h',
    LogsignatureDiscrepancy.forward self times path1 path2 h = (inl RuntimeError, h').
Proof.
  intros Hit Ht H1 H2 HB1 HB2 Hl Hlen.
  unfold LogsignatureDiscrepancy.forward.
  erewrite bind_run by (by apply load_run).
  erewrite bind_run by (by apply load_run).
  rewrite !batch_dims_of_path, Hit.
  destruct (append_time_misfit times path1 path2 h B1 B2 lt l1 c1 l2 c2 dt d1 d2)
    as [h' Hrun]; try done.
  - destruct Hlen as [N|N]; [left|right]; intros E; by apply app_inj_tail in E as [_ ?].
  - exists h'. by apply bind_raise.
Qed.

Lemma forward_raises_on_three_times_for_two_points :
  exists h',
    LogsignatureDiscrepancy.forward
      (LogsignatureDiscrepancy.Build 1 1 (PFin 2) true false "general" None
         (Logsignature depth_one_signatory 1))
      0%nat 1%nat 1%nat [Tensor [3] [0%R; 1%R; 2%R]; zeros [2; 1]]
    = (inl RuntimeError, h').
Proof.
  apply (forward_raises_on_a_time_grid_of_another_length
           (LogsignatureDiscrepancy.Build 1 1 (PFin 2) true false "general" None
              (Logsignature depth_one_signatory 1))
           0%nat 1%nat 1%nat [Tensor [3] [0%R; 1%R; 2%R]; zeros [2; 1]] [] [] 3 2 1 2 1
           [0%R; 1%R; 2%R] (data (zeros [2; 1])) (data (zeros [2; 1])));
    try reflexivity; try (repeat constructor; lia); try lia.
Defined.

Ltac start_forward_without_time Hit :=
  unfold LogsignatureDiscrepancy.forward;
  erewrite bind_run by (by apply load_run);
  erewrite bind_run by (by apply load_run);
  rewrite ?batch_dims_of_path, Hit;
  erewrite bind_run by reflexivity.

(** Without the time channel neither the time grid nor the lengths of the
    paths are looked at: [times] may be any reference, and a path of [l1]
    points is compared with a path of [l2] points.  Each path has at most
    one batch dimension, which [view] merges whatever the strides of the
    path. *)
Theorem forward_without_time_compares_paths_of_any_lengths
    (sg : signatory_module) (self : LogsignatureDiscrepancy.t) (times path1 path2 : loc)
    (h : heap) (B1 B2 : list Z) (l1 l2 c : Z) (d1 d2 : list R) :
  LogsignatureDiscrepancy.include_time self = false ->
  LogsignatureDiscrepancy.logsignature self
    = Logsignature sg (LogsignatureDiscrepancy.depth self) ->
  h !! path1 = Some (Tensor (B1 ++ [l1; c]) d1) ->
  h !! path2 = Some (Tensor (B2 ++ [l2; c]) d2) ->
  Forall (Z.lt 0) B1 -> Forall (Z.lt 0) B2 ->
  (length B1 <= 1)%nat -> (length B2 <= 1)%nat -> 1 < l1 -> 1 < l2 -> 0 < c ->
  0 < LogsignatureDiscrepancy.depth self ->
  0 < logsignature_channels sg c (LogsignatureDiscrepancy.depth self) ->
  parameter_fits self h (logsignature_channels sg c (LogsignatureDiscrepancy.depth self)) ->
  exists created r,
    shape r = B1 ++ B2 /\
    LogsignatureDiscrepancy.forward self times path1 path2 h
      = (inr (length h + length created)%nat, h ++ created ++ [r]).
Proof.
  intros Hit Hls H1 H2 HB1 HB2 _ _ Hl1 Hl2 Hc _ HD Hfit.
  apply positive_dims in HB1, HB2.
  start_forward_without_time Hit.
  destruct (distance_of_any_paths sg self path1 path2 h B1 B2 l1 c l2 c d1 d2)
    as [Hgood _]; try done; [lia..|].
  apply Hgood; auto.
Qed.

Lemma forward_without_time_of_three_and_five_points :
  exists created r,
    shape r = [] /\
    LogsignatureDiscrepancy.forward
      (LogsignatureDiscrepancy.Build 1 1 (PFin 2) false false "general" None
         (Logsignature depth_one_signatory 1))
      7%nat 0%nat 1%nat [zeros [3; 1]; zeros [5; 1]]
    = (inr (2 + length created)%nat, [zeros [3; 1]; zeros [5; 1]] ++ created ++ [r]).
Proof.
  apply (forward_without_time_compares_paths_of_any_lengths depth_one_signatory
           (LogsignatureDiscrepancy.Build 1 1 (PFin 2) false false "general" None
              (Logsignature depth_one_signatory 1))
           7%nat 0%nat 1%nat [zeros [3; 1]; zeros [5; 1]] [] [] 3 5 1
           (data (zeros [3; 1])) (data (zeros [5; 1])));
    try reflexivity; try (repeat constructor; lia); try lia.
  intros Hpm. discriminate Hpm.
Defined.

(** Without the time channel, two paths whose logsignatures have different
    dimensions make [forward] raise, at the latest at the [expand] of line
    206, unless the second has dimension one. *)
Theorem forward_raises_on_logsignatures_of_different_dimensions
    (sg : signatory_module) (self : LogsignatureDiscrepancy.t) (times path1 path2 : loc)
    (h : heap) (B1 B2 : list Z) (l1 c1 l2 c2 : Z) (d1 d2 : list R) :
  LogsignatureDiscrepancy.include_time self = false ->
  LogsignatureDiscrepancy.logsignature self
    = Logsignature sg (LogsignatureDiscrepancy.depth self) ->
  h !! path1 = Some (Tensor (B1 ++ [l1; c1]) d1) ->
  h !! path2 = Some (Tensor (B2 ++ [l2; c2]) d2) ->
  Forall (Z.lt 0) B1 -> Forall (Z.lt 0) B2 -> 1 < l1 -> 0 < c1 -> 1 < l2 -> 0 < c2 ->
  0 < LogsignatureDiscrepancy.depth self ->
  0 < logsignature_channels sg c1 (LogsignatureDiscrepancy.depth self) ->
  0 <= logsignature_channels sg c2 (LogsignatureDiscrepancy.depth self) ->
  logsignature_channels sg c2 (LogsignatureDiscrepancy.depth self)
    <> logsignature_channels sg c1 (LogsignatureDiscrepancy.depth self) ->
  logsignature_channels sg c2 (LogsignatureDiscrepancy.depth self) <> 1 ->
  exists h',
    LogsignatureDiscrepancy.forward self times path1 path2 h = (inl RuntimeError, h').
Proof.
  intros Hit Hls H1 H2 HB1 HB2 Hl1 Hc1 Hl2 Hc2 _ HD1 HD2 Hne Hn1.
  apply positive_dims in HB1, HB2.
  start_forward_without_time Hit.
  destruct (distance_of_any_paths sg self path1 path2 h B1 B2 l1 c1 l2 c2 d1 d2)
    as [_ Hbad]; try done; try lia.
  by apply Hbad.
Qed.

Lemma forward_raises_on_two_and_three_channels :
  exists h',
    LogsignatureDiscrepancy.forward
      (LogsignatureDiscrepancy.Build 2 1 (PFin 2) false false "general" None
         (Logsignature depth_one_signatory 1))
      0%nat 0%nat 1%nat [zeros [2; 2]; zeros [2; 3]]
    = (inl RuntimeError, h').
Proof.
  apply (forward_raises_on_logsignatures_of_different_dimensions depth_one_signatory
           (LogsignatureDiscrepancy.Build 2 1 (PFin 2) false false "general" None
              (Logsignature depth_one_signatory 1))
           0%nat 0%nat 1%nat [zeros [2; 2]; zeros [2; 3]] [] [] 2 2 2 3
           (data (zeros [2; 2])) (data (zeros [2; 3])));
    try reflexivity; try (repeat constructor; lia); try lia; cbn; lia.
Defined.

(** Without the time channel and with the identity pseudometric, a second
    path whose logsignature has dimension one is compared with a first path
    of any dimension, the one number taken for every channel; with the two
    paths in the other order [forward] raises, at the second [expand] of
    lines 205-206.  Each path has at most one batch dimension, which [view]
    merges whatever the strides of the path. *)
Theorem forward_broadcasts_a_logsignature_of_dimension_one
    (sg : signatory_module) (self : LogsignatureDiscrepancy.t) (times path1 path2 : loc)
    (h : heap) (B1 B2 : list Z) (l1 c1 l2 c2 : Z) (d1 d2 : list R) :
  LogsignatureDiscrepancy.include_time self = false ->
  LogsignatureDiscrepancy.pseudometric self = false ->
  LogsignatureDiscrepancy.logsignature self
    = Logsignature sg (LogsignatureDiscrepancy.depth self) ->
  h !! path1 = Some (Tensor (B1 ++ [l1; c1]) d1) ->
  h !! path2 = Some (Tensor (B2 ++ [l2; c2]) d2) ->
  Forall (Z.lt 0) B1 -> Forall (Z.lt 0) B2 ->
  (length B1 <= 1)%nat -> (length B2 <= 1)%nat ->
  1 < l1 -> 0 < c1 -> 1 < l2 -> 0 < c2 ->
  0 < LogsignatureDiscrepancy.depth self ->
  1 < logsignature_channels sg c1 (LogsignatureDiscrepancy.depth self) ->
  logsignature_channels sg c2 (LogsignatureDiscrepancy.depth self) = 1 ->
  (exists created r,
     shape r = B1 ++ B2 /\
     LogsignatureDiscrepancy.forward self times path1 path2 h
       = (inr (length h + length created)%nat, h ++ created ++ [r])) /\
  (exists h',
     LogsignatureDiscrepancy.forward self times path2 path1 h = (inl RuntimeError, h')).
Proof.
  intros Hit Hpm Hls H1 H2 HB1 HB2 _ _ Hl1 Hc1 Hl2 Hc2 _ HD1 HD2.
  apply positive_dims in HB1, HB2.
  assert (Hfit : forall D, parameter_fits self h D).
  { intros D Hp. rewrite Hpm in Hp. discriminate Hp. }
  split.
  - start_forward_without_time Hit.
    destruct (distance_of_any_paths sg self path1 path2 h B1 B2 l1 c1 l2 c2 d1 d2)
      as [Hgood _]; try done; [lia..|].
    apply Hgood; auto.
  - start_forward_without_time Hit.
    destruct (distance_of_any_paths sg self path2 path1 h B2 B1 l2 c2 l1 c1 d2 d1)
      as [_ Hbad]; try done; [lia..|].
    apply Hbad. lia.
Qed.

Lemma forward_broadcasts_one_channel_against_two :
  (exists created r,
     shape r = [] /\
     LogsignatureDiscrepancy.forward
       (LogsignatureDiscrepancy.Build 2 1 (PFin 2) false false "general" None
          (Logsignature depth_one_signatory 1))
       0%nat 0%nat 1%nat [zeros [2; 2]; zeros [2; 1]]
     = (inr (2 + length created)%nat, [zeros [2; 2]; zeros [2; 1]] ++ created ++ [r])) /\
  (exists h',
     LogsignatureDiscrepancy.forward
       (LogsignatureDiscrepancy.Build 2 1 (PFin 2) false false "general" None
          (Logsignature depth_one_signatory 1))
       0%nat 1%nat 0%nat [zeros [2; 2]; zeros [2; 1]]
     = (inl RuntimeError, h')).
Proof.
  apply (forward_broadcasts_a_logsignature_of_dimension_one depth_one_signatory
           (LogsignatureDiscrepancy.Build 2 1 (PFin 2) false false "general" None
              (Logsignature depth_one_signatory 1))
           0%nat 0%nat 1%nat [zeros [2; 2]; zeros [2; 1]] [] [] 2 2 2 1
           (data (zeros [2; 2])) (data (zeros [2; 1])));
    try reflexivity; try (repeat constructor; lia); try lia; cbn; lia.
Defined.

(** Without the time channel, a first path with fewer than two dimensions
    makes [forward] raise IndexError at [path1.size(-2)], before any tensor
    is created. *)
Theorem forward_raises_on_a_path_without_two_dimensions
    (self : LogsignatureDiscrepancy.t) (times path1 path2 : loc) (h : heap)
    (t1 t2 : tensor) :
  LogsignatureDiscrepancy.include_time self = false ->
  h !! path1 = Some t1 -> h !! path2 = Some t2 ->
  (length (shape t1) < 2)%nat ->
  LogsignatureDiscrepancy.forward self times path1 path2 h = (inl IndexError, h).
Proof.
  intros Hit H1 H2 Hrank.
  start_forward_without_time Hit.
  unfold LogsignatureDiscrepancy.logsignature_distance.
  apply bind_raise. unfold LogsignatureDiscrepancy.single_batch.
  apply bind_raise. eapply size_of_raises; [exact H1|].
  unfold size, wrap_dim.
  replace (0 <=? -2) with false by reflexivity. cbn [andb].
  replace (- Z.of_nat (length (shape t1)) <=? -2) with false
    by (symmetry; apply Z.leb_gt; lia).
  reflexivity.
Qed.

Lemma forward_raises_on_a_vector :
  LogsignatureDiscrepancy.forward
    (LogsignatureDiscrepancy.Build 1 1 (PFin 2) false false "general" None
       (Logsignature depth_one_signatory 1))
    0%nat 0%nat 1%nat [zeros [5]; zeros [2; 1]]
  = (inl IndexError, [zeros [5]; zeros [2; 1]]).
Proof.
  apply (forward_raises_on_a_path_without_two_dimensions
           (LogsignatureDiscrepancy.Build 1 1 (PFin 2) false false "general" None
              (Logsignature depth_one_signatory 1))
           0%nat 0%nat 1%nat [zeros [5]; zeros [2; 1]] (zeros [5]) (zeros [2; 1]));
    try reflexivity. cbn. lia.
Defined.

(** ** Symmetry *)

Lemma vector_norm_of_absolute_values (p : pnorm) (v w : list R) :
  map Rabs v = map Rabs w -> vector_norm p v = vector_norm p w.
Proof.
  intros Hvw. destruct p as [|r]; cbn.
  - by rewrite Hvw.
  - do 2 f_equal.
    rewrite <- (map_map Rabs (fun x => rpow x r) v), <- (map_map Rabs (fun x => rpow x r) w).
    by rewrite Hvw.
Qed.

Lemma absolute_differences_commute (n : nat) (a b : list R) :
  map Rabs (take n (zip_with Rminus a b)) = map Rabs (take n (zip_with Rminus b a)).
Proof.
  revert n b. induction a as [|x a IH]; intros n [|y b]; try done.
  destruct n as [|n]; [done|]. cbn. by rewrite IH, Rabs_minus_sym.
Qed.

Lemma unbatched_distance_sym (sg : signatory_module) (depth : Z) (p : pnorm)
    (l c : Z) (d1 d2 : list R) :
  unbatched_distance sg depth p l c d1 d2 = unbatched_distance sg depth p l c d2 d1.
Proof.
  unfold unbatched_distance.
  apply vector_norm_of_absolute_values, absolute_differences_commute.
Qed.

Lemma distance_of_unbatched_paths
    (sg : signatory_module) (self : LogsignatureDiscrepancy.t) (path1 path2 : loc)
    (h : heap) (l c : Z) (d1 d2 : list R) :
  LogsignatureDiscrepancy.logsignature self
    = Logsignature sg (LogsignatureDiscrepancy.depth self) ->
  LogsignatureDiscrepancy.pseudometric self = false ->
  h !! path1 = Some (Tensor [l; c] d1) -> h !! path2 = Some (Tensor [l; c] d2) ->
  0 < l -> 0 < c ->
  0 < logsignature_channels sg c (LogsignatureDiscrepancy.depth self) ->
  exists created,
    LogsignatureDiscrepancy.logsignature_distance self [] [] path1 path2 h
      = (inr (length h + length created)%nat,
         h ++ created ++
           [Tensor [] [unbatched_distance sg (LogsignatureDiscrepancy.depth self)
                         (LogsignatureDiscrepancy.p self) l c d1 d2]]).
Proof.
  destruct self as [ic depth p it pm mt lin ls]. cbn. intros -> -> H1 H2 Hl Hc HD.
  unfold LogsignatureDiscrepancy.logsignature_distance.
  cbn [LogsignatureDiscrepancy.pseudometric
       LogsignatureDiscrepancy.logsignature LogsignatureDiscrepancy.p].
  run_step ltac:(eapply (single_batch_run _ _ []); [find_object|done..]).
  run_step ltac:(eapply (single_batch_run _ _ []); [find_object|done..]).
  run_step ltac:(eapply call1_run; [find_object|reflexivity]).
  run_step ltac:(eapply call1_run; [find_object|reflexivity]).
  cbn [data]. set (x1 := concat _). set (x2 := concat _).
  set (D := logsignature_channels sg c depth) in *.
  run_step ltac:(eapply (restore_batch_run _ _ []); [find_object|done|lia]).
  run_step ltac:(eapply (restore_batch_run _ _ []); [find_object|done|lia]).
  cbn [foldM app].
  run_step ltac:(reflexivity).
  run_step ltac:(reflexivity).
  run_step ltac:(eapply size_of_run; [find_object|apply (size_last [])]).
  run_step ltac:(eapply call1_run;
                 [find_object|apply (expand_same [D]); repeat constructor; lia]).
  run_step ltac:(eapply size_of_run; [find_object|apply (size_last [])]).
  run_step ltac:(eapply call1_run;
                 [find_object|apply (expand_same [D]); repeat constructor; lia]).
  run_step ltac:(eapply call2_run; [find_object|find_object|apply pointwise_same]).
  run_step ltac:(reflexivity).
  erewrite call1_run; [|find_object|by apply (norm_last p [])].
  tidy_store. by eexists [_; _; _; _; _; _; _; _; _].
Qed.

Lemma forward_of_unbatched_paths
    (sg : signatory_module) (self : LogsignatureDiscrepancy.t) (times path1 path2 : loc)
    (h : heap) (l c : Z) (dt d1 d2 : list R) :
  LogsignatureDiscrepancy.logsignature self
    = Logsignature sg (LogsignatureDiscrepancy.depth self) ->
  LogsignatureDiscrepancy.pseudometric self = false ->
  h !! times = Some (Tensor [l] dt) ->
  h !! path1 = Some (Tensor [l; c] d1) -> h !! path2 = Some (Tensor [l; c] d2) ->
  0 < l -> 0 < c ->
  0 < logsignature_channels sg
        (if LogsignatureDiscrepancy.include_time self then 1 + c else c)
        (LogsignatureDiscrepancy.depth self) ->
  exists created,
    LogsignatureDiscrepancy.forward self times path1 path2 h
      = (inr (length h + length created)%nat,
         h ++ created ++
           [Tensor [] [if LogsignatureDiscrepancy.include_time self
                       then unbatched_distance sg (LogsignatureDiscrepancy.depth self)
                              (LogsignatureDiscrepancy.p self) l (1 + c)
                              (points_with_time l c dt d1) (points_with_time l c dt d2)
                       else unbatched_distance sg (LogsignatureDiscrepancy.depth self)
                              (LogsignatureDiscrepancy.p self) l c d1 d2]]).
Proof.
  intros Hls Hpm Ht H1 H2 Hl Hc HD.
  unfold LogsignatureDiscrepancy.forward.
  run_step ltac:(apply load_run; find_object).
  run_step ltac:(apply load_run; find_object).
  change (batch_dims (Tensor [l; c] d1)) with (@nil Z).
  change (batch_dims (Tensor [l; c] d2)) with (@nil Z).
  destruct (LogsignatureDiscrepancy.include_time self).
  - unfold LogsignatureDiscrepancy.append_time.
    erewrite bind_run; cycle 1.
    { run_step ltac:(eapply call1_run; [find_object|apply unsqueeze_last]).
      cbn [foldM]. run_step ltac:(reflexivity). run_step ltac:(reflexivity).
      run_step ltac:(eapply call2_run;
                     [find_object|find_object|by apply (cat_channels [l] 1 c)]).
      run_step ltac:(eapply call2_run;
                     [find_object|find_object|by apply (cat_channels [l] 1 c)]).
      reflexivity. }
    cbn [app].
    match goal with
    | |- context [LogsignatureDiscrepancy.logsignature_distance self [] [] ?q1 ?q2 ?hh] =>
        destruct (distance_of_unbatched_paths sg self q1 q2 hh l (1 + c)
                    (points_with_time l c dt d1) (points_with_time l c dt d2))
          as [created Hrun];
          [exact Hls|exact Hpm|apply lookup_created; reflexivity
          |apply lookup_created; reflexivity|exact Hl|lia|exact HD|]
    end.
    rewrite Hrun. tidy_store. eexists (_ :: _ :: _ :: created).
    cbn [length app]. f_equal. f_equal. lia.
  - run_step ltac:(reflexivity).
    by apply (distance_of_unbatched_paths sg self path1 path2 h l c d1 d2).
Qed.

(** Under the identity pseudometric [forward] gives two unbatched paths the
    same number in either order, with or without the time channel and for
    every [p]. *)
Theorem forward_is_symmetric_for_unbatched_paths
    (sg : signatory_module) (self : LogsignatureDiscrepancy.t) (times path1 path2 : loc)
    (h : heap) (l c : Z) (dt d1 d2 : list R) :
  LogsignatureDiscrepancy.logsignature self
    = Logsignature sg (LogsignatureDiscrepancy.depth self) ->
  LogsignatureDiscrepancy.pseudometric self = false ->
  h !! times = Some (Tensor [l] dt) ->
  h !! path1 = Some (Tensor [l; c] d1) -> h !! path2 = Some (Tensor [l; c] d2) ->
  1 < l -> 0 < c ->
  0 < LogsignatureDiscrepancy.depth self ->
  0 < logsignature_channels sg
        (if LogsignatureDiscrepancy.include_time self then 1 + c else c)
        (LogsignatureDiscrepancy.depth self) ->
  exists created12 created21 v,
    LogsignatureDiscrepancy.forward self times path1 path2 h
      = (inr (length h + length created12)%nat, h ++ created12 ++ [Tensor [] [v]]) /\
    LogsignatureDiscrepancy.forward self times path2 path1 h
      = (inr (length h + length created21)%nat, h ++ created21 ++ [Tensor [] [v]]).
Proof.
  intros Hls Hpm Ht H1 H2 Hl Hc _ HD.
  destruct (forward_of_unbatched_paths sg self times path1 path2 h l c dt d1 d2)
    as [created12 H12]; try done; [lia|].
  destruct (forward_of_unbatched_paths sg self times path2 path1 h l c dt d2 d1)
    as [created21 H21]; try done; [lia|].
  eexists created12, created21, _. split; [exact H12|].
  rewrite H21.
  destruct (LogsignatureDiscrepancy.include_time self); by rewrite unbatched_distance_sym.
Qed.

Lemma forward_is_symmetric_for_a_ramp_and_a_constant :
  exists created12 created21 v,
    LogsignatureDiscrepancy.forward
      (LogsignatureDiscrepancy.Build 1 1 (PFin 2) true false "general" None
         (Logsignature depth_one_signatory 1))
      0%nat 1%nat 2%nat ramp_store
      = (inr (3 + length created12)%nat, ramp_store ++ created12 ++ [Tensor [] [v]]) /\
    LogsignatureDiscrepancy.forward
      (LogsignatureDiscrepancy.Build 1 1 (PFin 2) true false "general" None
         (Logsignature depth_one_signatory 1))
      0%nat 2%nat 1%nat ramp_store
      = (inr (3 + length created21)%nat, ramp_store ++ created21 ++ [Tensor [] [v]]).
Proof.
  apply (forward_is_symmetric_for_unbatched_paths depth_one_signatory
           (LogsignatureDiscrepancy.Build 1 1 (PFin 2) true false "general" None
              (Logsignature depth_one_signatory 1))
           0%nat 1%nat 2%nat ramp_store 3 1 [0%R; 1%R; 2%R] [0%R; 1%R; 2%R]
           (data (zeros [3; 1])));
    try reflexivity; try lia.
Defined.

(** ** Where the time channel goes *)

Lemma chunks_of_points_with_time (n k : nat) :
  forall dt d : list R,
    length dt = n -> length d = (n * k)%nat ->
    chunks n (S k) (concat (zip_with app (chunks n 1 dt) (chunks n k d)))
    = zip_with cons dt (chunks n k d).
Proof.
  induction n as [|n IH]; intros dt d Hdt Hd; [by destruct dt|].
  destruct dt as [|x dt]; [done|]. injection Hdt as Hdt.
  cbn [chunks zip_with concat firstn skipn app].
  assert (Hk : length (take k d) = k) by (rewrite length_take; lia).
  f_equal.
  - f_equal. by rewrite take_app_length'.
  - rewrite drop_app_length' by done. apply IH; [done|].
    rewrite length_drop. lia.
Qed.

(** With [include_time=True] the time is the first channel of the paths
    handed to [signatory]: for unbatched paths of [l] points and [c]
    channels on a time grid of [l] times, [torch.cat] at lines 188-189 gives
    every point [c + 1] channels, the time of the point followed by the
    channels the point had. *)
Theorem append_time_puts_the_time_in_front
    (times path1 path2 : loc) (h : heap) (l c : Z) (dt d1 d2 : list R) :
  h !! times = Some (Tensor [l] dt) ->
  h !! path1 = Some (Tensor [l; c] d1) ->
  h !! path2 = Some (Tensor [l; c] d2) ->
  0 < l -> 0 <= c ->
  length dt = Z.to_nat l ->
  length d1 = Z.to_nat (l * c) -> length d2 = Z.to_nat (l * c) ->
  exists created q1 q2 e1 e2,
    LogsignatureDiscrepancy.append_time times path1 path2 [] [] h
      = (inr (q1, q2), h ++ created) /\
    (h ++ created) !! q1 = Some (Tensor [l; 1 + c] e1) /\
    (h ++ created) !! q2 = Some (Tensor [l; 1 + c] e2) /\
    chunks (Z.to_nat l) (Z.to_nat (1 + c)) e1
      = zip_with cons dt (chunks (Z.to_nat l) (Z.to_nat c) d1) /\
    chunks (Z.to_nat l) (Z.to_nat (1 + c)) e2
      = zip_with cons dt (chunks (Z.to_nat l) (Z.to_nat c) d2).
Proof.
  intros Ht H1 H2 Hl Hc Hdt Hd1 Hd2.
  assert (Hn : Z.to_nat (numel [l]) = Z.to_nat l) by (cbn; f_equal; lia).
  assert (Hlc : Z.to_nat (l * c) = (Z.to_nat l * Z.to_nat c)%nat) by lia.
  assert (Hc1 : Z.to_nat (1 + c) = S (Z.to_nat c)) by lia.
  eexists [_; _; _], _, _, (points_with_time l c dt d1), (points_with_time l c dt d2).
  split; [|split; [|split; [|split]]]; cycle 3.
  - unfold points_with_time. rewrite Hn, Hc1.
    apply chunks_of_points_with_time; [done|by rewrite Hd1].
  - unfold points_with_time. rewrite Hn, Hc1.
    apply chunks_of_points_with_time; [done|by rewrite Hd2].
  - unfold LogsignatureDiscrepancy.append_time.
    run_step ltac:(eapply call1_run; [find_object|apply unsqueeze_last]).
    cbn [foldM]. run_step ltac:(reflexivity). run_step ltac:(reflexivity).
    run_step ltac:(eapply call2_run;
                   [find_object|find_object|by apply (cat_channels [l] 1 c)]).
    run_step ltac:(eapply call2_run;
                   [find_object|find_object|by apply (cat_channels [l] 1 c)]).
    tidy_store. reflexivity.
  - apply lookup_created. reflexivity.
  - apply lookup_created. reflexivity.
Qed.

Lemma append_time_on_a_ramp :
  exists created q1 q2 e1 e2,
    LogsignatureDiscrepancy.append_time 0%nat 1%nat 2%nat [] [] ramp_store
      = (inr (q1, q2), ramp_store ++ created) /\
    (ramp_store ++ created) !! q1 = Some (Tensor [3; 1 + 1] e1) /\
    (ramp_store ++ created) !! q2 = Some (Tensor [3; 1 + 1] e2) /\
    chunks (Z.to_nat 3) (Z.to_nat (1 + 1)) e1
      = zip_with cons [0%R; 1%R; 2%R] (chunks (Z.to_nat 3) (Z.to_nat 1) [0%R; 1%R; 2%R]) /\
    chunks (Z.to_nat 3) (Z.to_nat (1 + 1)) e2
      = zip_with cons [0%R; 1%R; 2%R] (chunks (Z.to_nat 3) (Z.to_nat 1) (data (zeros [3; 1]))).
Proof.
  apply (append_time_puts_the_time_in_front 0%nat 1%nat 2%nat ramp_store 3 1
           [0%R; 1%R; 2%R] [0%R; 1%R; 2%R] (data (zeros [3; 1])));
    try reflexivity; lia.
Defined.

(** ** The constructors *)

(** With [signatory] imported and a recognised [metric_type], the
    constructor of [LogsignatureDiscrepancy] creates nothing and leaves
    [self.linear] at [None] for [pseudometric=False]; for
    [pseudometric=True] it creates the parameter with the dimension
    [logsignature_channels(in_channels + 1, depth)] of the logsignature when
    the time channel is included and [logsignature_channels(in_channels,
    depth)] when it is not: a square matrix for ['general'], a vector for
    ['diagonal']. *)
Theorem the_parameter_has_the_dimension_of_the_logsignature
    (sg : signatory_module) (noise : nat -> nat -> R) (in_channels depth : Z) (p : pnorm)
    (include_time pseudometric : bool) (metric_type : string) (h : heap) (D : Z) :
  valid_metric_type metric_type = true ->
  0 < in_channels -> 0 < depth ->
  D = logsignature_channels sg (if include_time then in_channels + 1 else in_channels) depth ->
  0 <= D ->
  if pseudometric then
    exists a,
      shape a = (if (metric_type =? "general")%string then [D; D] else [D]) /\
      length (data a) = Z.to_nat (numel (shape a)) /\
      LogsignatureDiscrepancy.__init__ (Some sg) noise in_channels depth p include_time
          true metric_type h
        = (inr (LogsignatureDiscrepancy.Build in_channels depth p include_time true
                  metric_type (Some (S (length h))) (Logsignature sg depth)),
           h ++ [a; a])
  else
    LogsignatureDiscrepancy.__init__ (Some sg) noise in_channels depth p include_time
        false metric_type h
      = (inr (LogsignatureDiscrepancy.Build in_channels depth p include_time false
                metric_type None (Logsignature sg depth)),
         h).
Proof.
  intros Hm _ _ -> HD. unfold LogsignatureDiscrepancy.__init__.
  destruct pseudometric; rewrite assert_true_runs by done; [|reflexivity].
  set (D := logsignature_channels sg _ depth) in *.
  assert (Hrun : forall sizes, forallb (Z.leb 0) sizes = true ->
            (linear ← fresh_tensor (noise 0%nat) sizes;
             init_ (noise 1%nat) linear;; q ← nn_Parameter linear; mret (Some q)) h
            = (inr (Some (S (length h))),
               h ++ [Tensor sizes (map (noise 1%nat) (seq 0 (Z.to_nat (numel sizes))));
                     Tensor sizes (map (noise 1%nat) (seq 0 (Z.to_nat (numel sizes))))])).
  { intros sizes E.
    erewrite bind_run by (by apply fresh_tensor_run).
    erewrite bind_run by apply init_run.
    erewrite bind_run by apply nn_Parameter_run.
    cbn [shape data]. by rewrite length_map, length_seq. }
  assert (H1 : forallb (Z.leb 0) [D] = true).
  { cbn. rewrite andb_true_r. by apply Z.leb_le. }
  assert (H2 : forallb (Z.leb 0) [D; D] = true).
  { cbn. rewrite andb_true_r. apply andb_true_iff. split; by apply Z.leb_le. }
  destruct (metric_type =? "general")%string.
  - eexists (Tensor [D; D] _). split; [reflexivity|]. split; cycle 1.
    + erewrite bind_run by (by apply Hrun). reflexivity.
    + cbn [shape data]. by rewrite length_map, length_seq.
  - eexists (Tensor [D] _). split; [reflexivity|]. split; cycle 1.
    + erewrite bind_run by (by apply Hrun). reflexivity.
    + cbn [shape data]. by rewrite length_map, length_seq.
Qed.

Lemma the_parameter_of_three_channels_with_time :
  exists a,
    shape a = [4; 4] /\
    length (data a) = Z.to_nat (numel (shape a)) /\
    LogsignatureDiscrepancy.__init__ (Some depth_one_signatory) constant_noise 3 1 (PFin 2)
        true true "general" []
      = (inr (LogsignatureDiscrepancy.Build 3 1 (PFin 2) true true "general" (Some 1%nat)
                (Logsignature depth_one_signatory 1)),
         [] ++ [a; a]).
Proof.
  exact (the_parameter_has_the_dimension_of_the_logsignature depth_one_signatory
           constant_noise 3 1 (PFin 2) true true "general" [] 4
           eq_refl ltac:(lia) ltac:(lia) eq_refl ltac:(lia)).
Defined.

(** The constructor of [L2Discrepancy] looks at [in_channels] only to create
    the parameter: with [pseudometric=False] every value is accepted, also a
    negative one, and with [pseudometric=True] a negative value makes
    [torch.empty] raise, after the assertion and before anything is
    created. *)
Theorem L2_constructor_and_a_negative_channel_count
    (noise : nat -> nat -> R) (in_channels : Z) (metric_type : string) (h : heap) :
  valid_metric_type metric_type = true ->
  (exists a,
     shape a = [] /\
     L2Discrepancy.__init__ noise in_channels false metric_type h
       = (inr (L2Discrepancy.Build in_channels false metric_type (S (length h))),
          h ++ [a; a])) /\
  (in_channels < 0 ->
   L2Discrepancy.__init__ noise in_channels true metric_type h = (inl RuntimeError, h)).
Proof.
  intros Hm. unfold L2Discrepancy.__init__. rewrite !assert_true_runs by done. split.
  - eexists (Tensor [] _). split; [reflexivity|].
    erewrite bind_run by apply empty_parameter_run. reflexivity.
  - intros Hneg.
    assert (H1 : forallb (Z.leb 0) [in_channels] = false).
    { cbn. rewrite andb_true_r. apply Z.leb_gt. lia. }
    assert (H2 : forallb (Z.leb 0) [in_channels; in_channels] = false).
    { cbn. apply andb_false_iff. left. apply Z.leb_gt. lia. }
    apply bind_raise.
    destruct (metric_type =? "general")%string;
      apply bind_raise; unfold fresh_tensor; by rewrite ?H1, ?H2.
Qed.

Lemma L2_constructor_with_minus_three_channels :
  (exists a,
     shape a = [] /\
     L2Discrepancy.__init__ constant_noise (-3) false "general" []
       = (inr (L2Discrepancy.Build (-3) false "general" 1%nat), [] ++ [a; a])) /\
  (-3 < 0 ->
   L2Discrepancy.__init__ constant_noise (-3) true "general" [] = (inl RuntimeError, [])).
Proof.
  exact (L2_constructor_and_a_negative_channel_count constant_noise (-3) "general" []
           eq_refl).
Defined.

(** ** Construction followed by a call *)

(** An instance constructed for paths of [c] channels can be called on such
    paths: whether or not the time channel is included and for the identity
    and both learnt pseudometrics, the parameter the constructor made fits
    the logsignatures [forward] computes, and the call returns a tensor of
    shape [B1 ++ B2].  With the time channel the batch shapes are to read
    the same in both directions; without it each path has at most one batch
    dimension, which [view] merges whatever the strides of the path. *)
Theorem a_constructed_instance_accepts_its_paths
    (sg : signatory_module) (noise : nat -> nat -> R) (depth : Z) (p : pnorm)
    (include_time pseudometric : bool) (metric_type : string)
    (times path1 path2 : loc) (h : heap) (B1 B2 : list Z) (l c : Z) (dt d1 d2 : list R) :
  valid_metric_type metric_type = true ->
  h !! times = Some (Tensor [l] dt) ->
  h !! path1 = Some (Tensor (B1 ++ [l; c]) d1) ->
  h !! path2 = Some (Tensor (B2 ++ [l; c]) d2) ->
  Forall (Z.lt 0) B1 -> Forall (Z.lt 0) B2 -> 1 < l -> 0 < c -> 0 < depth ->
  0 < logsignature_channels sg (if include_time then c + 1 else c) depth ->
  (include_time = false /\ (length B1 <= 1)%nat /\ (length B2 <= 1)%nat) \/
  (include_time = true /\ rev B1 = B1 /\ rev B2 = B2) ->
  exists created r,
    shape r = B1 ++ B2 /\
    (self ← LogsignatureDiscrepancy.__init__ (Some sg) noise c depth p include_time
              pseudometric metric_type;
     LogsignatureDiscrepancy.forward self times path1 path2) h
      = (inr (length h + length created)%nat, h ++ created ++ [r]).
Proof.
  intros Hm Ht H1 H2 HB1 HB2 Hl Hc _ HD Hdom.
  assert (Hok : include_time = false \/ (rev B1 = B1 /\ rev B2 = B2))
    by (destruct Hdom as [[? _]|[_ ?]]; [by left|by right]).
  apply positive_dims in HB1, HB2.
  apply (construct_then_forward_shape sg noise depth p include_time pseudometric
           metric_type times path1 path2 h B1 B2 l c dt d1 d2); try done. lia.
Qed.

Lemma construct_then_forward_of_three_paths_and_four :
  exists created r,
    shape r = [3] ++ [4] /\
    (self ← LogsignatureDiscrepancy.__init__ (Some depth_one_signatory) constant_noise
              1 1 (PFin 2) true true "diagonal";
     LogsignatureDiscrepancy.forward self 0%nat 1%nat 2%nat)
      [Tensor [2] [0%R; 1%R]; zeros [3; 2; 1]; zeros [4; 2; 1]]
      = (inr (3 + length created)%nat,
         [Tensor [2] [0%R; 1%R]; zeros [3; 2; 1]; zeros [4; 2; 1]] ++ created ++ [r]).
Proof.
  apply (a_constructed_instance_accepts_its_paths depth_one_signatory constant_noise 1
           (PFin 2) true true "diagonal" 0%nat 1%nat 2%nat
           [Tensor [2] [0%R; 1%R]; zeros [3; 2; 1]; zeros [4; 2; 1]]
           [3] [4] 2 1 [0%R; 1%R] (data (zeros [3; 2; 1])) (data (zeros [4; 2; 1])));
    try reflexivity; try (repeat constructor; lia); try lia.
Defined.

(** ** The text of [extra_repr] *)

Lemma comma_splits (s1 : string) :
  forall s2 r1 r2 : string,
    no_comma s1 -> no_comma s2 ->
    (s1 ++ String "," r1)%string = (s2 ++ String "," r2)%string ->
    s1 = s2 /\ r1 = r2.
Proof.
  induction s1 as [|c s1 IH]; intros [|c' s2] r1 r2 H1 H2 E; cbn in *.
  - by injection E as ->.
  - injection E as <- _. by destruct H2.
  - injection E as -> _. by destruct H1.
  - injection E as -> E. destruct H1 as [_ H1], H2 as [_ H2].
    destruct (IH s2 r1 r2 H1 H2 E) as [-> ->]. done.
Qed.

Lemma str_int_no_comma (n : Z) : no_comma (str_int n).
Proof.
  assert (Hu : forall d, no_comma (NilEmpty.string_of_uint d))
    by (induction d; cbn; (done || (split; [discriminate|done]))).
  assert (Hz : forall d, no_comma (NilZero.string_of_uint d)).
  { intros d. destruct d; try apply (Hu (_ _)). cbn. by split. }
  unfold str_int. destruct (Z.to_int n); cbn; [apply Hz|].
  split; [discriminate|apply Hz].
Qed.

Lemma str_int_inj (n m : Z) : str_int n = str_int m -> n = m.
Proof.
  assert (Hnn : forall z, Z.to_int z <> Decimal.Pos Decimal.Nil /\
                          Z.to_int z <> Decimal.Neg Decimal.Nil).
  { intros [|q|q]; cbn; split; try discriminate;
      intros [= E]; by apply Unsigned.to_uint_nonnil in E. }
  intros E. apply DecimalZ.to_int_inj.
  apply (f_equal NilZero.int_of_string) in E.
  unfold str_int in E.
  rewrite !NilZero.isi in E by apply Hnn. by injection E.
Qed.

(** [extra_repr] of [L2Discrepancy] shows [in_channels] and [pseudometric]
    and nothing else: two instances have the same text exactly when they
    agree on these two, whatever their [metric_type] and their parameter. *)
Theorem L2_extra_repr_shows_in_channels_and_pseudometric (a b : L2Discrepancy.t) :
  L2Discrepancy.extra_repr a = L2Discrepancy.extra_repr b <->
  L2Discrepancy.in_channels a = L2Discrepancy.in_channels b /\
  L2Discrepancy.pseudometric a = L2Discrepancy.pseudometric b.
Proof.
  unfold L2Discrepancy.extra_repr. split.
  - intros E. cbn in E. injection E as E.
    apply comma_splits in E as [En Eb]; try apply str_int_no_comma.
    split; [by apply str_int_inj|].
    by destruct (L2Discrepancy.pseudometric a), (L2Discrepancy.pseudometric b).
  - by intros [-> ->].
Qed.

(** * Further properties of the extractors *)

Module ExtractorsFacts.
Import Extractors.

Lemma dict_get_None (k : string) (d : dict) :
  dict_get k d = None <-> k ∉ map fst d.
Proof.
  induction d as [|[k' v] d IH]; cbn.
  - split; [intros _; apply not_elem_of_nil|done].
  - rewrite not_elem_of_cons. destruct (String.eqb_spec k k') as [->|N].
    + split; [done|]. by intros [? _].
    + rewrite IH. tauto.
Qed.

Lemma dict_del_None (k : string) (d : dict) :
  dict_del k d = None <-> dict_get k d = None.
Proof.
  induction d as [|[k' v] d IH]; cbn; [done|].
  destruct (k =? k')%string; [done|].
  rewrite <- IH. by destruct (dict_del k d).
Qed.

Lemma dict_get_del_ne (k k' : string) (d d' : dict) :
  dict_del k d = Some d' -> k' <> k -> dict_get k' d' = dict_get k' d.
Proof.
  revert d'. induction d as [|[k0 v] d IH]; intros d' Hdel N; cbn in *; [done|].
  destruct (String.eqb_spec k k0) as [->|N0].
  - injection Hdel as <-. by destruct (String.eqb_spec k' k0).
  - destruct (dict_del k d) as [d0|]; [|done]. injection Hdel as <-. cbn.
    destruct (k' =? k0)%string; [done|]. by apply IH.
Qed.

Lemma dict_get_del_eq (k : string) (d d' : dict) :
  NoDup (map fst d) -> dict_del k d = Some d' -> dict_get k d' = None.
Proof.
  revert d'. induction d as [|[k0 v] d IH]; intros d' Hnd Hdel; cbn in *; [done|].
  apply NoDup_cons in Hnd as [Hk0 Hnd].
  destruct (String.eqb_spec k k0) as [->|N0].
  - injection Hdel as <-. by apply dict_get_None.
  - destruct (dict_del k d) as [d0|]; [|done]. injection Hdel as <-. cbn.
    destruct (String.eqb_spec k k0); [done|]. by apply IH.
Qed.

Lemma keys_del (k : string) (d d' : dict) :
  NoDup (map fst d) -> dict_del k d = Some d' ->
  map fst d' = remove string_dec k (map fst d).
Proof.
  revert d'. induction d as [|[k0 v] d IH]; intros d' Hnd Hdel; cbn in *; [done|].
  apply NoDup_cons in Hnd as [Hk0 Hnd].
  destruct (String.eqb_spec k k0) as [->|N0].
  - injection Hdel as <-. destruct (string_dec k0 k0); [|done].
    symmetry. apply notin_remove. by rewrite <- list_elem_of_In.
  - destruct (dict_del k d) as [d0|]; [|done]. injection Hdel as <-.
    destruct (string_dec k k0); [done|]. cbn. f_equal. by apply IH.
Qed.

Lemma dict_get_set_eq (k : string) (v : value) (d : dict) :
  dict_get k (dict_set k v d) = Some v.
Proof.
  induction d as [|[k0 v0] d IH]; cbn.
  - by rewrite String.eqb_refl.
  - destruct (String.eqb_spec k k0) as [->|N]; cbn.
    + by rewrite String.eqb_refl.
    + by destruct (String.eqb_spec k k0).
Qed.

Lemma dict_get_set_ne (k k' : string) (v : value) (d : dict) :
  k' <> k -> dict_get k' (dict_set k v d) = dict_get k' d.
Proof.
  intros N. induction d as [|[k0 v0] d IH]; cbn.
  - by destruct (String.eqb_spec k' k).
  - destruct (String.eqb_spec k k0) as [->|N0]; cbn.
    + by destruct (String.eqb_spec k' k0).
    + by rewrite IH.
Qed.

Lemma keys_set_present (k : string) (v : value) (d : dict) :
  dict_get k d <> None -> map fst (dict_set k v d) = map fst d.
Proof.
  induction d as [|[k0 v0] d IH]; cbn; [done|].
  destruct (String.eqb_spec k k0) as [->|N0]; cbn; [done|].
  intros H. f_equal. by apply IH.
Qed.

Lemma dict_set_absent (k : string) (v : value) (d : dict) :
  dict_get k d = None -> dict_set k v d = d ++ [(k, v)].
Proof.
  induction d as [|[k0 v0] d IH]; cbn; [done|].
  destruct (k =? k0)%string; [done|]. intros H. f_equal. by apply IH.
Qed.

Lemma values_of_every_entry (its : dict) :
  forall built out : dict,
    NoDup (map fst built ++ map fst its) ->
    Forall2 (fun kv kv' => fst kv' = fst kv /\ getitem (snd kv) "values" = inr (snd kv'))
            its out ->
    values_of its built = inr (built ++ out).
Proof.
  induction its as [|[k v] its IH]; intros built out Hnd Hall.
  - apply Forall2_nil_inv_l in Hall as ->. cbn. by rewrite app_nil_r.
  - apply Forall2_cons_inv_l in Hall as ([k' x] & out' & [Hk Hx] & Hall & ->).
    cbn in Hk, Hx. subst k'. cbn [values_of]. rewrite Hx.
    assert (Hk : dict_get k built = None).
    { apply dict_get_None. apply NoDup_app in Hnd as (_ & Hdis & _).
      intros Hin. apply (Hdis _ Hin). cbn. left. }
    rewrite (dict_set_absent _ _ _ Hk).
    rewrite (IH (built ++ [(k, x)]) out'); [by rewrite <- app_assoc| |done].
    rewrite map_app. cbn. by rewrite <- app_assoc.
Qed.

Lemma values_of_a_bad_entry (its : dict) :
  forall built : dict,
    Exists (fun kv => forall x, getitem (snd kv) "values" <> inr x) its ->
    exists e, values_of its built = inl e /\ (e = KeyError \/ e = TypeError).
Proof.
  induction its as [|[k v] its IH]; intros built Hex.
  - by apply Exists_nil in Hex.
  - cbn [values_of]. destruct (getitem v "values") as [e|x] eqn:E.
    + exists e. split; [done|]. unfold getitem in E.
      destruct v; try (injection E as <-; by right).
      destruct (dict_get "values" d); [done|]. injection E as <-. by left.
    + apply Exists_cons in Hex as [Hbad|Hex]; [by destruct (Hbad x)|]. by apply IH.
Qed.

Section ExperimentToFrame.

Variable load_json : string -> error + value.
Variable os_path_join : list string -> string.

(** [get_config] hands back the dict of [config.json] without its ['seed']:
    the other keys keep their order and, ['metrics'] apart, their values;
    the value of ['metrics'], a dict, is replaced by its keys. *)
Theorem get_config_drops_the_seed_and_lists_the_metrics
    (self : t) (run_num : string) (config : dict) :
  load_json (os_path_join [ex_dir self; run_num; "config.json"%string]) = inr (VDict config) ->
  NoDup (map fst config) ->
  dict_get "seed" config <> None ->
  (forall m, dict_get "metrics" config = Some m -> exists md, m = VDict md) ->
  exists config',
    get_config load_json os_path_join self run_num = inr (VDict config') /\
    map fst config' = remove string_dec "seed"%string (map fst config) /\
    dict_get "seed" config' = None /\
    (forall k, k <> "seed"%string -> k <> "metrics"%string ->
               dict_get k config' = dict_get k config) /\
    (forall md, dict_get "metrics" config = Some (VDict md) ->
                dict_get "metrics" config' = Some (VKeys (map fst md))) /\
    (dict_get "metrics" config = None -> dict_get "metrics" config' = None).
Proof.
  intros Hload Hnd Hseed Hm. unfold get_config. rewrite Hload. cbn [delitem].
  destruct (dict_del "seed" config) as [c1|] eqn:Hdel;
    [|by apply dict_del_None in Hdel].
  assert (Hother : forall k, k <> "seed"%string -> dict_get k c1 = dict_get k config)
    by (intros k N; by apply (dict_get_del_ne "seed")).
  assert (Hgone : dict_get "seed" c1 = None) by (by apply (dict_get_del_eq _ config)).
  assert (Hkeys : map fst c1 = remove string_dec "seed"%string (map fst config))
    by (by apply keys_del).
  rewrite (Hother "metrics"%string) by done.
  destruct (dict_get "metrics" config) as [m|] eqn:Hmet.
  - destruct (Hm m eq_refl) as [md ->]. cbn [keys].
    eexists. split; [reflexivity|]. split; [|split; [|split; [|split]]].
    + rewrite keys_set_present; [done|]. rewrite Hother by done. by rewrite Hmet.
    + by rewrite dict_get_set_ne.
    + intros k N1 N2. rewrite dict_get_set_ne by done. by apply Hother.
    + intros md' [= <-]. apply dict_get_set_eq.
    + done.
  - exists c1. split; [done|]. split; [done|]. split; [done|].
    split; [|split]; [by intros k N _; apply Hother|done|].
    intros _. by rewrite Hother.
Qed.

(** What [get_config] raises: a [TypeError] when [config.json] holds no
    dict, a [KeyError] when the dict has no ['seed'], whatever it has under
    ['metrics'], and an [AttributeError] when there is a ['seed'] and the
    value of ['metrics'] is not a dict. *)
Theorem get_config_raises
    (self : t) (run_num : string) (config : value) :
  load_json (os_path_join [ex_dir self; run_num; "config.json"%string]) = inr config ->
  match config with
  | VDict d =>
      (dict_get "seed" d = None ->
       get_config load_json os_path_join self run_num = inl KeyError) /\
      (dict_get "seed" d <> None ->
       forall m, dict_get "metrics" d = Some m -> (forall md, m <> VDict md) ->
       get_config load_json os_path_join self run_num = inl AttributeError)
  | _ => get_config load_json os_path_join self run_num = inl TypeError
  end.
Proof.
  intros Hload. unfold get_config. rewrite Hload.
  destruct config as [| | | | | |d|]; try reflexivity. cbn [delitem]. split.
  - intros Hseed. apply dict_del_None in Hseed. by rewrite Hseed.
  - intros Hseed m Hmet Hm.
    destruct (dict_del "seed" d) as [c1|] eqn:Hdel;
      [|by apply dict_del_None in Hdel].
    rewrite (dict_get_del_ne "seed" "metrics" d c1), Hmet by done.
    destruct m; try reflexivity. by destruct (Hm d0).
Qed.

(** [get_metrics] keeps of every entry of [metrics.json] what it has under
    ['values']: when every entry is a dict with that key, the result has
    the same keys in the same order, each with the ['values'] of its
    entry. *)
Theorem get_metrics_keeps_the_values
    (self : t) (run_num : string) (metrics : dict) :
  load_json (os_path_join [ex_dir self; run_num; "metrics.json"%string])
    = inr (VDict metrics) ->
  NoDup (map fst metrics) ->
  Forall (fun kv => exists x, getitem (snd kv) "values" = inr x) metrics ->
  exists metrics',
    get_metrics load_json os_path_join self run_num = inr (VDict metrics') /\
    Forall2 (fun kv kv' => fst kv' = fst kv /\ getitem (snd kv) "values" = inr (snd kv'))
            metrics metrics'.
Proof.
  intros Hload Hnd Hall. unfold get_metrics. rewrite Hload. cbn [items].
  assert (Hout : exists out,
            Forall2 (fun kv kv' => fst kv' = fst kv /\
                                   getitem (snd kv) "values" = inr (snd kv')) metrics out).
  { clear Hload Hnd. induction Hall as [|[k v] its [x Hx] _ [out IH]].
    - by exists [].
    - exists ((k, x) :: out). by constructor. }
  destruct Hout as [out Hout]. exists out. split; [|done].
  by rewrite (values_of_every_entry metrics [] out).
Qed.

(** What [get_metrics] raises: an [AttributeError] when [metrics.json]
    holds no dict, and a [KeyError] or a [TypeError] when one of the
    entries is not a dict with the key ['values']. *)
Theorem get_metrics_raises
    (self : t) (run_num : string) (metrics : value) :
  load_json (os_path_join [ex_dir self; run_num; "metrics.json"%string]) = inr metrics ->
  match metrics with
  | VDict d =>
      Exists (fun kv => forall x, getitem (snd kv) "values" <> inr x) d ->
      exists e, get_metrics load_json os_path_join self run_num = inl e /\
                (e = KeyError \/ e = TypeError)
  | _ => get_metrics load_json os_path_join self run_num = inl AttributeError
  end.
Proof.
  intros Hload. unfold get_metrics. rewrite Hload.
  destruct metrics as [| | | | | |d|]; try reflexivity. cbn [items].
  intros Hex. destruct (values_of_a_bad_entry d [] Hex) as (e & -> & He). by exists e.
Qed.

End ExperimentToFrame.


Lemma get_config_of_a_run :
  exists config',
    get_config (folder_with (VDict run_config) (VDict run_metrics)) (String.concat "/")
               (Build "runs") "1" = inr (VDict config') /\
    map fst config' = remove string_dec "seed"%string (map fst run_config) /\
    dict_get "seed" config' = None /\
    (forall k, k <> "seed"%string -> k <> "metrics"%string ->
               dict_get k config' = dict_get k run_config) /\
    (forall md, dict_get "metrics" run_config = Some (VDict md) ->
                dict_get "metrics" config' = Some (VKeys (map fst md))) /\
    (dict_get "metrics" run_config = None -> dict_get "metrics" config' = None).
Proof.
  apply (get_config_drops_the_seed_and_lists_the_metrics
           (folder_with (VDict run_config) (VDict run_metrics)) (String.concat "/")
           (Build "runs") "1" run_config).
  - reflexivity.
  - repeat (apply NoDup_cons_2;
            [intros H; repeat (apply elem_of_cons in H as [H|H]; [discriminate H|]);
             by apply elem_of_nil in H|]).
    apply NoDup_nil_2.
  - discriminate.
  - intros m [= <-]. by eexists.
Defined.

Lemma get_config_of_runs_without_seed_or_metrics_dict :
  get_config (folder_with (VDict [("lr"%string, VFloat 1); ("metrics"%string, VInt 3)])
                          (VDict run_metrics))
             (String.concat "/") (Build "runs") "1" = inl KeyError /\
  get_config (folder_with (VDict [("seed"%string, VInt 7); ("metrics"%string, VInt 3)])
                          (VDict run_metrics))
             (String.concat "/") (Build "runs") "1" = inl AttributeError /\
  get_config (folder_with (VList []) (VDict run_metrics))
             (String.concat "/") (Build "runs") "1" = inl TypeError.
Proof.
  split; [|split].
  - apply (get_config_raises
             (folder_with (VDict [("lr"%string, VFloat 1); ("metrics"%string, VInt 3)])
                          (VDict run_metrics))
             (String.concat "/") (Build "runs") "1"
             (VDict [("lr"%string, VFloat 1); ("metrics"%string, VInt 3)]) eq_refl).
    reflexivity.
  - apply (get_config_raises
             (folder_with (VDict [("seed"%string, VInt 7); ("metrics"%string, VInt 3)])
                          (VDict run_metrics))
             (String.concat "/") (Build "runs") "1"
             (VDict [("seed"%string, VInt 7); ("metrics"%string, VInt 3)]) eq_refl)
      with (m := VInt 3); [discriminate|reflexivity|discriminate].
  - exact (get_config_raises
             (folder_with (VList []) (VDict run_metrics))
             (String.concat "/") (Build "runs") "1" (VList []) eq_refl).
Defined.

Lemma get_metrics_of_a_run :
  exists metrics',
    get_metrics (folder_with (VDict run_config) (VDict run_metrics)) (String.concat "/")
                (Build "runs") "1" = inr (VDict metrics') /\
    Forall2 (fun kv kv' => fst kv' = fst kv /\ getitem (snd kv) "values" = inr (snd kv'))
            run_metrics metrics'.
Proof.
  apply (get_metrics_keeps_the_values
           (folder_with (VDict run_config) (VDict run_metrics)) (String.concat "/")
           (Build "runs") "1" run_metrics).
  - reflexivity.
  - repeat (apply NoDup_cons_2;
            [intros H; repeat (apply elem_of_cons in H as [H|H]; [discriminate H|]);
             by apply elem_of_nil in H|]).
    apply NoDup_nil_2.
  - repeat constructor; by eexists.
Defined.

Lemma get_metrics_of_a_run_without_values :
  exists e,
    get_metrics (folder_with (VDict run_config)
                   (VDict [("loss"%string, VDict [("values"%string, VList [])]);
                           ("acc"%string, VList [VFloat 0])]))
                (String.concat "/") (Build "runs") "1" = inl e /\
    (e = KeyError \/ e = TypeError).
Proof.
  apply (get_metrics_raises
           (folder_with (VDict run_config)
              (VDict [("loss"%string, VDict [("values"%string, VList [])]);
                      ("acc"%string, VList [VFloat 0])]))
           (String.concat "/") (Build "runs") "1"
           (VDict [("loss"%string, VDict [("values"%string, VList [])]);
                   ("acc"%string, VList [VFloat 0])]) eq_refl).
  apply Exists_cons_tl, Exists_cons_hd. intros x. discriminate.
Defined.

End ExtractorsFacts.

(** ** C3 *)

Lemma continuity_interpolant (t0 t1 x y : R) : continuity (interpolant t0 t1 x y).
Proof.
  change (continuity (fct_cte x + fct_cte (y - x)
                      * ((id - fct_cte t0) * fct_cte (/ (t1 - t0))))%F).
  assert (Hc : forall k, continuity (fct_cte k)) by (intros k; by apply continuity_const).
  apply continuity_plus; [apply Hc|].
  apply continuity_mult; [apply Hc|].
  apply continuity_mult; [|apply Hc].
  apply continuity_minus; [apply derivable_continuous, derivable_id|apply Hc].
Qed.

Lemma continuity_squared_norm_at (t0 t1 : R) (a b : list R) :
  continuity (squared_norm_at t0 t1 a b).
Proof.
  revert b. induction a as [|x a IH]; intros b.
  - by apply continuity_const.
  - destruct b as [|y b]; [by apply continuity_const|].
    change (continuity (interpolant t0 t1 x y * interpolant t0 t1 x y
                        + squared_norm_at t0 t1 a b)%F).
    apply continuity_plus; [|apply IH].
    apply continuity_mult; apply continuity_interpolant.
Qed.

(** The closed form of the kernel for one segment is the Riemann integral,
    over the segment, of the squared norm of the linear function between
    the two points. *)
Lemma segment_integral_is_the_integral (t0 t1 : R) (a b : list R)
    (pr : Riemann_integrable (squared_norm_at t0 t1 a b) t0 t1) :
  (t0 < t1)%R -> RiemannInt pr = segment_integral (t1 - t0) a b.
Proof.
  intros Hlt.
  pose (dF := fun t => exist (fun k => derivable_pt_abs (squared_norm_primitive t0 t1 a b) t k)
                         (squared_norm_at t0 t1 a b t)
                         (derivable_squared_norm_primitive t0 t1 a b t Hlt)).
  pose (F := @mkC1 (squared_norm_primitive t0 t1 a b) dF (continuity_squared_norm_at t0 t1 a b)).
  etransitivity; [exact (@FTC_Riemann F t0 t1 pr)|]. cbn [c1 F].
  destruct (squared_norm_primitive_ends t0 t1 a b Hlt) as [-> ->]. lra.
Qed.

Lemma difference_of_points (t0 t1 t : R) (f0 : list R) :
  forall f1 g0 g1 : list R,
    zip_with Rminus (point_at t0 t1 f0 f1 t) (point_at t0 t1 g0 g1 t)
    = point_at t0 t1 (zip_with Rminus f0 g0) (zip_with Rminus f1 g1) t.
Proof.
  unfold point_at.
  induction f0 as [|x f0 IH]; intros [|y f1] [|z g0] [|w g1]; cbn; try done.
  rewrite IH. f_equal. unfold interpolant. ring.
Qed.

Lemma scaled_point (t0 t1 t : R) (p : list R) :
  forall q w : list R,
    zip_with Rmult (point_at t0 t1 p q t) w
    = point_at t0 t1 (zip_with Rmult p w) (zip_with Rmult q w) t.
Proof.
  unfold point_at.
  induction p as [|x p IH]; intros [|y q] [|z w]; cbn; try done.
  rewrite IH. f_equal. unfold interpolant. ring.
Qed.

Lemma point_at_zeros (t0 t1 t : R) (n : nat) :
  point_at t0 t1 (repeat 0%R n) (repeat 0%R n) t = repeat 0%R n.
Proof.
  unfold point_at. induction n as [|n IH]; cbn; [done|].
  rewrite IH. f_equal. unfold interpolant. ring.
Qed.

Lemma combined_point (t0 t1 t x y : R) (r : list R) :
  forall u v : list R,
    zip_with Rplus (map (Rmult (interpolant t0 t1 x y t)) r) (point_at t0 t1 u v t)
    = point_at t0 t1 (zip_with Rplus (map (Rmult x) r) u)
                     (zip_with Rplus (map (Rmult y) r) v) t.
Proof.
  unfold point_at.
  induction r as [|z r IH]; intros [|a u] [|b v]; cbn; try done.
  rewrite IH. f_equal. unfold interpolant. ring.
Qed.

Lemma transformed_point_matrix (t0 t1 t : R) (cols : nat) (p : list R) :
  forall (q : list R) (w : list (list R)),
    length p = length q ->
    vec_mat cols (point_at t0 t1 p q t) w
    = point_at t0 t1 (vec_mat cols p w) (vec_mat cols q w) t.
Proof.
  unfold vec_mat.
  induction p as [|x p IH]; intros [|y q] w Hlen; try done.
  - symmetry. apply (point_at_zeros t0 t1 t cols).
  - injection Hlen as Hlen. destruct w as [|r w].
    + symmetry. apply (point_at_zeros t0 t1 t cols).
    + change (point_at t0 t1 (x :: p) (y :: q) t)
        with (interpolant t0 t1 x y t :: point_at t0 t1 p q t).
      cbn [zip zip_with fold_right fst snd].
      fold (zip (point_at t0 t1 p q t) w). fold (zip p w). fold (zip q w).
      rewrite (IH q w Hlen). apply combined_point.
Qed.

(** [A] is linear: it maps the point at time [t] between two points to the
    point at time [t] between their images. *)
Lemma transformed_point (A : tensor) (t0 t1 t : R) (p q : list R) :
  length p = length q ->
  apply_pseudometric A (point_at t0 t1 p q t)
  = point_at t0 t1 (apply_pseudometric A p) (apply_pseudometric A q) t.
Proof.
  intros Hlen. unfold apply_pseudometric.
  destruct (shape A) as [|d1 [|d2 s]]; [done|apply scaled_point|].
  by apply transformed_point_matrix.
Qed.

Lemma squared_norm_of_point (t0 t1 t : R) (a : list R) :
  forall b, squared_norm (point_at t0 t1 a b t) = squared_norm_at t0 t1 a b t.
Proof.
  unfold squared_norm, point_at.
  induction a as [|x a IH]; intros [|y b]; cbn; try done. by rewrite IH.
Qed.

Lemma squared_distance_between_knots (A : tensor) (t0 t1 t : R) (f0 f1 g0 g1 : list R) :
  length f0 = length f1 -> length g0 = length g1 -> length f0 = length g0 ->
  squared_distance_at A t0 t1 f0 f1 g0 g1 t
  = squared_norm_at t0 t1 (apply_pseudometric A (zip_with Rminus f0 g0))
                          (apply_pseudometric A (zip_with Rminus f1 g1)) t.
Proof.
  intros H1 H2 H3. unfold squared_distance_at.
  rewrite difference_of_points, transformed_point, squared_norm_of_point; [done|].
  rewrite !length_zip_with. lia.
Qed.

(** For a strictly increasing time grid, what the kernel sums is the
    integral of the squared norm of [A (f - g)] over the segments. *)
Lemma path_integral_is_the_integral (A : tensor) (c : nat) (ts : list R) :
  forall f g : list (list R),
    strictly_increasing ts = true ->
    length f = length ts -> length g = length ts ->
    Forall (fun p => length p = c) f -> Forall (fun p => length p = c) g ->
    integral_over_segments A ts f g
      (path_integral ts (map (apply_pseudometric A) (zip_with (zip_with Rminus) f g))).
Proof.
  induction ts as [|t0 ts IH]; intros f g Hinc Hf Hg Hcf Hcg.
  - destruct f, g; try done. constructor.
  - destruct f as [|f0 f], g as [|g0 g]; try done.
    injection Hf as Hf. injection Hg as Hg.
    destruct ts as [|t1 ts].
    + destruct f, g; try done. constructor.
    + destruct f as [|f1 f], g as [|g1 g]; try done.
      cbn [strictly_increasing] in Hinc.
      destruct (Rlt_dec t0 t1) as [Hlt|]; [|done].
      apply Forall_cons in Hcf as [Hf0 Hcf]. apply Forall_cons in Hcg as [Hg0 Hcg].
      pose proof (Forall_inv Hcf) as Hf1. pose proof (Forall_inv Hcg) as Hg1.
      cbn in Hf1, Hg1.
      assert (Heq : forall t, squared_norm_at t0 t1
                                (apply_pseudometric A (zip_with Rminus f0 g0))
                                (apply_pseudometric A (zip_with Rminus f1 g1)) t
                              = squared_distance_at A t0 t1 f0 f1 g0 g1 t).
      { intros t. symmetry. apply squared_distance_between_knots; congruence. }
      assert (pr0 : Riemann_integrable
                      (squared_norm_at t0 t1
                         (apply_pseudometric A (zip_with Rminus f0 g0))
                         (apply_pseudometric A (zip_with Rminus f1 g1))) t0 t1).
      { apply continuity_implies_RiemannInt; [lra|].
        intros x _. apply continuity_squared_norm_at. }
      pose (pr := Riemann_integrable_ext _ (fun x _ => Heq x) pr0).
      cbn [zip_with map path_integral].
      replace (segment_integral (t1 - t0) _ _) with (RiemannInt pr).
      * apply integral_segment. by apply (IH (f1 :: f) (g1 :: g)).
      * rewrite <- (segment_integral_is_the_integral t0 t1 _ _ pr0 Hlt).
        apply RiemannInt_P18; [lra|]. intros x _. symmetry. apply Heq.
Qed.

Lemma take_zip_with_minus (n : nat) (a : list R) :
  forall b, firstn n (zip_with Rminus a b) = zip_with Rminus (firstn n a) (firstn n b).
Proof.
  revert n. induction a as [|x a IH]; intros [|n] [|y b]; cbn; try done;
    try (by rewrite IH); by destruct (take n a).
Qed.

Lemma drop_zip_with_minus (n : nat) (a : list R) :
  forall b, skipn n (zip_with Rminus a b) = zip_with Rminus (skipn n a) (skipn n b).
Proof.
  revert n. induction a as [|x a IH]; intros [|n] [|y b]; cbn; try done;
    try (by rewrite IH); by destruct (drop n a).
Qed.

Lemma chunks_of_difference (k n : nat) :
  forall a b : list R,
    chunks k n (zip_with Rminus a b)
    = zip_with (zip_with Rminus) (chunks k n a) (chunks k n b).
Proof.
  induction k as [|k IH]; intros a b; cbn; [done|].
  by rewrite take_zip_with_minus, drop_zip_with_minus, IH.
Qed.

Lemma chunks_have_length (k n : nat) :
  forall d : list R, length d = (k * n)%nat -> Forall (fun p => length p = n) (chunks k n d).
Proof.
  induction k as [|k IH]; intros d Hd; cbn; constructor.
  - rewrite length_take. lia.
  - apply IH. rewrite length_drop. lia.
Qed.

(** C3, against the kernel as the specification describes it.  For
    [times = [0, 1, 2]], [path1 = [[0], [1], [2]]], [path2 = [[0], [0], [0]]]
    and [L2Discrepancy(1, pseudometric=False)], [forward] returns the
    zero-dimensional tensor [sqrt (8 / 3)], a number between 1.63299 and
    1.63300.  In general, for a strictly increasing time grid, [path1] of
    shape [B1 ++ [l; c]], [path2] of shape [[l; c]] and the parameter [A] of
    the instance, [forward] returns a tensor of shape [B1] that holds, for
    every batch element [f] of [path1], the root of the sum over the
    segments of the time grid of the Riemann integral of the squared norm
    of [A (f t - g t)], where [f] and [g] are linear on every segment. *)
Theorem L2_is_the_root_of_the_integral (noise : nat -> nat -> R) :
  (exists created,
     identity_L2_call noise ramp_store
       = (inr 5%nat, ramp_store ++ created ++ [Tensor [] [sqrt (8 / 3)]])) /\
  (163299 / 100000 < sqrt (8 / 3) < 163300 / 100000)%R /\
  (forall (self : L2Discrepancy.t) (time path1 path2 : loc) (h : heap)
          (A : tensor) (B1 : list Z) (l c : Z) (ts d1 d2 : list R),
     h !! time = Some (Tensor [l] ts) ->
     h !! path1 = Some (Tensor (B1 ++ [l; c]) d1) ->
     h !! path2 = Some (Tensor [l; c] d2) ->
     h !! L2Discrepancy.self_arg self = Some A ->
     strictly_increasing ts = true ->
     length ts = Z.to_nat l ->
     length d1 = (Z.to_nat (numel B1) * (Z.to_nat l * Z.to_nat c))%nat ->
     length d2 = (Z.to_nat l * Z.to_nat c)%nat ->
     exists values,
       L2Discrepancy.forward self time path1 path2 h
         = (inr (length h), h ++ [Tensor B1 values]) /\
       Forall2 (fun f v =>
                  exists integral,
                    integral_over_segments A ts
                      (chunks (Z.to_nat l) (Z.to_nat c) f)
                      (chunks (Z.to_nat l) (Z.to_nat c) d2) integral /\
                    v = sqrt integral)
               (chunks (Z.to_nat (numel B1)) (Z.to_nat l * Z.to_nat c) d1) values).
Proof.
  split; [|split].
  - unfold identity_L2_call, L2Discrepancy.__init__.
    erewrite bind_run; cycle 1.
    { rewrite assert_true_runs by reflexivity.
      erewrite bind_run by apply empty_parameter_run. reflexivity. }
    unfold L2Discrepancy.forward, CppDiscrepancy_forward.
    cbn [fn arg L2Discrepancy.cpp L2Discrepancy.self_arg].
    unfold l2_discrepancy.
    do 4 (erewrite bind_run by (apply load_run; reflexivity)).
    cbn [data shape]. rewrite ramp_times_increase.
    cbv -[sqrt Rminus Rplus Rmult Rdiv IZR Rinv Ropp].
    eexists [_; _]. do 10 f_equal. lra.
  - split.
    + rewrite <- (sqrt_square (163299 / 100000)) by lra.
      apply sqrt_lt_1_alt. lra.
    + rewrite <- (sqrt_square (163300 / 100000)) by lra.
      apply sqrt_lt_1_alt. lra.
  - intros self time path1 path2 h A B1 l c ts d1 d2 Ht H1 H2 HA Hinc Hts Hd1 Hd2.
    unfold L2Discrepancy.forward, CppDiscrepancy_forward.
    cbn [fn arg L2Discrepancy.cpp]. unfold l2_discrepancy.
    erewrite bind_run by (apply load_run; exact Ht).
    erewrite bind_run by (apply load_run; exact H1).
    erewrite bind_run by (apply load_run; exact H2).
    erewrite bind_run by (apply load_run; exact HA).
    rewrite batch_dims_of_path.
    change (batch_dims (Tensor [l; c] d2)) with (@nil Z).
    cbn [shape data]. rewrite Hinc.
    replace (B1 ++ [l; c]) with ((B1 ++ [l]) ++ [c]) by (by rewrite <- app_assoc).
    rewrite last_last. change (List.last [l; c] 0) with c.
    rewrite Z.eqb_refl. unfold shape_eqb. rewrite bool_decide_eq_true_2 by done.
    cbn [negb]. rewrite Hts.
    eexists. split; [reflexivity|].
    apply Forall2_fmap_r, Forall_Forall2_diag.
    eapply Forall_impl;
      [apply (chunks_have_length (Z.to_nat (numel B1)) (Z.to_nat l * Z.to_nat c) d1 Hd1)|].
    intros f Hf. cbn in Hf. eexists. split; [|reflexivity].
    rewrite chunks_of_difference.
    apply (path_integral_is_the_integral A (Z.to_nat c)); try done.
    + by rewrite chunks_length.
    + by rewrite chunks_length.
    + by apply chunks_have_length.
    + by apply chunks_have_length.
Qed.

Lemma L2_of_the_ramp_is_the_root_of_an_integral :
  exists values,
    L2Discrepancy.forward (L2Discrepancy.Build 1 false "general" 3%nat)
        0%nat 1%nat 2%nat ramp_store_with_arg
      = (inr 4%nat, ramp_store_with_arg ++ [Tensor [] values]) /\
    Forall2 (fun f v =>
               exists integral,
                 integral_over_segments (zeros []) [0%R; 1%R; 2%R]
                   (chunks 3 1 f) (chunks 3 1 [0%R; 0%R; 0%R]) integral /\
                 v = sqrt integral)
            (chunks 1 3 [0%R; 1%R; 2%R]) values.
Proof.
  destruct (L2_is_the_root_of_the_integral constant_noise) as (_ & _ & H).
  apply (H (L2Discrepancy.Build 1 false "general" 3%nat) 0%nat 1%nat 2%nat
           ramp_store_with_arg (zeros []) [] 3 1
           [0%R; 1%R; 2%R] [0%R; 1%R; 2%R] [0%R; 0%R; 0%R]);
    try reflexivity.
  apply ramp_times_increase.
Defined.

(** ** C2 *)

Lemma ones_are_repeated (B : list Z) : Forall (eq 1) B -> B = repeat 1 (length B).
Proof. induction 1 as [|x B <- _ IH]; cbn; [done|]. by rewrite <- IH. Qed.

Lemma ones_reversed (B : list Z) : Forall (eq 1) B -> rev B = B.
Proof.
  intros HB. rewrite (ones_are_repeated B HB).
  generalize (length B). intros n. induction n as [|n IH]; cbn; [done|].
  rewrite IH. symmetry. apply (repeat_cons n 1).
Qed.

Lemma ones_nonneg (B : list Z) : Forall (eq 1) B -> Forall (Z.le 0) B.
Proof. intros HB. eapply Forall_impl; [exact HB|]. intros x <-. lia. Qed.

Lemma numel_ones (B : list Z) : Forall (eq 1) B -> numel B = 1.
Proof. induction 1 as [|x B <- _ IH]; cbn; [done|]. fold (numel B). lia. Qed.

(** The norm over the last dimension of the difference of a tensor with
    itself, for a batch shape of one element. *)
Lemma norm_of_zero_batch (p : pnorm) (S : list Z) (c : Z) (x : list R) :
  numel S = 1 -> 0 < c ->
  norm p (Tensor (S ++ [c]) (zip_with Rminus x x)) = inr (Tensor S [0%R]).
Proof.
  intros HS Hc. rewrite norm_last by done. rewrite HS.
  change (Z.to_nat 1) with 1%nat. cbn [chunks map]. do 3 f_equal.
  apply vector_norm_zero, Forall_take, zip_with_minus_diag.
Qed.

(** Lines 191-215 on two references to tensors with the same elements, for
    a batch of one path. *)
Lemma distance_of_a_single_path_to_itself
    (sg : signatory_module) (self : LogsignatureDiscrepancy.t) (path1 path2 : loc)
    (h : heap) (B : list Z) (l c : Z) (d : list R) :
  LogsignatureDiscrepancy.logsignature self
    = Logsignature sg (LogsignatureDiscrepancy.depth self) ->
  LogsignatureDiscrepancy.pseudometric self = false ->
  h !! path1 = Some (Tensor (B ++ [l; c]) d) ->
  h !! path2 = Some (Tensor (B ++ [l; c]) d) ->
  Forall (eq 1) B -> 0 < l -> 0 < c ->
  0 < logsignature_channels sg c (LogsignatureDiscrepancy.depth self) ->
  exists created,
    LogsignatureDiscrepancy.logsignature_distance self B B path1 path2 h
      = (inr (length h + length created)%nat, h ++ created ++ [Tensor (B ++ B) [0%R]]) /\
    Tensor [numel B; logsignature_channels sg c (LogsignatureDiscrepancy.depth self)]
           (logsignatures_of sg (LogsignatureDiscrepancy.depth self) (numel B) l c d)
      ∈ created.
Proof.
  destruct self as [ic depth p it pm mt lin ls]. cbn. intros -> -> H1 H2 HB1 Hl Hc HD.
  pose proof (ones_nonneg B HB1) as HB.
  unfold LogsignatureDiscrepancy.logsignature_distance.
  cbn [LogsignatureDiscrepancy.pseudometric
       LogsignatureDiscrepancy.logsignature LogsignatureDiscrepancy.p].
  run_step ltac:(eapply (single_batch_run _ _ B); [find_object|done..]).
  run_step ltac:(eapply (single_batch_run _ _ B); [find_object|done..]).
  run_step ltac:(eapply call1_run; [find_object|reflexivity]).
  run_step ltac:(eapply call1_run; [find_object|reflexivity]).
  cbn [data].
  change (concat (map _ (chunks (Z.to_nat (numel B)) (Z.to_nat (l * c)) d)))
    with (logsignatures_of sg depth (numel B) l c d).
  set (x := logsignatures_of sg depth (numel B) l c d).
  set (D := logsignature_channels sg c depth) in *.
  run_step ltac:(eapply (restore_batch_run _ _ B); [find_object|done|lia]).
  run_step ltac:(eapply (restore_batch_run _ _ B); [find_object|done|lia]).
  run_step ltac:(eapply unsqueeze_front_loop; find_object). tidy_insert.
  run_step ltac:(eapply unsqueeze_before_last_loop; find_object). tidy_insert.
  run_step ltac:(eapply size_of_run; [find_object|apply size_last_of_three]).
  assert (HfD : Forall (Z.le 0) [D]) by (repeat constructor; lia).
  run_step ltac:(eapply call1_run;
    [find_object
    |apply expand_fits, Forall2_app;
       [by apply fits_same|apply Forall2_app; [by apply fits_ones|by apply fits_same]]]).
  run_step ltac:(eapply size_of_run; [find_object|apply size_last_of_three]).
  run_step ltac:(eapply call1_run;
    [find_object
    |apply expand_fits, Forall2_app;
       [by apply fits_ones|apply Forall2_app; by apply fits_same]]).
  run_step ltac:(eapply call2_run; [find_object|find_object|apply pointwise_same]).
  run_step ltac:(reflexivity).
  assert (Hones : B ++ repeat 1 (length B) ++ [D] = repeat 1 (length B) ++ B ++ [D])
    by (by rewrite <- (ones_are_repeated B HB1)).
  rewrite Hones.
  erewrite call1_run; [|find_object|].
  2:{ rewrite (app_assoc B B [D]). apply norm_of_zero_batch; [|done].
      rewrite numel_app, (numel_ones B HB1). done. }
  tidy_store. eexists [_; _; _; _; _; _; _; _; _]. split; [reflexivity|].
  apply list_elem_of_lookup. by exists 2%nat.
Qed.

(** The loop of lines 184-187, with the elements it leaves in the time
    channel. *)
Lemma time_channel_loop_data (dims : list Z) :
  forall (tc : loc) (h : heap) (s : list Z) (d : list R),
    h !! tc = Some (Tensor s d) -> Forall (Z.le 0) dims -> Forall (Z.le 0) s ->
    exists created tc',
      foldM LogsignatureDiscrepancy.expand_time_channel tc dims h = (inr tc', h ++ created) /\
      (h ++ created) !! tc' = Some (Tensor (rev dims ++ s) (time_channel_data dims s d)).
Proof.
  induction dims as [|dim dims IH]; intros tc h s d Htc Hdims Hs.
  - exists [], tc. rewrite app_nil_r. by split.
  - apply Forall_cons in Hdims as [Hdim Hdims].
    set (u := Tensor (1 :: s) d).
    set (e := Tensor (dim :: s) (expand_data (1 :: s) (dim :: s) d)).
    destruct (IH (length (h ++ [u])) ((h ++ [u]) ++ [e]) (dim :: s)
                 (expand_data (1 :: s) (dim :: s) d))
      as (created & tc' & Hrun & Hlook);
      [apply lookup_last|done|by constructor|].
    exists (u :: e :: created), tc'.
    replace (h ++ u :: e :: created) with (((h ++ [u]) ++ [e]) ++ created)
      by (by rewrite <- !app_assoc).
    split.
    + cbn [foldM]. erewrite bind_run; [exact Hrun|].
      unfold LogsignatureDiscrepancy.expand_time_channel.
      erewrite bind_run by (eapply call1_run; [exact Htc|apply unsqueeze_front]).
      erewrite bind_run
        by (unfold shape_of; erewrite bind_run
              by (apply load_run, lookup_app_l_Some, Htc); reflexivity).
      eapply call1_run; [apply lookup_last|].
      apply expand_fits. constructor; [lia|by apply fits_same].
    + cbn [rev time_channel_data].
      replace ((rev dims ++ [dim]) ++ s) with (rev dims ++ dim :: s)
        by (by rewrite <- app_assoc).
      exact Hlook.
Qed.

(** Lines 181-189 with the same path as both arguments: the two paths with
    the time channel have the same elements. *)
Lemma append_time_of_one_path (times path : loc) (h : heap)
    (B : list Z) (l c : Z) (dt d : list R) :
  h !! times = Some (Tensor [l] dt) ->
  h !! path = Some (Tensor (B ++ [l; c]) d) ->
  Forall (Z.le 0) B -> 0 < l -> rev B = B ->
  exists created q1 q2,
    LogsignatureDiscrepancy.append_time times path path B B h
      = (inr (q1, q2), h ++ created) /\
    (h ++ created) !! q1
      = Some (Tensor (B ++ [l; 1 + c]) (points_for_signatory true B l c dt d)) /\
    (h ++ created) !! q2
      = Some (Tensor (B ++ [l; 1 + c]) (points_for_signatory true B l c dt d)).
Proof.
  intros Ht Hp HB Hl Hr.
  set (tc := Tensor ([l] ++ [1]) dt).
  assert (Hs : Forall (Z.le 0) ([l] ++ [1])) by (repeat constructor; lia).
  destruct (time_channel_loop_data B (length h) (h ++ [tc]) _ dt (lookup_last h tc) HB Hs)
    as (cr1 & tc1 & Hrun1 & Hl1).
  assert (Htc : ((h ++ [tc]) ++ cr1) !! length h = Some tc)
    by apply lookup_app_l_Some, lookup_last.
  destruct (time_channel_loop_data B (length h) ((h ++ [tc]) ++ cr1) _ dt Htc HB Hs)
    as (cr2 & tc2 & Hrun2 & Hl2).
  rewrite Hr in Hl1, Hl2. cbn [app] in Hl1, Hl2.
  set (h2 := ((h ++ [tc]) ++ cr1) ++ cr2) in *.
  assert (Hold : forall q x, h !! q = Some x -> h2 !! q = Some x).
  { intros q x Hq. unfold h2. by do 3 apply lookup_app_l_Some. }
  pose (p1 := Tensor (B ++ [l; 1 + c]) (points_for_signatory true B l c dt d)).
  exists (([tc] ++ cr1 ++ cr2) ++ [p1; p1]), (length h2), (length (h2 ++ [p1])).
  replace (h ++ ([tc] ++ cr1 ++ cr2) ++ [p1; p1]) with ((h2 ++ [p1]) ++ [p1])
    by (unfold h2; by rewrite <- !app_assoc).
  split; [|split].
  - unfold LogsignatureDiscrepancy.append_time.
    erewrite bind_run by (eapply call1_run; [exact Ht|apply unsqueeze_last]).
    erewrite bind_run by exact Hrun1.
    erewrite bind_run by exact Hrun2.
    erewrite bind_run
      by (eapply call2_run; [apply lookup_app_l_Some, Hl1|by apply Hold|apply cat_time_channel]).
    erewrite bind_run
      by (eapply call2_run;
          [apply lookup_app_l_Some, Hl2|by apply lookup_app_l_Some, Hold
          |apply cat_time_channel]).
    reflexivity.
  - apply lookup_app_l_Some, lookup_last.
  - apply lookup_last.
Qed.

Lemma small_numbers_are_finite (x : R) : (Rabs x <= 1024)%R -> finite_float x.
Proof.
  intros Hx. unfold finite_float, float32_max.
  assert (H10 : (1024 <= 2 ^ 127)%R).
  { replace 1024%R with (2 ^ 10)%R by (simpl; lra). apply Rle_pow; [lra|lia]. }
  assert (H23 : (0 < / 2 ^ 23 <= / 2)%R).
  { split; [apply Rinv_0_lt_compat, pow_lt; lra|].
    apply Rinv_le_contravar; [lra|].
    replace 2%R with (2 ^ 1)%R at 1 by (simpl; lra). apply Rle_pow; [lra|lia]. }
  assert (H1 : (1 <= 2 - / 2 ^ 23)%R) by lra.
  eapply Rle_trans; [exact Hx|].
  eapply Rle_trans; [exact H10|].
  rewrite <- (Rmult_1_l (2 ^ 127)) at 1.
  apply Rmult_le_compat_r; [lra|exact H1].
Qed.

(** C2, amended.  For a batch that holds one path, of shape [B ++ [l; c]]
    with every batch dimension of size one (no batch dimension at all
    included), with at least two points and a time grid of the same length,
    [forward(times, path, path)] with [pseudometric=False] returns the
    tensor 0 of shape [B ++ B], for either value of [include_time], every
    positive depth and every [p], provided the logsignature [signatory]
    returns for the path holds finite numbers only: the two logsignatures
    subtracted have the same finite elements, so their difference is a
    vector of zeros.  The logsignature is assumed to have at least one
    channel. *)
Theorem forward_of_a_single_path_with_itself
    (sg : signatory_module) (self : LogsignatureDiscrepancy.t) (times path : loc)
    (h : heap) (t pt : tensor) (B : list Z) (l c : Z) :
  LogsignatureDiscrepancy.logsignature self
    = Logsignature sg (LogsignatureDiscrepancy.depth self) ->
  LogsignatureDiscrepancy.pseudometric self = false ->
  h !! times = Some t -> h !! path = Some pt ->
  shape t = [l] -> shape pt = B ++ [l; c] -> Forall (eq 1) B -> 1 < l -> 0 < c ->
  0 < LogsignatureDiscrepancy.depth self ->
  0 < logsignature_channels sg
        (if LogsignatureDiscrepancy.include_time self then 1 + c else c)
        (LogsignatureDiscrepancy.depth self) ->
  Forall finite_float
    (logsignatures_of sg (LogsignatureDiscrepancy.depth self) (numel B) l
       (if LogsignatureDiscrepancy.include_time self then 1 + c else c)
       (points_for_signatory (LogsignatureDiscrepancy.include_time self) B l c
          (data t) (data pt))) ->
  exists created logsignature,
    LogsignatureDiscrepancy.forward self times path path h
      = (inr (length h + length created)%nat, h ++ created ++ [Tensor (B ++ B) [0%R]]) /\
    Tensor [numel B;
            logsignature_channels sg
              (if LogsignatureDiscrepancy.include_time self then 1 + c else c)
              (LogsignatureDiscrepancy.depth self)] logsignature ∈ created /\
    Forall finite_float logsignature.
Proof.
  intros Hls Hpm Ht Hp Est Esp HB1 Hl1 Hc _ HD Hfin.
  assert (Hl : 0 < l) by lia.
  pose proof (ones_nonneg B HB1) as HB.
  destruct t as [ts td], pt as [ps pd]. cbn in Est, Esp. subst ts ps.
  cbn [data] in Hfin.
  unfold LogsignatureDiscrepancy.forward.
  run_step ltac:(apply load_run; find_object).
  run_step ltac:(apply load_run; find_object).
  rewrite !batch_dims_of_path.
  destruct (LogsignatureDiscrepancy.include_time self).
  - destruct (append_time_of_one_path times path h B l c td pd)
      as (cr & q1 & q2 & Hrun & Hq1 & Hq2); try done; [by apply ones_reversed|].
    erewrite bind_run by exact Hrun.
    destruct (distance_of_a_single_path_to_itself sg self q1 q2 (h ++ cr) B l (1 + c)
                (points_for_signatory true B l c td pd))
      as (created & Hdist & Hin); try done; [lia|].
    eexists (cr ++ created), _. split; [|split; [|exact Hfin]].
    + rewrite Hdist. f_equal; [f_equal; rewrite !length_app; lia|by rewrite <- !app_assoc].
    + apply elem_of_app. by right.
  - run_step ltac:(reflexivity).
    destruct (distance_of_a_single_path_to_itself sg self path path h B l c pd)
      as (created & Hdist & Hin); try done.
    eexists created, _. split; [exact Hdist|]. split; [exact Hin|exact Hfin].
Qed.

Lemma forward_of_a_ramp_with_itself :
  exists created logsignature,
    LogsignatureDiscrepancy.forward
      (LogsignatureDiscrepancy.Build 1 1 (PFin 2) true false "general" None
         (Logsignature depth_one_signatory 1))
      0%nat 1%nat 1%nat
      [Tensor [3] [0%R; 1%R; 2%R]; Tensor [1; 3; 1] [0%R; 1%R; 2%R]]
    = (inr (2 + length created)%nat,
       [Tensor [3] [0%R; 1%R; 2%R]; Tensor [1; 3; 1] [0%R; 1%R; 2%R]]
         ++ created ++ [Tensor ([1] ++ [1]) [0%R]]) /\
    Tensor [numel [1]; 2] logsignature ∈ created /\
    Forall finite_float logsignature.
Proof.
  apply (forward_of_a_single_path_with_itself depth_one_signatory
           (LogsignatureDiscrepancy.Build 1 1 (PFin 2) true false "general" None
              (Logsignature depth_one_signatory 1))
           0%nat 1%nat
           [Tensor [3] [0%R; 1%R; 2%R]; Tensor [1; 3; 1] [0%R; 1%R; 2%R]]
           (Tensor [3] [0%R; 1%R; 2%R]) (Tensor [1; 3; 1] [0%R; 1%R; 2%R]) [1] 3 1);
    try reflexivity; try lia.
  - by constructor.
  - cbv -[Rminus Rplus Rmult Rdiv IZR Rinv Ropp finite_float].
    repeat (apply Forall_cons; split;
            [apply small_numbers_are_finite; rewrite Rabs_right by lra; lra|]).
    apply Forall_nil_2.
Defined.
